(** * Student attendance management: the submission and query flows

    A shallow embedding of

    - the attendance part of the database schema
      (supabase/migrations/20251021113256_798ee149-….sql): the tables, their
      PRIMARY KEY / UNIQUE / FOREIGN KEY / CHECK constraints, the row-level
      security policies on attendance rows, the functions
      [calculate_attendance_percentage] and [get_student_attendance_summary]
      and the views [student_attendance_stats] and [class_attendance_report];
    - the page [MarkAttendance] ([loadClasses], [loadStudents],
      [toggleAttendance], [handleSubmit]);
    - the page [CheckAttendance] ([loadClasses], [fetchAttendance]).

    The database is a record of tables, each table a list of rows in insertion
    order.  A request of the data-access client is answered by the database,
    or fails in transport: it never arrives, or it is carried out and its
    answer is lost on the way back.  A select returns its rows in an order of
    the backend's choosing, as far as no ORDER BY settles it.  Which of these
    happens is an input of every handler. *)

From Stdlib Require Import ZArith QArith Qabs.
From stdpp Require Import base decidable option list strings sorting.

Local Open Scope string_scope.
Local Open Scope list_scope.

(** ** The backend *)

Module Pg.

(** [UUID] columns travel as strings; a [DATE] is the calendar day it
    denotes, numbered from some fixed origin. *)
Definition uuid := string.
Definition date := Z.

(** The columns of [profiles] a page can observe: the trigger
    [handle_new_user] stores one row per user that signs up, and
    [attendance_sessions.marked_by] references it. *)
Record profile_row := {
  pr_id : uuid;
  pr_full_name : string;
  pr_email : string }.

Record student_row := {
  st_id : uuid;
  st_roll_number : string;
  st_full_name : string }.

Record class_row := {
  cl_id : uuid;
  cl_class_code : string;
  cl_class_name : string }.

Record enrollment_row := {
  en_student_id : uuid;
  en_class_id : uuid }.

Record session_row := {
  se_id : uuid;
  se_class_id : uuid;
  se_session_date : date;
  se_marked_by : option uuid }.

(** The columns of [attendance_records] that a client writes or reads.  [id],
    [remarks] and the two timestamps are filled by column defaults and no
    page selects them. *)
Record record_row := {
  ar_session_id : uuid;
  ar_student_id : uuid;
  ar_status : string }.

#[global] Instance profile_row_eq_dec : EqDecision profile_row.
Proof. solve_decision. Defined.
#[global] Instance student_row_eq_dec : EqDecision student_row.
Proof. solve_decision. Defined.
#[global] Instance class_row_eq_dec : EqDecision class_row.
Proof. solve_decision. Defined.
#[global] Instance enrollment_row_eq_dec : EqDecision enrollment_row.
Proof. solve_decision. Defined.
#[global] Instance session_row_eq_dec : EqDecision session_row.
Proof. solve_decision. Defined.
#[global] Instance record_row_eq_dec : EqDecision record_row.
Proof. solve_decision. Defined.

Record database := {
  profiles : list profile_row;
  students : list student_row;
  classes : list class_row;
  class_enrollments : list enrollment_row;
  attendance_sessions : list session_row;
  attendance_records : list record_row }.

Definition with_sessions (db : database) (l : list session_row) : database :=
  {| profiles := profiles db;
     students := students db; classes := classes db;
     class_enrollments := class_enrollments db;
     attendance_sessions := l;
     attendance_records := attendance_records db |}.

Definition with_records (db : database) (l : list record_row) : database :=
  {| profiles := profiles db;
     students := students db; classes := classes db;
     class_enrollments := class_enrollments db;
     attendance_sessions := attendance_sessions db;
     attendance_records := l |}.

(** What a request can come back with instead of data. *)
Inductive pg_error :=
| transport (message : string)
| not_single_row
| rls_violation (table : string)
| unique_violation (constraint_name : string)
| foreign_key_violation (constraint_name : string)
| check_violation (constraint_name : string).

(** The [{ data, error }] pair of the client: exactly one of the two is
    set. *)
Inductive response (A : Type) :=
| Ok (data : A)
| Failed (error : pg_error).
Arguments Ok {A} data.
Arguments Failed {A} error.

(** [data] of a nullable answer is [null] when the request failed. *)
Definition data_or_null {A} (r : response (option A)) : option A :=
  match r with
  | Ok d => d
  | Failed _ => None
  end.

(** What can happen to a request in transport: it never reaches the
    database, or the database carries it out and the answer is lost on the
    way back.  The client is handed the same error object in both cases. *)
Inductive fault :=
| request_lost (message : string)
| answer_lost (message : string).

Definition fault_message (f : fault) : string :=
  match f with
  | request_lost message | answer_lost message => message
  end.

Definition call {A} (f : option fault)
    (op : database → database * response A) (db : database)
    : database * response A :=
  match f with
  | None => op db
  | Some (request_lost message) => (db, Failed (transport message))
  | Some (answer_lost message) => ((op db).1, Failed (transport message))
  end.

(** A select without ORDER BY promises its rows, not their order: which order
    the executor produces is its own business, and may differ from one
    request to the next.  [arrange] is that order for one request. *)
Record row_order (A : Type) := {
  arrange : list A → list A;
  arrange_rows : ∀ rows, arrange rows ≡ₚ rows }.
Arguments arrange {A} _ _.
Arguments arrange_rows {A} _ _.

(** Two orders for the examples: as inserted, and newest first. *)
Definition as_inserted {A} : row_order A :=
  {| arrange := λ rows, rows; arrange_rows := λ rows, reflexivity rows |}.

Definition newest_first {A} : row_order A :=
  {| arrange := reverse; arrange_rows := reverse_Permutation |}.

Definition maybeSingle {A} (rows : list A) : response (option A) :=
  match rows with
  | [] => Ok None
  | [r] => Ok (Some r)
  | _ => Failed not_single_row
  end.

(** [p IS NULL OR column = p], and the like for the two date bounds; a
    nullable foreign key is checked the same way. *)
Definition null_or {A} (p : option A) (holds : A → Prop) : Prop :=
  match p with
  | None => True
  | Some v => holds v
  end.

#[global] Instance null_or_dec {A} (p : option A) (holds : A → Prop)
  `{∀ v, Decision (holds v)} : Decision (null_or p holds).
Proof. destruct p; simpl; apply _. Defined.

(** The keys of the two UNIQUE constraints on attendance rows. *)
Definition session_key (s : session_row) : uuid * date :=
  (se_class_id s, se_session_date s).
Definition record_key (r : record_row) : uuid * uuid :=
  (ar_session_id r, ar_student_id r).

(** [CHECK (status IN ('PRESENT', 'ABSENT', 'LATE', 'EXCUSED'))] *)
Definition status_values : list string :=
  ["PRESENT"; "ABSENT"; "LATE"; "EXCUSED"].

(** The policies on [attendance_records] for INSERT, UPDATE and DELETE:
    [EXISTS (SELECT 1 FROM attendance_sessions
             WHERE id = session_id AND marked_by = auth.uid())]. *)
Definition marked_by_caller (uid : uuid) (db : database) (r : record_row)
    : Prop :=
  Exists (λ s, se_id s = ar_session_id r ∧ se_marked_by s = Some uid)
         (attendance_sessions db).

#[global] Instance marked_by_caller_dec uid db r :
  Decision (marked_by_caller uid db r).
Proof. unfold marked_by_caller. apply _. Defined.

(** [from("attendance_sessions").select("id").eq("class_id", c)
      .eq("session_date", d).maybeSingle()] *)
Definition select_session (class_id : uuid) (d : date) (db : database)
    : database * response (option session_row) :=
  (db, maybeSingle
         (filter (λ s, se_class_id s = class_id ∧ se_session_date s = d)
                 (attendance_sessions db))).

(** [from("attendance_sessions").insert({...}).select().single()]; the id is
    the column default [gen_random_uuid()], drawn by the database.  The
    INSERT policy is [WITH CHECK (auth.uid() = marked_by)]; [class_id] and a
    [marked_by] that is not NULL must point to stored rows. *)
Definition insert_session (uid : uuid) (gen_random_uuid : uuid)
    (class_id : uuid) (session_date : date) (marked_by : option uuid)
    (db : database) : database * response session_row :=
  let row := {| se_id := gen_random_uuid; se_class_id := class_id;
                se_session_date := session_date;
                se_marked_by := marked_by |} in
  if decide (marked_by ≠ Some uid) then
    (db, Failed (rls_violation "attendance_sessions"))
  else if decide (se_id row ∈ se_id <$> attendance_sessions db) then
    (db, Failed (unique_violation "attendance_sessions_pkey"))
  else if decide (class_id ∉ cl_id <$> classes db) then
    (db, Failed (foreign_key_violation "attendance_sessions_class_id_fkey"))
  else if decide (¬ null_or marked_by (λ p, p ∈ pr_id <$> profiles db)) then
    (db, Failed (foreign_key_violation "attendance_sessions_marked_by_fkey"))
  else if decide (session_key row ∈ session_key <$> attendance_sessions db)
  then
    (db, Failed (unique_violation
                   "attendance_sessions_class_id_session_date_key"))
  else
    (with_sessions db (attendance_sessions db ++ [row]), Ok row).

(** [from("attendance_records").delete().eq("session_id", sid)]: rows the
    DELETE policy hides from the caller are silently kept. *)
Definition delete_records (uid : uuid) (session_id : uuid) (db : database)
    : database * response unit :=
  (with_records db
     (filter (λ r, ¬ (ar_session_id r = session_id
                      ∧ marked_by_caller uid db r))
             (attendance_records db)),
   Ok tt).

(** [from("attendance_records").insert(records)]: one INSERT statement, so
    the whole batch is stored or none of it. *)
Definition insert_records (uid : uuid) (batch : list record_row)
    (db : database) : database * response unit :=
  if decide (Exists (λ r, ¬ marked_by_caller uid db r) batch) then
    (db, Failed (rls_violation "attendance_records"))
  else if decide (Exists (λ r, ar_session_id r
                                 ∉ se_id <$> attendance_sessions db) batch)
  then
    (db, Failed (foreign_key_violation "attendance_records_session_id_fkey"))
  else if decide (Exists (λ r, ar_student_id r ∉ st_id <$> students db)
                         batch)
  then
    (db, Failed (foreign_key_violation "attendance_records_student_id_fkey"))
  else if decide (Exists (λ r, ar_status r ∉ status_values) batch) then
    (db, Failed (check_violation "attendance_records_status_check"))
  else if decide (NoDup (record_key <$> attendance_records db ++ batch))
  then
    (with_records db (attendance_records db ++ batch), Ok tt)
  else
    (db, Failed (unique_violation
                   "attendance_records_session_id_student_id_key")).

(** [from("attendance_records").select(`student_id, status,
      students (roll_number, full_name)`).eq("session_id", sid)]: each
    record with the student row its foreign key points to ([null] when
    there is none).  There is no [.order(...)]. *)
Definition select_records_with_students (order : row_order record_row)
    (session_id : uuid) (db : database)
    : database * response (list (record_row * option student_row)) :=
  (db, Ok ((λ r, (r, head (filter (λ s, st_id s = ar_student_id r)
                                  (students db))))
           <$> arrange order
                 (filter (λ r, ar_session_id r = session_id)
                         (attendance_records db)))).

(** [from("class_enrollments").select(`student_id,
      students (id, roll_number, full_name)`).eq("class_id", c)], again
    without [.order(...)]. *)
Definition select_enrollments_with_students
    (order : row_order enrollment_row) (class_id : uuid) (db : database)
    : database * response (list (enrollment_row * option student_row)) :=
  (db, Ok ((λ e, (e, head (filter (λ s, st_id s = en_student_id e)
                                  (students db))))
           <$> arrange order
                 (filter (λ e, en_class_id e = class_id)
                         (class_enrollments db)))).

(** [DELETE FROM students WHERE id = sid], as administration issues it: the
    student's enrollments and records reference the row ON DELETE CASCADE
    and go with it. *)
Definition delete_student (sid : uuid) (db : database) : database :=
  {| profiles := profiles db;
     students := filter (λ s, st_id s ≠ sid) (students db);
     classes := classes db;
     class_enrollments :=
       filter (λ e, en_student_id e ≠ sid) (class_enrollments db);
     attendance_sessions := attendance_sessions db;
     attendance_records :=
       filter (λ r, ar_student_id r ≠ sid) (attendance_records db) |}.

(** *** [calculate_attendance_percentage] *)

(** [attendance_records ar JOIN attendance_sessions asess
      ON ar.session_id = asess.id] *)
Definition records_join_sessions (db : database)
    : list (record_row * session_row) :=
  r ← attendance_records db;
  s ← filter (λ s, se_id s = ar_session_id r) (attendance_sessions db);
  [(r, s)].

(** The WHERE clause the two counts share. *)
Definition in_scope (p_student_id : uuid) (p_class_id : option uuid)
    (p_start_date p_end_date : option date)
    (row : record_row * session_row) : Prop :=
  ar_student_id row.1 = p_student_id
  ∧ null_or p_class_id (λ c, se_class_id row.2 = c)
  ∧ null_or p_start_date (λ d, (d ≤ se_session_date row.2)%Z)
  ∧ null_or p_end_date (λ d, (se_session_date row.2 ≤ d)%Z).

#[global] Instance in_scope_dec s c d1 d2 row :
  Decision (in_scope s c d1 d2 row).
Proof. unfold in_scope. apply _. Defined.

(** [ROUND(x, places)] on NUMERIC: to the nearest multiple of
    [10^-places], ties away from zero. *)
Definition round (x : Q) (places : nat) : Q :=
  let scale := (10 ^ Z.of_nat places)%Z in
  let n := (Z.abs (Qnum x) * scale)%Z in
  let d := Z.pos (Qden x) in
  Qmake (Z.sgn (Qnum x) * ((2 * n + d) / (2 * d)))%Z (Z.to_pos scale).

(** The two counts are cast to NUMERIC before the division.  The quotient is
    kept exact here; PostgreSQL carries it to 16 significant digits or more,
    too fine to move a ratio of two INTEGER counts across a rounding
    boundary of the second decimal. *)
Definition calculate_attendance_percentage (db : database)
    (p_student_id : uuid) (p_class_id : option uuid)
    (p_start_date p_end_date : option date) : Q :=
  let scope := in_scope p_student_id p_class_id p_start_date p_end_date in
  (* COUNT(DISTINCT ar.session_id) *)
  let total_sessions :=
    length (remove_dups ((λ row, ar_session_id row.1)
                           <$> filter scope (records_join_sessions db))) in
  (* COUNT( * ) ... AND ar.status = 'PRESENT' *)
  let present_count :=
    length (filter (λ row, scope row ∧ ar_status row.1 = "PRESENT")
                   (records_join_sessions db)) in
  if decide (total_sessions = 0%nat) then 0%Q
  else round (inject_Z (Z.of_nat present_count)
              / inject_Z (Z.of_nat total_sessions) * 100)%Q 2.

(** *** What the schema guarantees of the attendance rows

    The constraints of the two attendance tables on the columns the pages
    read: keys, the references to classes, sessions and students, and the
    CHECK on the status. *)

Definition consistent (db : database) : Prop :=
  (* attendance_sessions: PRIMARY KEY, UNIQUE(class_id, session_date),
     class_id REFERENCES classes *)
  NoDup (se_id <$> attendance_sessions db)
  ∧ NoDup (session_key <$> attendance_sessions db)
  ∧ Forall (λ s, se_class_id s ∈ cl_id <$> classes db)
           (attendance_sessions db)
  (* attendance_records: UNIQUE(session_id, student_id), the two
     REFERENCES, CHECK (status IN ...) *)
  ∧ NoDup (record_key <$> attendance_records db)
  ∧ Forall (λ r, ar_session_id r ∈ se_id <$> attendance_sessions db)
           (attendance_records db)
  ∧ Forall (λ r, ar_student_id r ∈ st_id <$> students db)
           (attendance_records db)
  ∧ Forall (λ r, ar_status r ∈ status_values) (attendance_records db).

#[global] Instance consistent_dec db : Decision (consistent db).
Proof. unfold consistent. apply _. Defined.

End Pg.

(** ** Notifications *)

Inductive toast_variant := default | destructive.

Inductive toast_text :=
| text (s : string)
| error_message (e : Pg.pg_error).

Record toast := {
  title : string;
  description : option toast_text;
  variant : toast_variant }.

(** ** The page MarkAttendance *)

Module MarkAttendance.
Import Pg.

Record Student := {
  id : string;
  roll_number : string;
  full_name : string;
  present : bool }.

Record Class := {
  class_id : string;
  class_name : string;
  class_code : string }.

(** The signed-in user of [useAuth()]; requests carry this identity, so it
    is what [auth.uid()] evaluates to in the policies. *)
Record User := { user_id : uuid }.

Record state := {
  students : list Student;
  classes : list Class;
  selectedClass : string;
  loading : bool }.

Definition setStudents (l : list Student) (st : state) : state :=
  {| students := l; classes := classes st;
     selectedClass := selectedClass st; loading := loading st |}.

Definition setLoading (b : bool) (st : state) : state :=
  {| students := students st; classes := classes st;
     selectedClass := selectedClass st; loading := b |}.

(** [enrollments?.map((e: any) => ({ id: e.students.id, ..., present: true }))]
    reading a property of a [null] embed throws, which is [None] here. *)
Definition studentData
    (enrollments : list (enrollment_row * option student_row))
    : option (list Student) :=
  mapM (λ e : enrollment_row * option student_row,
          s ← e.2;
          Some {| id := st_id s; roll_number := st_roll_number s;
                  full_name := st_full_name s; present := true |})
       enrollments.

(** [order] and [f] are the row order and the fate of the one request.
    When the mapping throws, the handler is left with the loading flag still
    set. *)
Definition loadStudents (order : row_order enrollment_row) (f : option fault)
    (db : database) (st : state) : state * list toast :=
  if decide (selectedClass st = "") then (st, [])
  else
    let st := setLoading true st in
    match (call f (select_enrollments_with_students order (selectedClass st))
                db).2 with
    | Failed error =>
        (setLoading false st,
         [ {| title := "Error loading students";
              description := Some (error_message error);
              variant := destructive |} ])
    | Ok enrollments =>
        match studentData enrollments with
        | Some l => (setLoading false (setStudents l st), [])
        | None => (st, [])
        end
    end.

Definition toggleAttendance (sid : string) (st : state) : state :=
  setStudents
    ((λ student,
        if decide (id student = sid)
        then {| id := id student; roll_number := roll_number student;
                full_name := full_name student;
                present := negb (present student) |}
        else student) <$> students st)
    st.

(** What [handleSubmit] takes from outside the page: the day
    [new Date().toISOString().split('T')[0]] yields, the id the database
    draws should a session row be inserted, and the fate of each of the four
    requests. *)
Record submit_env := {
  today : date;
  gen_random_uuid : uuid;
  fault_select_session : option fault;
  fault_delete_records : option fault;
  fault_insert_session : option fault;
  fault_insert_records : option fault }.

(** [students.map((s) => ({ session_id: sessionId, student_id: s.id,
      status: s.present ? "PRESENT" : "ABSENT" }))] *)
Definition records_of (sessionId : uuid) (roster : list Student)
    : list record_row :=
  (λ s, {| ar_session_id := sessionId; ar_student_id := id s;
           ar_status := if present s then "PRESENT" else "ABSENT" |})
    <$> roster.

(** The body of the [try] block; [Failed e] is [throw e]. *)
Definition submit_attempt (user : User) (env : submit_env) (db : database)
    (st : state) : database * response unit :=
  let uid := user_id user in
  let existingSession :=
    data_or_null
      (call (fault_select_session env)
            (select_session (selectedClass st) (today env)) db).2 in
  let insert sessionId db :=
    call (fault_insert_records env)
         (insert_records uid (records_of sessionId (students st))) db in
  match existingSession with
  | Some s =>
      let sessionId := se_id s in
      (* the answer of the delete is awaited and dropped *)
      let db := (call (fault_delete_records env)
                      (delete_records uid sessionId) db).1 in
      insert sessionId db
  | None =>
      match call (fault_insert_session env)
                 (insert_session uid (gen_random_uuid env)
                    (selectedClass st) (today env) (Some uid)) db with
      | (db, Failed sessionError) => (db, Failed sessionError)
      | (db, Ok newSession) => insert (se_id newSession) db
      end
  end.

Definition handleSubmit (user : option User) (env : submit_env)
    (db : database) (st : state) : database * state * list toast :=
  match user with
  | Some u =>
      if decide (selectedClass st = "") then
        (db, st,
         [ {| title := "Error";
              description :=
                Some (text "Please select a class and ensure you're logged in");
              variant := destructive |} ])
      else
        let st := setLoading true st in
        match submit_attempt u env db st with
        | (db, Ok _) =>
            (db, setLoading false st,
             [ {| title := "Attendance submitted!";
                  description :=
                    Some (text "Today's attendance has been recorded successfully.");
                  variant := default |} ])
        | (db, Failed error) =>
            (db, setLoading false st,
             [ {| title := "Error submitting attendance";
                  description := Some (error_message error);
                  variant := destructive |} ])
        end
  | None =>
      (db, st,
       [ {| title := "Error";
            description :=
              Some (text "Please select a class and ensure you're logged in");
            variant := destructive |} ])
  end.

End MarkAttendance.

(** ** The page CheckAttendance *)

Module CheckAttendance.
Import Pg.

Record AttendanceRecord := {
  student_id : string;
  roll_number : string;
  full_name : string;
  status : string }.

Record Class := {
  class_id : string;
  class_name : string;
  class_code : string }.

Record state := {
  selectedDate : date;
  selectedClass : string;
  classes : list Class;
  records : list AttendanceRecord;
  hasSearched : bool;
  loading : bool }.

Definition setRecords (l : list AttendanceRecord) (st : state) : state :=
  {| selectedDate := selectedDate st; selectedClass := selectedClass st;
     classes := classes st; records := l;
     hasSearched := hasSearched st; loading := loading st |}.

Definition setHasSearched (b : bool) (st : state) : state :=
  {| selectedDate := selectedDate st; selectedClass := selectedClass st;
     classes := classes st; records := records st;
     hasSearched := b; loading := loading st |}.

Definition setLoading (b : bool) (st : state) : state :=
  {| selectedDate := selectedDate st; selectedClass := selectedClass st;
     classes := classes st; records := records st;
     hasSearched := hasSearched st; loading := b |}.

(** [attendanceData?.map((record: any) => ({ student_id: record.student_id,
      roll_number: record.students.roll_number, ... }))]; [None] when the
    mapping throws on a [null] embed. *)
Definition formattedRecords
    (attendanceData : list (record_row * option student_row))
    : option (list AttendanceRecord) :=
  mapM (λ record : record_row * option student_row,
          s ← record.2;
          Some {| student_id := ar_student_id record.1;
                  roll_number := st_roll_number s;
                  full_name := st_full_name s;
                  status := ar_status record.1 |})
       attendanceData.

(** What [fetchAttendance] takes from outside the page: the fate of its two
    requests, and the order in which the records come back. *)
Record fetch_env := {
  fault_select_session : option fault;
  fault_select_records : option fault;
  order_records : row_order record_row }.

Definition fetchAttendance (env : fetch_env) (db : database) (st : state)
    : state * list toast :=
  if decide (selectedClass st = "") then
    (st, [ {| title := "Please select a class"; description := None;
              variant := destructive |} ])
  else
    let st := setHasSearched true (setLoading true st) in
    match (call (fault_select_session env)
                (select_session (selectedClass st) (selectedDate st)) db).2
    with
    | Failed sessionError =>
        (setLoading false st,
         [ {| title := "Error fetching attendance";
              description := Some (error_message sessionError);
              variant := destructive |} ])
    | Ok None => (setLoading false (setRecords [] st), [])
    | Ok (Some session) =>
        match (call (fault_select_records env)
                    (select_records_with_students (order_records env)
                       (se_id session)) db).2
        with
        | Failed recordsError =>
            (setLoading false st,
             [ {| title := "Error fetching records";
                  description := Some (error_message recordsError);
                  variant := destructive |} ])
        | Ok attendanceData =>
            match formattedRecords attendanceData with
            | Some l => (setLoading false (setRecords l st), [])
            | None => (st, [])
            end
        end
    end.

End CheckAttendance.

(** ** The system: a database driven by the two pages *)

(** One press of "Submit Attendance" or "Fetch Attendance", with everything
    the handler reads besides the database. *)
Inductive action :=
| submit (user : option MarkAttendance.User) (env : MarkAttendance.submit_env)
         (st : MarkAttendance.state)
| fetch (env : CheckAttendance.fetch_env) (st : CheckAttendance.state).

(** The database after an action; [fetchAttendance] only selects. *)
Definition run (db : Pg.database) (a : action) : Pg.database :=
  match a with
  | submit user env st => (MarkAttendance.handleSubmit user env db st).1.1
  | fetch _ _ => db
  end.

(** The migration creates the two attendance tables empty; students, classes
    and enrollments are whatever administration has put there. *)
Definition migrated (db : Pg.database) : Prop :=
  Pg.attendance_sessions db = [] ∧ Pg.attendance_records db = [].

Definition reachable (db : Pg.database) : Prop :=
  ∃ db0 actions, migrated db0 ∧ db = foldl run db0 actions.

(** ** The percentage, as the specification words it *)

Module Spec.
Import Pg.

(** A record matches when it is the student's and its session passes the
    optional class and date-range filters. *)
Definition matching (db : database) (student : uuid)
    (class_filter : option uuid) (from_date to_date : option date)
    (r : record_row) : Prop :=
  ar_student_id r = student
  ∧ Exists (λ s, se_id s = ar_session_id r
                 ∧ null_or class_filter (λ c, se_class_id s = c)
                 ∧ null_or from_date (λ d, (d ≤ se_session_date s)%Z)
                 ∧ null_or to_date (λ d, (se_session_date s ≤ d)%Z))
           (attendance_sessions db).

#[global] Instance matching_dec db s c d1 d2 r :
  Decision (matching db s c d1 d2 r).
Proof. unfold matching. apply _. Defined.

Definition total_count (db : database) (student : uuid)
    (class_filter : option uuid) (from_date to_date : option date) : nat :=
  length (filter (matching db student class_filter from_date to_date)
                 (attendance_records db)).

Definition present_count (db : database) (student : uuid)
    (class_filter : option uuid) (from_date to_date : option date) : nat :=
  length (filter (λ r, ar_status r = "PRESENT")
            (filter (matching db student class_filter from_date to_date)
                    (attendance_records db))).

(** [x] rounded to 2 decimal places: a whole number of hundredths, at most
    half a hundredth away from [x]. *)
Definition rounded_to_2_places (x y : Q) : Prop :=
  (∃ k : Z, y = Qmake k 100) ∧ (Qabs (y - x) <= Qmake 1 200)%Q.

End Spec.

(** ** The sample data of the migration, and a teacher at work *)

Module Sample.
Import Pg.

Definition cs101 : uuid := "c-cs101".

Definition sample_students : list student_row :=
  [ {| st_id := "s-001"; st_roll_number := "STU001";
       st_full_name := "John Doe" |};
    {| st_id := "s-002"; st_roll_number := "STU002";
       st_full_name := "Mary Smith" |};
    {| st_id := "s-003"; st_roll_number := "STU003";
       st_full_name := "Christian Brown" |};
    {| st_id := "s-004"; st_roll_number := "STU004";
       st_full_name := "Ron Wilson" |};
    {| st_id := "s-005"; st_roll_number := "STU005";
       st_full_name := "Angelina Davis" |};
    {| st_id := "s-006"; st_roll_number := "STU006";
       st_full_name := "Sophie Miller" |};
    {| st_id := "s-007"; st_roll_number := "STU007";
       st_full_name := "Anne Taylor" |};
    {| st_id := "s-008"; st_roll_number := "STU008";
       st_full_name := "May Anderson" |};
    {| st_id := "s-009"; st_roll_number := "STU009";
       st_full_name := "Henry Thomas" |};
    {| st_id := "s-010"; st_roll_number := "STU010";
       st_full_name := "Paul Jackson" |} ].

(** The database after the migration and the sign-up of two teachers: every
    student enrolled in CS101, no attendance taken yet. *)
Definition db0 : database :=
  {| profiles :=
       [ {| pr_id := "t-1"; pr_full_name := "Teacher";
            pr_email := "t1@example.com" |};
         {| pr_id := "t-2"; pr_full_name := "Teacher";
            pr_email := "t2@example.com" |} ];
     students := sample_students;
     classes := [ {| cl_id := cs101; cl_class_code := "CS101";
                     cl_class_name := "Introduction to Computer Science" |} ];
     class_enrollments :=
       (λ s, {| en_student_id := st_id s; en_class_id := cs101 |})
         <$> sample_students;
     attendance_sessions := [];
     attendance_records := [] |}.

Definition teacher : MarkAttendance.User :=
  {| MarkAttendance.user_id := "t-1" |}.

Definition other_teacher : MarkAttendance.User :=
  {| MarkAttendance.user_id := "t-2" |}.

(** The page with CS101 selected, before and after its roster is loaded. *)
Definition page0 : MarkAttendance.state :=
  {| MarkAttendance.students := []; MarkAttendance.classes := [];
     MarkAttendance.selectedClass := cs101;
     MarkAttendance.loading := false |}.

Definition page1 : MarkAttendance.state :=
  (MarkAttendance.loadStudents as_inserted None db0 page0).1.

(** STU001 marked absent, the rest left present. *)
Definition page2 : MarkAttendance.state :=
  MarkAttendance.toggleAttendance "s-001" page1.

(** A day on which every request goes through. *)
Definition env_ok (g : uuid) : MarkAttendance.submit_env :=
  {| MarkAttendance.today := 20382%Z;
     MarkAttendance.gen_random_uuid := g;
     MarkAttendance.fault_select_session := None;
     MarkAttendance.fault_delete_records := None;
     MarkAttendance.fault_insert_session := None;
     MarkAttendance.fault_insert_records := None |}.

(** The database after the first submission of the day. *)
Definition db1 : database :=
  (MarkAttendance.handleSubmit (Some teacher) (env_ok "a-1") db0 page2).1.1.

(** The session that submission created. *)
Definition session1 : session_row :=
  {| se_id := "a-1"; se_class_id := cs101; se_session_date := 20382%Z;
     se_marked_by := Some "t-1" |}.

(** Later that day STU010 has left the class; the page shows the other nine,
    all present. *)
Definition page3 : MarkAttendance.state :=
  MarkAttendance.setStudents (take 9 (MarkAttendance.students page1)) page1.

(** The database after the second submission of the day. *)
Definition db2 : database :=
  (MarkAttendance.handleSubmit (Some teacher) (env_ok "a-2") db1 page3).1.1.

(** Days on which one request fails in transport: the session lookup, or the
    delete of the old records. *)
Definition env_lookup_down (g : uuid) : MarkAttendance.submit_env :=
  {| MarkAttendance.today := 20382%Z;
     MarkAttendance.gen_random_uuid := g;
     MarkAttendance.fault_select_session :=
       Some (request_lost "Failed to fetch");
     MarkAttendance.fault_delete_records := None;
     MarkAttendance.fault_insert_session := None;
     MarkAttendance.fault_insert_records := None |}.

Definition env_delete_down (g : uuid) : MarkAttendance.submit_env :=
  {| MarkAttendance.today := 20382%Z;
     MarkAttendance.gen_random_uuid := g;
     MarkAttendance.fault_select_session := None;
     MarkAttendance.fault_delete_records :=
       Some (request_lost "Failed to fetch");
     MarkAttendance.fault_insert_session := None;
     MarkAttendance.fault_insert_records := None |}.

(** A day on which the records are inserted and the answer never comes
    back. *)
Definition env_answer_lost (g : uuid) : MarkAttendance.submit_env :=
  {| MarkAttendance.today := 20382%Z;
     MarkAttendance.gen_random_uuid := g;
     MarkAttendance.fault_select_session := None;
     MarkAttendance.fault_delete_records := None;
     MarkAttendance.fault_insert_session := None;
     MarkAttendance.fault_insert_records :=
       Some (answer_lost "Failed to fetch") |}.

(** A first submission of the nine, and a page that shows STU010 alone. *)
Definition db_nine : database :=
  (MarkAttendance.handleSubmit (Some teacher) (env_ok "a-1") db0 page3).1.1.

Definition page4 : MarkAttendance.state :=
  MarkAttendance.setStudents (drop 9 (MarkAttendance.students page1)) page1.

(** A day's session for which an empty roster was submitted. *)
Definition db_empty_session : database :=
  (MarkAttendance.handleSubmit (Some teacher) (env_ok "a-1") db0 page0).1.1.

(** The query page on that day with CS101 selected, before any query and
    after one that went through on [db1]. *)
Definition fetch_ok : CheckAttendance.fetch_env :=
  {| CheckAttendance.fault_select_session := None;
     CheckAttendance.fault_select_records := None;
     CheckAttendance.order_records := as_inserted |}.

Definition fetch_records_down : CheckAttendance.fetch_env :=
  {| CheckAttendance.fault_select_session := None;
     CheckAttendance.fault_select_records :=
       Some (request_lost "Failed to fetch");
     CheckAttendance.order_records := as_inserted |}.

Definition fetch_newest_first : CheckAttendance.fetch_env :=
  {| CheckAttendance.fault_select_session := None;
     CheckAttendance.fault_select_records := None;
     CheckAttendance.order_records := newest_first |}.

Definition query0 : CheckAttendance.state :=
  {| CheckAttendance.selectedDate := 20382%Z;
     CheckAttendance.selectedClass := cs101;
     CheckAttendance.classes := [];
     CheckAttendance.records := [];
     CheckAttendance.hasSearched := false;
     CheckAttendance.loading := false |}.

Definition query1 : CheckAttendance.state :=
  (CheckAttendance.fetchAttendance fetch_ok db1 query0).1.

(** Three days of CS101: STU001 absent on the first, everybody present on
    the next two. *)
Definition env_on (day : date) (g : uuid) : MarkAttendance.submit_env :=
  {| MarkAttendance.today := day;
     MarkAttendance.gen_random_uuid := g;
     MarkAttendance.fault_select_session := None;
     MarkAttendance.fault_delete_records := None;
     MarkAttendance.fault_insert_session := None;
     MarkAttendance.fault_insert_records := None |}.

Definition db_three_days : database :=
  foldl run db0
    [ submit (Some teacher) (env_on 20382%Z "a-1") page2;
      submit (Some teacher) (env_on 20383%Z "a-2") page1;
      submit (Some teacher) (env_on 20384%Z "a-3") page1 ].

End Sample.

(** ** Further definitions *)

(** The one toast of a submission that passed the guard. *)
Definition submit_toast (r : Pg.response unit) : toast :=
  match r with
  | Pg.Ok _ =>
      {| title := "Attendance submitted!";
         description :=
           Some (text "Today's attendance has been recorded successfully.");
         variant := default |}
  | Pg.Failed error =>
      {| title := "Error submitting attendance";
         description := Some (error_message error);
         variant := destructive |}
  end.

(** What the page adds to the schema's guarantees: it stores PRESENT and
    ABSENT only, and every session it creates names its marker. *)
Definition page_made (db : Pg.database) : Prop :=
  Forall (λ r, Pg.ar_status r = "PRESENT" ∨ Pg.ar_status r = "ABSENT")
         (Pg.attendance_records db)
  ∧ Forall (λ s, is_Some (Pg.se_marked_by s)) (Pg.attendance_sessions db).

(** A roster is stored for a class and day: the class has a session that day
    and the records table ends with one record per roster entry, entry by
    entry -- of that session, of the entry's student, PRESENT when the
    entry's flag is on and ABSENT when it is off. *)
Definition roster_stored (db : Pg.database) (class_id : Pg.uuid)
    (day : Pg.date) (roster : list MarkAttendance.Student) : Prop :=
  ∃ s rows,
    s ∈ Pg.attendance_sessions db
    ∧ Pg.session_key s = (class_id, day)
    ∧ rows `suffix_of` Pg.attendance_records db
    ∧ Forall2 (λ x r, Pg.ar_session_id r = Pg.se_id s
                      ∧ Pg.ar_student_id r = MarkAttendance.id x
                      ∧ Pg.ar_status r
                        = if MarkAttendance.present x
                          then "PRESENT" else "ABSENT")
              roster rows.

(** How a displayed row renders a record: its student id and status, with
    the roll number and name of a stored student of that id. *)
Definition renders (db : Pg.database) (r : Pg.record_row)
    (row : CheckAttendance.AttendanceRecord) : Prop :=
  CheckAttendance.student_id row = Pg.ar_student_id r
  ∧ CheckAttendance.status row = Pg.ar_status r
  ∧ ∃ stu, stu ∈ Pg.students db
           ∧ Pg.st_id stu = Pg.ar_student_id r
           ∧ CheckAttendance.roll_number row = Pg.st_roll_number stu
           ∧ CheckAttendance.full_name row = Pg.st_full_name stu.

(** ** The reporting function and views of the migration *)

Module PgReports.
Import Pg.

(** [get_student_attendance_summary(p_student_id)]: one row of aggregates
    over the student's records (no join with the sessions). *)
Record attendance_summary := {
  total_sessions : nat;
  present_count : nat;
  absent_count : nat;
  late_count : nat;
  attendance_percentage : Q }.

Definition get_student_attendance_summary (db : database)
    (p_student_id : uuid) : attendance_summary :=
  let rows :=
    filter (λ r, ar_student_id r = p_student_id) (attendance_records db) in
  (* COUNT( * ) FILTER (WHERE status = v) *)
  let count_status v := length (filter (λ r, ar_status r = v) rows) in
  {| total_sessions := length rows;
     present_count := count_status "PRESENT";
     absent_count := count_status "ABSENT";
     late_count := count_status "LATE";
     attendance_percentage :=
       if decide (length rows = 0%nat) then 0%Q
       else round (inject_Z (Z.of_nat (count_status "PRESENT"))
                   / inject_Z (Z.of_nat (length rows)) * 100)%Q 2 |}.

(** [l LEFT JOIN r ON ...]: every row of [l] with each of its matches (the
    rows of [r] that pass the ON condition with it), or once with NULLs when
    it has none. *)
Definition left_rows {A B} (a : A) (matches : list B) : list (A * option B) :=
  match matches with
  | [] => [(a, None)]
  | _ => (λ b, (a, Some b)) <$> matches
  end.

Definition left_join {A B} (l : list A) (matches : A → list B)
    : list (A * option B) :=
  a ← l; left_rows a (matches a).

(** The view [student_attendance_stats]:
    [students s LEFT JOIN attendance_records ar ON s.id = ar.student_id
     GROUP BY s.id, s.roll_number, s.full_name]; the groups come in the order
    of their last row. *)
Record student_attendance_stats_row := {
  sas_student : student_row;
  sas_total_sessions : nat;
  sas_present_count : nat;
  sas_absent_count : nat;
  sas_late_count : nat;
  sas_attendance_percentage : Q }.

Definition student_attendance_stats (db : database)
    : list student_attendance_stats_row :=
  let joined :=
    left_join (students db)
      (λ s, filter (λ ar, st_id s = ar_student_id ar)
                   (attendance_records db)) in
  (λ key,
     let group := filter (λ row, row.1 = key) joined in
     (* COUNT(DISTINCT ar.session_id) *)
     let total :=
       length (remove_dups (omap (λ row, ar_session_id <$> row.2) group)) in
     (* COUNT( * ) FILTER (WHERE ar.status = v) *)
     let count_status v :=
       length (filter (λ row, ar_status <$> row.2 = Some v) group) in
     {| sas_student := key;
        sas_total_sessions := total;
        sas_present_count := count_status "PRESENT";
        sas_absent_count := count_status "ABSENT";
        sas_late_count := count_status "LATE";
        sas_attendance_percentage :=
          if decide (total = 0%nat) then 0%Q
          else round (inject_Z (Z.of_nat (count_status "PRESENT"))
                      / inject_Z (Z.of_nat total) * 100)%Q 2 |})
  <$> remove_dups (fst <$> joined).

(** The view [class_attendance_report]:
    [classes c
     LEFT JOIN attendance_sessions asess ON c.id = asess.class_id
     LEFT JOIN class_enrollments ce ON c.id = ce.class_id
     LEFT JOIN attendance_records ar ON asess.id = ar.session_id
     GROUP BY c.id, c.class_code, c.class_name]. *)
Record class_attendance_report_row := {
  car_class : class_row;
  car_total_sessions : nat;
  car_enrolled_students : nat;
  car_total_records : nat;
  car_total_present : nat;
  car_total_absent : nat;
  car_overall_attendance_percentage : Q }.

Definition report_join (db : database)
    : list (class_row * option session_row * option enrollment_row
            * option record_row) :=
  left_join
    (left_join
       (left_join (classes db)
          (λ c, filter (λ asess, cl_id c = se_class_id asess)
                       (attendance_sessions db)))
       (λ row, filter (λ ce, cl_id row.1 = en_class_id ce)
                      (class_enrollments db)))
    (λ row, filter (λ ar, se_id <$> row.1.2 = Some (ar_session_id ar))
                   (attendance_records db)).

Definition class_attendance_report (db : database)
    : list class_attendance_report_row :=
  (λ key,
     let group := filter (λ row, row.1.1.1 = key) (report_join db) in
     (* COUNT(ar.id) *)
     let records := length (filter (λ row, is_Some row.2) group) in
     (* COUNT( * ) FILTER (WHERE ar.status = v) *)
     let count_status v :=
       length (filter (λ row, ar_status <$> row.2 = Some v) group) in
     {| car_class := key;
        (* COUNT(DISTINCT asess.id), COUNT(DISTINCT ce.student_id) *)
        car_total_sessions :=
          length (remove_dups (omap (λ row, se_id <$> row.1.1.2) group));
        car_enrolled_students :=
          length (remove_dups
                    (omap (λ row, en_student_id <$> row.1.2) group));
        car_total_records := records;
        car_total_present := count_status "PRESENT";
        car_total_absent := count_status "ABSENT";
        car_overall_attendance_percentage :=
          if decide (records = 0%nat) then 0%Q
          else round (inject_Z (Z.of_nat (count_status "PRESENT"))
                      / inject_Z (Z.of_nat records) * 100)%Q 2 |})
  <$> remove_dups ((λ row, row.1.1.1) <$> report_join db).


End PgReports.

(** ** The class selector of the two pages *)

Module ClassSelector.
Import Pg.

(** ORDER BY class_name compares names in the order of the column's
    collation, which the migration does not fix: [name_le] stands for it. *)
Definition by_class_name (name_le : relation string) : relation class_row :=
  λ c1 c2, name_le (cl_class_name c1) (cl_class_name c2).

#[global] Instance by_class_name_dec (name_le : relation string)
  `{!RelDecision name_le} : RelDecision (by_class_name name_le).
Proof. intros c1 c2. unfold by_class_name. apply _. Defined.

(** [from("classes").select("*").order("class_name")]: the rows are read in
    some order and sorted by name, so that classes of equal name come in the
    order in which they happened to be read. *)
Definition select_classes_ordered (name_le : relation string)
    `{!RelDecision name_le} (order : row_order class_row) (db : database)
    : database * response (list class_row) :=
  (db, Ok (merge_sort (by_class_name name_le) (arrange order (classes db)))).

(** Two requests for the classes are bound to return the same list when they
    read the rows in the same order, or when the collation is a partial
    order and no two classes share a name. *)
Definition same_list_of_classes (name_le : relation string)
    (order1 order2 : row_order class_row) (db : database) : Prop :=
  arrange order1 (classes db) = arrange order2 (classes db)
  ∨ (Transitive name_le ∧ AntiSymm (=) name_le
     ∧ NoDup (cl_class_name <$> classes db)).

End ClassSelector.

Module MarkAttendanceClasses.
Import Pg MarkAttendance ClassSelector.

Definition setClasses (l : list Class) (st : state) : state :=
  {| students := students st; classes := l;
     selectedClass := selectedClass st; loading := loading st |}.

Definition setSelectedClass (c : string) (st : state) : state :=
  {| students := students st; classes := classes st;
     selectedClass := c; loading := loading st |}.

(** The columns of a class row the page keeps. *)
Definition Class_of (c : class_row) : Class :=
  {| class_id := cl_id c; class_name := cl_class_name c;
     class_code := cl_class_code c |}.

Definition loadClasses (name_le : relation string) `{!RelDecision name_le}
    (order : row_order class_row) (f : option fault) (db : database)
    (st : state) : state * list toast :=
  match (call f (select_classes_ordered name_le order) db).2 with
  | Failed error =>
      (st, [ {| title := "Error loading classes";
                description := Some (error_message error);
                variant := destructive |} ])
  | Ok data =>
      let st := setClasses (Class_of <$> data) st in
      match data with
      | first :: _ => (setSelectedClass (cl_id first) st, [])
      | [] => (st, [])
      end
  end.

End MarkAttendanceClasses.

Module CheckAttendanceClasses.
Import Pg CheckAttendance ClassSelector.

Definition setClasses (l : list Class) (st : state) : state :=
  {| selectedDate := selectedDate st; selectedClass := selectedClass st;
     classes := l; records := records st;
     hasSearched := hasSearched st; loading := loading st |}.

Definition setSelectedClass (c : string) (st : state) : state :=
  {| selectedDate := selectedDate st; selectedClass := c;
     classes := classes st; records := records st;
     hasSearched := hasSearched st; loading := loading st |}.

Definition Class_of (c : class_row) : Class :=
  {| class_id := cl_id c; class_name := cl_class_name c;
     class_code := cl_class_code c |}.

Definition loadClasses (name_le : relation string) `{!RelDecision name_le}
    (order : row_order class_row) (f : option fault) (db : database)
    (st : state) : state * list toast :=
  match (call f (select_classes_ordered name_le order) db).2 with
  | Failed error =>
      (st, [ {| title := "Error loading classes";
                description := Some (error_message error);
                variant := destructive |} ])
  | Ok data =>
      let st := setClasses (Class_of <$> data) st in
      match data with
      | first :: _ => (setSelectedClass (cl_id first) st, [])
      | [] => (st, [])
      end
  end.

End CheckAttendanceClasses.

(** The order of names by character codes, for the examples. *)
Definition by_code (s1 s2 : string) : Prop := String.leb s1 s2 = true.

#[global] Instance by_code_dec : RelDecision by_code.
Proof. intros s1 s2. unfold by_code. apply _. Defined.

#[global] Instance by_code_total : Total by_code.
Proof. intros s1 s2. apply String.leb_total. Qed.

(** Closed, decidable side conditions are settled by evaluation. *)
Ltac by_evaluation := apply (bool_decide_unpack _); vm_compute; exact I.

(** * Facts about the backend *)

Section constraints.
Import Pg.
Implicit Types (db : database) (uid : uuid).

Lemma NoDup_fmap_filter {A B} (f : A → B) (P : A → Prop)
    `{∀ x, Decision (P x)} (l : list A) :
  NoDup (f <$> l) → NoDup (f <$> filter P l).
Proof.
  intros Hl. eapply sublist_NoDup; [exact Hl|].
  apply fmap_sublist, sublist_filter.
Qed.

Lemma Forall_filter_keep {A} (P Q : A → Prop) `{∀ x, Decision (P x)}
    (l : list A) :
  Forall Q l → Forall Q (filter P l).
Proof.
  rewrite !Forall_forall. intros Hl x [_ Hx]%list_elem_of_filter. auto.
Qed.

Lemma arrange_nil {A} (order : row_order A) : arrange order [] = [].
Proof. apply Permutation_nil_r, arrange_rows. Qed.

Lemma call_fault {A} f (op : database → database * response A) db :
  (call (Some f) op db).2 = Failed (transport (fault_message f)).
Proof. by destruct f. Qed.

(** The database after a request is the one before, or the one the operation
    leaves. *)
Lemma call_database {A} f (op : database → database * response A) db :
  (call f op db).1 = db ∨ (call f op db).1 = (op db).1.
Proof. destruct f as [[m|m]|]; simpl; auto. Qed.

Lemma call_reaches {A} (op : database → database * response A) db :
  call None op db = op db.
Proof. reflexivity. Qed.

Lemma call_consistent {A} fault (op : database → database * response A) db :
  (consistent db → consistent (op db).1) →
  consistent db → consistent (call fault op db).1.
Proof. destruct fault as [[m|m]|]; simpl; auto. Qed.

(** A session insert either changes nothing and fails, or appends the one
    row, whose id and (class, date) were both free. *)
Lemma insert_session_cases uid g c d m db :
  (∃ e, insert_session uid g c d m db = (db, Failed e))
  ∨ (insert_session uid g c d m db
     = (with_sessions db
          (attendance_sessions db
           ++ [ {| se_id := g; se_class_id := c; se_session_date := d;
                   se_marked_by := m |} ]),
        Ok {| se_id := g; se_class_id := c; se_session_date := d;
              se_marked_by := m |})
     ∧ m = Some uid
     ∧ (g ∉ se_id <$> attendance_sessions db)
     ∧ c ∈ cl_id <$> classes db
     ∧ ((c, d) ∉ session_key <$> attendance_sessions db)
     ∧ uid ∈ pr_id <$> profiles db).
Proof.
  unfold insert_session; simpl.
  repeat case_decide; eauto.
  right. subst m. cbn [null_or] in *. by repeat split.
Qed.

Lemma insert_session_consistent uid g c d m db :
  consistent db → consistent (insert_session uid g c d m db).1.
Proof.
  intros Hdb.
  destruct (insert_session_cases uid g c d m db)
    as [[e ->]|(-> & _ & Hid & Hc & Hkey & _)]; [done|].
  destruct Hdb as (Hpk & Huq & Hfk & Hruq & Hrs & Hrst & Hchk).
  unfold consistent; simpl. rewrite !fmap_app; simpl.
  repeat split; auto.
  - apply NoDup_app; repeat split; [done| |apply NoDup_singleton].
    intros x Hx ->%list_elem_of_singleton. done.
  - apply NoDup_app; repeat split; [done| |apply NoDup_singleton].
    intros x Hx ->%list_elem_of_singleton. done.
  - apply Forall_app; split; [done|]. by apply Forall_singleton.
  - eapply Forall_impl; [exact Hrs|]. simpl. intros r Hr.
    apply elem_of_app; by left.
Qed.

Lemma delete_records_consistent uid sid db :
  consistent db → consistent (delete_records uid sid db).1.
Proof.
  intros (Hpk & Huq & Hfk & Hruq & Hrs & Hrst & Hchk).
  unfold consistent; simpl.
  repeat split; auto using NoDup_fmap_filter, Forall_filter_keep.
Qed.

(** A batch insert either changes nothing and fails, or appends the whole
    batch, every row of which passed every constraint. *)
Lemma insert_records_cases uid batch db :
  (∃ e, insert_records uid batch db = (db, Failed e))
  ∨ (insert_records uid batch db
     = (with_records db (attendance_records db ++ batch), Ok tt)
     ∧ Forall (marked_by_caller uid db) batch
     ∧ Forall (λ r, ar_session_id r ∈ se_id <$> attendance_sessions db) batch
     ∧ Forall (λ r, ar_student_id r ∈ st_id <$> students db) batch
     ∧ Forall (λ r, ar_status r ∈ status_values) batch
     ∧ NoDup (record_key <$> attendance_records db ++ batch)).
Proof.
  unfold insert_records.
  repeat case_decide; eauto.
  right. repeat split; auto.
  all: match goal with
       | H : ¬ Exists ?P ?b |- Forall ?Q ?b =>
           apply not_Exists_Forall in H; [|apply _];
           eapply Forall_impl; [exact H|];
           simpl; intros r Hr; by apply dec_stable
       end.
Qed.

Lemma insert_records_consistent uid batch db :
  consistent db → consistent (insert_records uid batch db).1.
Proof.
  intros Hdb.
  destruct (insert_records_cases uid batch db)
    as [[e ->]|(-> & _ & Hs & Hst & Hchk' & Hnd)]; [done|].
  destruct Hdb as (Hpk & Huq & Hfk & Hruq & Hrs & Hrst & Hchk).
  unfold consistent; simpl.
  repeat split; auto using Forall_app_2.
Qed.

End constraints.

(** * Facts about the submission *)

Section submission.
Import Pg MarkAttendance.
Implicit Types (db : database) (u : User) (env : submit_env) (st : state).

(** The database [handleSubmit] leaves behind is that of its [try] block,
    entered only with a user and a class. *)
Lemma handleSubmit_database user env db st :
  (handleSubmit user env db st).1.1
  = match user with
    | Some u =>
        if decide (selectedClass st = "") then db
        else (submit_attempt u env db (setLoading true st)).1
    | None => db
    end.
Proof.
  unfold handleSubmit. destruct user as [u|]; [|done].
  case_decide; [done|].
  by destruct (submit_attempt u env db (setLoading true st)) as [db' [[]|e]].
Qed.

Lemma submit_attempt_consistent u env db st :
  consistent db → consistent (submit_attempt u env db st).1.
Proof.
  intros Hdb. unfold submit_attempt.
  destruct (data_or_null _) as [s|].
  - apply call_consistent; [apply insert_records_consistent|].
    apply call_consistent; [apply delete_records_consistent|done].
  - destruct (call (fault_insert_session env) _ db) as [db1 r] eqn:E.
    assert (consistent db1) as Hdb1.
    { change db1 with (db1, r).1. rewrite <- E.
      apply call_consistent; [apply insert_session_consistent|done]. }
    destruct r as [newSession|e]; [|done].
    apply call_consistent; [apply insert_records_consistent|done].
Qed.

Lemma handleSubmit_consistent user env db st :
  consistent db → consistent (handleSubmit user env db st).1.1.
Proof.
  intros Hdb. rewrite handleSubmit_database.
  destruct user; [|done]. case_decide; [done|].
  by apply submit_attempt_consistent.
Qed.

Lemma migrated_consistent db : migrated db → consistent db.
Proof.
  intros [Hs Hr]. unfold consistent. rewrite Hs, Hr. simpl.
  repeat split; constructor.
Qed.

Lemma run_consistent db a : consistent db → consistent (run db a).
Proof. destruct a; simpl; auto using handleSubmit_consistent. Qed.

Lemma reachable_consistent db : reachable db → consistent db.
Proof.
  intros (db0 & actions & Hinit%migrated_consistent & ->).
  revert db0 Hinit.
  induction actions as [|a actions IH]; intros db0 Hdb0; simpl; [done|].
  apply IH. by apply run_consistent.
Qed.

(** The batch insert and the delete leave the session table alone. *)
Lemma insert_records_sessions uid batch db :
  attendance_sessions (insert_records uid batch db).1
  = attendance_sessions db.
Proof.
  by destruct (insert_records_cases uid batch db) as [[e ->]|(-> & _)].
Qed.

Lemma call_insert_records_sessions fault uid batch db :
  attendance_sessions (call fault (insert_records uid batch) db).1
  = attendance_sessions db.
Proof.
  destruct (call_database fault (insert_records uid batch) db) as [->| ->];
    [done|apply insert_records_sessions].
Qed.

Lemma call_delete_records_sessions fault uid sid db :
  attendance_sessions (call fault (delete_records uid sid) db).1
  = attendance_sessions db.
Proof. by destruct fault as [[m|m]|]. Qed.

(** A session insert that is carried out appends its row, answer or no
    answer: [se_id] of the answer, when there is one, is the id drawn. *)
Lemma call_insert_session_cases fault uid g c d db :
  let row := {| se_id := g; se_class_id := c; se_session_date := d;
                se_marked_by := Some uid |} in
  (∃ e, call fault (insert_session uid g c d (Some uid)) db = (db, Failed e))
  ∨ ((g ∉ se_id <$> attendance_sessions db)
     ∧ c ∈ cl_id <$> Pg.classes db
     ∧ ((c, d) ∉ session_key <$> attendance_sessions db)
     ∧ uid ∈ pr_id <$> profiles db
     ∧ (call fault (insert_session uid g c d (Some uid)) db
        = (with_sessions db (attendance_sessions db ++ [row]), Ok row)
        ∨ ∃ e, call fault (insert_session uid g c d (Some uid)) db
               = (with_sessions db (attendance_sessions db ++ [row]),
                  Failed e))).
Proof.
  intros row.
  destruct (insert_session_cases uid g c d (Some uid) db)
    as [[e He]|(He & _ & Hid & Hc & Hkey & Hp)].
  - left. destruct fault as [[m|m]|]; simpl; rewrite ?He; by eexists.
  - destruct fault as [[m|m]|]; simpl; rewrite ?He.
    + left. by eexists.
    + right. repeat split; try done. right. by eexists.
    + right. repeat split; try done. by left.
Qed.

(** A submission keeps the session table, or appends one row for
    (class, today) where there was none. *)
Lemma submit_attempt_sessions u env db st :
  attendance_sessions (submit_attempt u env db st).1
    = attendance_sessions db
  ∨ ∃ row,
      attendance_sessions (submit_attempt u env db st).1
        = attendance_sessions db ++ [row]
      ∧ session_key row = (selectedClass st, today env)
      ∧ (session_key row ∉ session_key <$> attendance_sessions db).
Proof.
  unfold submit_attempt.
  destruct (data_or_null _) as [s|].
  - left. by rewrite call_insert_records_sessions,
      call_delete_records_sessions.
  - destruct (call_insert_session_cases (fault_insert_session env)
                (user_id u) (gen_random_uuid env) (selectedClass st)
                (today env) db)
      as [[e ->]|(_ & _ & Hkey & _ & [-> | [e ->]])]; [by left|..];
      right; eexists; rewrite ?call_insert_records_sessions; simpl;
      (split; [done|]); split; done.
Qed.

(** **** The requests of a submission that goes through *)

Lemma filter_class_date_none c d (l : list session_row) :
  ((c, d) ∉ session_key <$> l) →
  filter (λ s, se_class_id s = c ∧ se_session_date s = d) l = [].
Proof.
  induction l as [|s l IH]; [done|].
  rewrite fmap_cons, not_elem_of_cons. intros [Hs Hl].
  rewrite filter_cons_False; [auto|].
  intros [<- <-]. by apply Hs.
Qed.

Lemma select_session_none c d db :
  ((c, d) ∉ session_key <$> attendance_sessions db) →
  (select_session c d db).2 = Ok None.
Proof.
  intros Hkey. unfold select_session; simpl.
  by rewrite filter_class_date_none.
Qed.

Lemma insert_session_ok uid g c d db :
  uid ∈ pr_id <$> profiles db →
  (g ∉ se_id <$> attendance_sessions db) →
  c ∈ cl_id <$> Pg.classes db →
  ((c, d) ∉ session_key <$> attendance_sessions db) →
  insert_session uid g c d (Some uid) db
  = (with_sessions db
       (attendance_sessions db
        ++ [ {| se_id := g; se_class_id := c; se_session_date := d;
                se_marked_by := Some uid |} ]),
     Ok {| se_id := g; se_class_id := c; se_session_date := d;
           se_marked_by := Some uid |}).
Proof.
  intros Hp Hid Hc Hkey.
  by destruct (insert_session_cases uid g c d (Some uid) db)
    as [[e He]|(-> & _)];
    [unfold insert_session in He; simpl in He; repeat case_decide|].
Qed.

Lemma insert_records_ok uid batch db :
  Forall (marked_by_caller uid db) batch →
  Forall (λ r, ar_session_id r ∈ se_id <$> attendance_sessions db) batch →
  Forall (λ r, ar_student_id r ∈ st_id <$> Pg.students db) batch →
  Forall (λ r, ar_status r ∈ status_values) batch →
  NoDup (record_key <$> attendance_records db ++ batch) →
  insert_records uid batch db
  = (with_records db (attendance_records db ++ batch), Ok tt).
Proof.
  intros H1 H2 H3 H4 H5. unfold insert_records.
  rewrite decide_False; [|by apply Forall_not_Exists;
    eapply Forall_impl; [exact H1|]; simpl; auto].
  rewrite decide_False; [|by apply Forall_not_Exists;
    eapply Forall_impl; [exact H2|]; simpl; auto].
  rewrite decide_False; [|by apply Forall_not_Exists;
    eapply Forall_impl; [exact H3|]; simpl; auto].
  rewrite decide_False; [|by apply Forall_not_Exists;
    eapply Forall_impl; [exact H4|]; simpl; auto].
  by rewrite decide_True.
Qed.

Lemma filter_session_key_none c d (l : list session_row) :
  ((c, d) ∉ session_key <$> l) →
  filter (λ s, session_key s = (c, d)) l = [].
Proof.
  induction l as [|s l IH]; [done|].
  rewrite fmap_cons, not_elem_of_cons. intros [Hs Hl].
  rewrite filter_cons_False; auto.
Qed.

(** **** The batch [handleSubmit] builds *)

Lemma records_of_session sid roster :
  Forall (λ r, ar_session_id r = sid) (records_of sid roster).
Proof. unfold records_of. apply Forall_fmap. by apply Forall_true. Qed.

Lemma records_of_status sid roster :
  Forall (λ r, ar_status r = "PRESENT" ∨ ar_status r = "ABSENT")
         (records_of sid roster).
Proof.
  unfold records_of. apply Forall_fmap, Forall_true.
  intros s; simpl. destruct (present s); auto.
Qed.

Lemma records_of_students sid roster :
  ar_student_id <$> records_of sid roster = id <$> roster.
Proof. unfold records_of. by rewrite <- list_fmap_compose. Qed.

Lemma records_of_Forall2 sid roster :
  Forall2 (λ s r, ar_session_id r = sid ∧ ar_student_id r = id s
                  ∧ ar_status r = if present s then "PRESENT" else "ABSENT")
          roster (records_of sid roster).
Proof.
  unfold records_of. apply Forall2_fmap_r, Forall_Forall2_diag, Forall_true.
  done.
Qed.

Lemma records_of_keys_NoDup sid roster :
  NoDup (id <$> roster) → NoDup (record_key <$> records_of sid roster).
Proof.
  intros Hnd. unfold records_of. rewrite <- list_fmap_compose.
  change (record_key ∘ _) with (pair sid ∘ id).
  rewrite list_fmap_compose. apply NoDup_fmap_2; [|done].
  by intros x y [=].
Qed.

Lemma filter_session_all sid (l : list record_row) :
  Forall (λ r, ar_session_id r = sid) l →
  filter (λ r, ar_session_id r = sid) l = l.
Proof.
  induction 1 as [|r l Hr Hl IH]; [done|].
  by rewrite filter_cons_True, IH.
Qed.

Lemma filter_session_none sid (l : list record_row) :
  Forall (λ r, ar_session_id r ≠ sid) l →
  filter (λ r, ar_session_id r = sid) l = [].
Proof.
  induction 1 as [|r l Hr Hl IH]; [done|].
  by rewrite filter_cons_False.
Qed.

(** The batch for session [sid] is accepted when the caller marked that
    session, the roster names distinct existing students, and the session has
    no record left. *)
Lemma insert_batch_ok uid sid roster db :
  Exists (λ s, se_id s = sid ∧ se_marked_by s = Some uid)
         (attendance_sessions db) →
  NoDup (id <$> roster) →
  Forall (λ s, id s ∈ st_id <$> Pg.students db) roster →
  NoDup (record_key <$> attendance_records db) →
  Forall (λ r, ar_session_id r ≠ sid) (attendance_records db) →
  insert_records uid (records_of sid roster) db
  = (with_records db (attendance_records db ++ records_of sid roster), Ok tt).
Proof.
  intros Hs Hnd Hst Hruq Hold. apply insert_records_ok.
  - eapply Forall_impl; [apply records_of_session|]. simpl.
    intros r Hr. unfold marked_by_caller. by rewrite Hr.
  - eapply Forall_impl; [apply records_of_session|]. simpl.
    intros r ->. apply Exists_exists in Hs as (s & Hin & <- & _).
    by apply list_elem_of_fmap_2.
  - unfold records_of. by apply Forall_fmap.
  - eapply Forall_impl; [apply records_of_status|]. simpl.
    intros r [-> | ->]; unfold status_values; repeat constructor.
  - rewrite fmap_app. apply NoDup_app. repeat split; [done| |].
    + intros k [r [-> Hr]]%list_elem_of_fmap [r' [Hk Hr']]%list_elem_of_fmap.
      apply (proj1 (Forall_forall _ _) Hold) in Hr.
      apply (proj1 (Forall_forall _ _) (records_of_session _ _)) in Hr'.
      apply Hr. injection Hk as -> _. done.
    + by apply records_of_keys_NoDup.
Qed.

(** Under UNIQUE(class_id, session_date) the lookup finds the one session of
    a (class, date) that has one. *)
Lemma filter_class_date_single c d (l : list session_row) s :
  NoDup (session_key <$> l) →
  s ∈ l →
  session_key s = (c, d) →
  filter (λ s, se_class_id s = c ∧ se_session_date s = d) l = [s].
Proof.
  intros Hnd Hin Hkey. induction l as [|s' l IH]; [by inversion Hin|].
  rewrite fmap_cons in Hnd. apply NoDup_cons in Hnd as [Hs' Hnd].
  apply elem_of_cons in Hin as [<-|Hin].
  - rewrite filter_cons_True by (by injection Hkey).
    rewrite filter_class_date_none; [done|]. by rewrite <- Hkey.
  - rewrite filter_cons_False; [auto|].
    intros [Hc Hd]. apply Hs'.
    replace (session_key s') with (session_key s)
      by (rewrite Hkey; unfold session_key; congruence).
    by apply list_elem_of_fmap_2.
Qed.

(** The caller's delete removes every record of a session the caller
    marked. *)
Lemma delete_own_records uid s db :
  s ∈ attendance_sessions db →
  se_marked_by s = Some uid →
  (delete_records uid (se_id s) db).1
  = with_records db
      (filter (λ r, ar_session_id r ≠ se_id s) (attendance_records db)).
Proof.
  intros Hin Hby. unfold delete_records; simpl. f_equal.
  apply list_filter_iff. intros r. split.
  - intros Hr Heq. apply Hr. split; [done|].
    unfold marked_by_caller. apply Exists_exists. eauto.
  - intros Hne [Heq _]. done.
Qed.

(** Resubmission by the teacher who marked the session: the session's
    records are replaced by the batch, everything else stays. *)
Lemma resubmit_database u env db st s :
  selectedClass st ≠ "" →
  consistent db →
  s ∈ attendance_sessions db →
  session_key s = (selectedClass st, today env) →
  se_marked_by s = Some (user_id u) →
  fault_select_session env = None →
  fault_delete_records env = None →
  fault_insert_records env = None →
  NoDup (id <$> students st) →
  Forall (λ x, id x ∈ st_id <$> Pg.students db) (students st) →
  (handleSubmit (Some u) env db st).1.1
  = with_records db
      (filter (λ r, ar_session_id r ≠ se_id s) (attendance_records db)
       ++ records_of (se_id s) (students st)).
Proof.
  intros Hclass Hdb Hin Hkey Hby Hf1 Hf2 Hf3 Hnd Hst.
  destruct Hdb as (Hpk & Huq & Hfk & Hruq & Hrs & Hrst & Hchk).
  rewrite handleSubmit_database, decide_False by done.
  unfold submit_attempt. rewrite Hf1, Hf2, Hf3, !call_reaches.
  unfold select_session. cbn [snd fst setLoading selectedClass students].
  rewrite (filter_class_date_single _ _ _ s) by done.
  cbn [maybeSingle data_or_null]. rewrite !call_reaches.
  rewrite delete_own_records by done.
  rewrite insert_batch_ok; [done|..]; simpl; try done.
  - apply Exists_exists. eauto.
  - by apply NoDup_fmap_filter.
  - apply Forall_forall. by intros r [? _]%list_elem_of_filter.
Qed.

(** The records a submission leaves are those it found, or rows of the batch
    it built. *)
Lemma submit_attempt_records u env db st r :
  r ∈ attendance_records (submit_attempt u env db st).1 →
  r ∈ attendance_records db ∨ ∃ sid, r ∈ records_of sid (students st).
Proof.
  assert (∀ fault sid db1,
    (∀ r, r ∈ attendance_records db1 → r ∈ attendance_records db) →
    r ∈ attendance_records
          (call fault (insert_records (user_id u)
                         (records_of sid (students st))) db1).1 →
    r ∈ attendance_records db ∨ ∃ sid, r ∈ records_of sid (students st))
    as Hinsert.
  { intros fault sid db1 Hsub.
    destruct (call_database fault
                (insert_records (user_id u) (records_of sid (students st)))
                db1) as [->| ->]; [auto|].
    destruct (insert_records_cases (user_id u)
                (records_of sid (students st)) db1)
      as [[e ->]|(-> & _)]; simpl; [auto|].
    intros [?|?]%elem_of_app; eauto. }
  unfold submit_attempt. destruct (data_or_null _) as [s|].
  - apply Hinsert. intros r'.
    destruct (call_database (fault_delete_records env)
                (delete_records (user_id u) (se_id s)) db) as [->| ->];
      [done|]. simpl. by intros [_ ?]%list_elem_of_filter.
  - destruct (call_insert_session_cases (fault_insert_session env)
                (user_id u) (gen_random_uuid env) (selectedClass st)
                (today env) db)
      as [[e ->]|(_ & _ & _ & _ & [-> | [e ->]])]; [auto| |auto].
    by apply Hinsert.
Qed.

End submission.

(** * The submission protocol *)

Section submission_properties.
Import Pg MarkAttendance.

(** C1 as stated, for every roster, fails on a roster that names a student
    who is no longer stored.  On the sample data the page has loaded the ten
    students of CS101 and STU001 is marked absent; then STU010 is deleted.
    No session exists for the class today.  The submission inserts the
    session in one request and the ten records in the next; the database
    refuses the batch for the foreign key of its last row: the session is
    stored, with no record at all, and an error is shown. *)
Lemma submit_of_stale_roster_stores_no_record :
  let db := delete_student "s-010" Sample.db0 in
  let result := handleSubmit (Some Sample.teacher) (Sample.env_ok "a-1") db
                  Sample.page2 in
  consistent db
  ∧ ((selectedClass Sample.page2, today (Sample.env_ok "a-1"))
       ∉ session_key <$> attendance_sessions db)
  ∧ length (students Sample.page2) = 10%nat
  ∧ attendance_sessions result.1.1 = [Sample.session1]
  ∧ attendance_records result.1.1 = []
  ∧ description <$> result.2
    = [Some (error_message
               (foreign_key_violation
                  "attendance_records_student_id_fkey"))].
Proof.
  cbv zeta. split; [by_evaluation|]. split; [by_evaluation|].
  vm_compute. by repeat split.
Qed.

(** C1.  Whatever the inputs, every record [handleSubmit] adds to the table
    has status PRESENT or ABSENT.  And when no session exists for the selected
    class today, the submission by a signed-in user who has a profile, of a
    roster of distinct, stored students, every request of which is answered,
    appends exactly one session row for (class, today) -- the only one for
    that pair afterwards -- and appends one record per roster entry, in
    roster order, for that session and that student, PRESENT when the
    entry's flag is on and ABSENT when it is off; these are all the records
    of the new session. *)
Theorem submit_creates_session_and_records
    (user : option User) (env : submit_env) (db : database) (st : state) :
  (∀ r, r ∈ attendance_records (handleSubmit user env db st).1.1 →
        r ∈ attendance_records db
        ∨ ar_status r = "PRESENT" ∨ ar_status r = "ABSENT")
  ∧ (∀ u,
       user = Some u →
       user_id u ∈ pr_id <$> profiles db →
       selectedClass st ≠ "" →
       consistent db →
       selectedClass st ∈ cl_id <$> Pg.classes db →
       ((selectedClass st, today env)
          ∉ session_key <$> attendance_sessions db) →
       (gen_random_uuid env ∉ se_id <$> attendance_sessions db) →
       fault_select_session env = None →
       fault_insert_session env = None →
       fault_insert_records env = None →
       NoDup (id <$> students st) →
       Forall (λ s, id s ∈ st_id <$> Pg.students db) (students st) →
       let db' := (handleSubmit user env db st).1.1 in
       let row := {| se_id := gen_random_uuid env;
                     se_class_id := selectedClass st;
                     se_session_date := today env;
                     se_marked_by := Some (user_id u) |} in
       attendance_sessions db' = attendance_sessions db ++ [row]
       ∧ filter (λ s, session_key s = (selectedClass st, today env))
                (attendance_sessions db') = [row]
       ∧ attendance_records db'
         = attendance_records db ++ records_of (se_id row) (students st)
       ∧ Forall2 (λ s r, ar_session_id r = se_id row
                         ∧ ar_student_id r = id s
                         ∧ ar_status r
                           = if present s then "PRESENT" else "ABSENT")
                 (students st)
                 (filter (λ r, ar_session_id r = se_id row)
                         (attendance_records db'))).
Proof.
  split.
  - intros r. rewrite handleSubmit_database.
    destruct user as [u|]; [|auto]. case_decide; [auto|].
    intros [?|[sid Hr]]%submit_attempt_records; [auto|]. right.
    exact (proj1 (Forall_forall _ _) (records_of_status sid _) r Hr).
  - intros u -> Hp Hclass Hdb Hc Hkey Hfresh Hf1 Hf2 Hf3 Hnd Hst.
    destruct Hdb as (Hpk & Huq & Hfk & Hruq & Hrs & Hrst & Hchk).
    set (row := {| se_id := gen_random_uuid env;
                   se_class_id := selectedClass st;
                   se_session_date := today env;
                   se_marked_by := Some (user_id u) |}).
    set (db1 := with_sessions db (attendance_sessions db ++ [row])).
    set (batch := records_of (gen_random_uuid env) (students st)).
    assert (Forall (λ r, ar_session_id r ≠ gen_random_uuid env)
                   (attendance_records db)) as Hold.
    { eapply Forall_impl; [exact Hrs|]. simpl. intros r Hr ?. congruence. }
    assert (insert_records (user_id u) batch db1
            = (with_records db1 (attendance_records db ++ batch), Ok tt))
      as Hins.
    { change (attendance_records db ++ batch)
        with (attendance_records db1 ++ batch).
      apply insert_batch_ok; try done.
      simpl. apply Exists_app; right. by apply Exists_cons_hd. }
    assert ((handleSubmit (Some u) env db st).1.1
            = with_records db1 (attendance_records db ++ batch)) as ->.
    { rewrite handleSubmit_database. rewrite decide_False by done.
      unfold submit_attempt. simpl. rewrite Hf1, Hf2, Hf3. simpl.
      rewrite filter_class_date_none by done. simpl.
      rewrite insert_session_ok by done.
      exact (f_equal fst Hins). }
    simpl. repeat split.
    + rewrite filter_app, filter_session_key_none by done.
      simpl. by rewrite filter_cons_True, filter_nil.
    + rewrite filter_app, filter_session_none, filter_session_all;
        [apply records_of_Forall2|apply records_of_session|done].
Qed.

(** The first submission of the day on the sample data: STU001 absent, the
    other nine present. *)
Lemma submit_creates_session_and_records_witness :
  consistent Sample.db0
  ∧ attendance_sessions Sample.db1
    = [ {| se_id := "a-1"; se_class_id := Sample.cs101;
           se_session_date := 20382%Z; se_marked_by := Some "t-1" |} ]
  ∧ length (attendance_records Sample.db1) = 10%nat
  ∧ length (filter (λ r, ar_status r = "ABSENT")
                   (attendance_records Sample.db1)) = 1%nat.
Proof.
  assert (consistent Sample.db0) as Hdb by by_evaluation.
  split; [exact Hdb|].
  destruct (proj2 (submit_creates_session_and_records
                     (Some Sample.teacher) (Sample.env_ok "a-1")
                     Sample.db0 Sample.page2)
              Sample.teacher eq_refl ltac:(by_evaluation)
              ltac:(by_evaluation) Hdb ltac:(by_evaluation)
              ltac:(by_evaluation) ltac:(by_evaluation)
              eq_refl eq_refl eq_refl
              ltac:(by_evaluation) ltac:(by_evaluation))
    as (Hsessions & _ & Hrecords & _).
  split; [exact Hsessions|].
  fold Sample.db1 in Hrecords. rewrite Hrecords.
  split; vm_compute; reflexivity.
Defined.

(** C2 as stated, for every class and date that already has a session, fails
    on a session another teacher marked.  On the sample data, where CS101 has
    the day's session of the first teacher with ten records: a second teacher
    submits the roster of nine, twice.  The delete policy hides the records
    from the delete, the insert policy refuses the batch, and both times the
    database is left as it was -- STU010, who is not on the roster, keeps the
    record, and the session's records are not those of the roster. *)
Lemma resubmit_on_foreign_session_replaces_nothing :
  Sample.session1 ∈ attendance_sessions Sample.db1
  ∧ session_key Sample.session1
    = (selectedClass Sample.page3, today (Sample.env_ok "a-2"))
  ∧ (let first := handleSubmit (Some Sample.other_teacher)
                    (Sample.env_ok "a-2") Sample.db1 Sample.page3 in
     let again := handleSubmit (Some Sample.other_teacher)
                    (Sample.env_ok "a-3") first.1.1 first.1.2 in
     first.1.1 = Sample.db1
     ∧ again.1.1 = Sample.db1
     ∧ description <$> again.2
       = [Some (error_message (rls_violation "attendance_records"))]
     ∧ {| ar_session_id := "a-1"; ar_student_id := "s-010";
          ar_status := "PRESENT" |} ∈ attendance_records again.1.1
     ∧ ("s-010" ∉ id <$> students Sample.page3)
     ∧ filter (λ r, ar_session_id r = "a-1") (attendance_records again.1.1)
       ≠ records_of "a-1" (students Sample.page3)).
Proof.
  split; [by_evaluation|]. split; [reflexivity|].
  cbv zeta. split; [vm_compute; reflexivity|].
  split; [vm_compute; reflexivity|].
  split; [vm_compute; reflexivity|].
  split; [by_evaluation|]. split; by_evaluation.
Qed.

(** The roster matters as well: the teacher who marked the day's session
    resubmits the ten students the page had loaded, after STU010 has been
    deleted.  The delete request removes the nine records the session still
    had, the insert is refused for the foreign key of its last row, and the
    session is left with no record. *)
Lemma resubmit_of_stale_roster_empties_session :
  let db := delete_student "s-010" Sample.db1 in
  let result := handleSubmit (Some Sample.teacher) (Sample.env_ok "a-2") db
                  Sample.page2 in
  consistent db
  ∧ length (filter (λ r, ar_session_id r = "a-1") (attendance_records db))
    = 9%nat
  ∧ attendance_sessions result.1.1 = [Sample.session1]
  ∧ attendance_records result.1.1 = []
  ∧ description <$> result.2
    = [Some (error_message
               (foreign_key_violation
                  "attendance_records_student_id_fkey"))].
Proof.
  cbv zeta. split; [by_evaluation|]. vm_compute. by repeat split.
Qed.

(** C2.  When the selected class already has a session today, marked by the
    submitting teacher, a submission of a roster of distinct, existing
    students, every request of which reaches the database, leaves the session
    table as it was and replaces the session's records by one record per
    roster entry (records of other sessions stay): a student who had a record
    in the session and is not on the new roster has none afterwards, no
    student has two records in the session, and submitting a page with the
    same class and roster again on that day leaves the database exactly as the
    first submission left it. *)
Theorem resubmit_replaces_records
    (u : User) (env : submit_env) (db : database) (st : state)
    (s : session_row) :
  selectedClass st ≠ "" →
  consistent db →
  s ∈ attendance_sessions db →
  session_key s = (selectedClass st, today env) →
  se_marked_by s = Some (user_id u) →
  fault_select_session env = None →
  fault_delete_records env = None →
  fault_insert_records env = None →
  NoDup (id <$> students st) →
  Forall (λ x, id x ∈ st_id <$> Pg.students db) (students st) →
  let db' := (handleSubmit (Some u) env db st).1.1 in
  attendance_sessions db' = attendance_sessions db
  ∧ filter (λ r, ar_session_id r ≠ se_id s) (attendance_records db')
    = filter (λ r, ar_session_id r ≠ se_id s) (attendance_records db)
  ∧ Forall2 (λ x r, ar_session_id r = se_id s
                    ∧ ar_student_id r = id x
                    ∧ ar_status r = if present x then "PRESENT" else "ABSENT")
            (students st)
            (filter (λ r, ar_session_id r = se_id s) (attendance_records db'))
  ∧ (∀ r, r ∈ attendance_records db →
          ar_session_id r = se_id s →
          (ar_student_id r ∉ id <$> students st) →
          record_key r ∉ record_key <$> attendance_records db')
  ∧ NoDup (ar_student_id
             <$> filter (λ r, ar_session_id r = se_id s)
                        (attendance_records db'))
  ∧ (∀ env2 st2,
       today env2 = today env →
       fault_select_session env2 = None →
       fault_delete_records env2 = None →
       fault_insert_records env2 = None →
       selectedClass st2 = selectedClass st →
       students st2 = students st →
       (handleSubmit (Some u) env2 db' st2).1.1 = db').
Proof.
  intros Hclass Hdb Hin Hkey Hby Hf1 Hf2 Hf3 Hnd Hst db'.
  assert (consistent db') as Hdb' by by apply handleSubmit_consistent.
  assert (db' = with_records db
            (filter (λ r, ar_session_id r ≠ se_id s) (attendance_records db)
             ++ records_of (se_id s) (students st))) as Heq
    by by apply resubmit_database.
  clearbody db'. subst db'.
  set (F := filter (λ r, ar_session_id r ≠ se_id s) (attendance_records db))
    in *.
  set (B := records_of (se_id s) (students st)) in *.
  assert (Forall (λ r, ar_session_id r ≠ se_id s) F) as HF.
  { apply Forall_forall. by intros r [? _]%list_elem_of_filter. }
  assert (Forall (λ r, ar_session_id r = se_id s) B) as HB
    by apply records_of_session.
  assert (filter (λ r, ar_session_id r = se_id s) (F ++ B) = B) as HfB.
  { by rewrite filter_app, filter_session_none, filter_session_all. }
  assert (filter (λ r, ar_session_id r ≠ se_id s) (F ++ B) = F) as HfF.
  { rewrite filter_app. unfold F at 1. rewrite list_filter_filter.
    replace (filter (λ r, ar_session_id r ≠ se_id s) B) with (@nil record_row).
    - rewrite app_nil_r. apply list_filter_iff. tauto.
    - symmetry. clear -HB. induction HB as [|r l Hr Hl IH]; [done|].
      by rewrite filter_cons_False by tauto. }
  cbn [attendance_sessions attendance_records with_records].
  repeat split.
  - done.
  - rewrite HfB. apply records_of_Forall2.
  - intros r Hr Hsid Hgone [r' [Hk Hr']]%list_elem_of_fmap.
    injection Hk as Hk1 Hk2.
    apply elem_of_app in Hr' as [Hr'|Hr'].
    + apply (proj1 (Forall_forall _ _) HF) in Hr'. congruence.
    + apply Hgone. rewrite Hk2, <- (records_of_students (se_id s)).
      by apply list_elem_of_fmap_2.
  - rewrite HfB. unfold B. by rewrite records_of_students.
  - intros env2 st2 Htoday Hg1 Hg2 Hg3 Hsel Hros.
    rewrite (resubmit_database u env2 _ st2 s); simpl; try done.
    + rewrite Hros. fold F B. by rewrite HfF.
    + congruence.
    + congruence.
    + by rewrite Hros.
    + by rewrite Hros.
Qed.

(** The second submission of the day on the sample data, with STU010 gone
    from the roster. *)
Lemma resubmit_replaces_records_witness :
  consistent Sample.db1
  ∧ attendance_sessions Sample.db2 = attendance_sessions Sample.db1
  ∧ (("a-1", "s-010") ∉ record_key <$> attendance_records Sample.db2)
  ∧ (handleSubmit (Some Sample.teacher) (Sample.env_ok "a-3")
       Sample.db2 Sample.page3).1.1 = Sample.db2.
Proof.
  assert (consistent Sample.db1) as Hdb by by_evaluation.
  split; [exact Hdb|].
  destruct (resubmit_replaces_records
              Sample.teacher (Sample.env_ok "a-2") Sample.db1 Sample.page3
              Sample.session1
              ltac:(by_evaluation) Hdb ltac:(by_evaluation)
              eq_refl eq_refl eq_refl eq_refl eq_refl
              ltac:(by_evaluation) ltac:(by_evaluation))
    as (Hsessions & _ & _ & Hgone & _ & Hagain).
  split; [exact Hsessions|]. split.
  - apply (Hgone {| ar_session_id := "a-1"; ar_student_id := "s-010";
                    ar_status := "PRESENT" |});
      [by_evaluation|reflexivity|by_evaluation].
  - apply (Hagain (Sample.env_ok "a-3") Sample.page3); reflexivity.
Defined.

(** C4.  The specification has a failed lookup leave nothing written and a
    failed delete stop the flow before the insert.  [handleSubmit] binds the lookup's
    error without reading it and drops the answer of the delete, so on the
    sample data: with the lookup failing and no session stored, a session and
    ten records are written and success is reported; with the delete failing,
    the record of the new roster is inserted next to the nine stale ones and
    success is reported; and with the delete failing and an overlapping
    roster, the insert is still attempted -- the error shown is the insert's
    uniqueness violation, not the failure of the delete. *)
Theorem submit_proceeds_past_failed_requests :
  (let result := handleSubmit (Some Sample.teacher)
                   (Sample.env_lookup_down "a-1") Sample.db0 Sample.page2 in
   attendance_sessions result.1.1 = [Sample.session1]
   ∧ attendance_records result.1.1
     = records_of "a-1" (students Sample.page2)
   ∧ title <$> result.2 = ["Attendance submitted!"])
  ∧ (let result := handleSubmit (Some Sample.teacher)
                     (Sample.env_delete_down "a-2") Sample.db_nine
                     Sample.page4 in
     attendance_records result.1.1
     = attendance_records Sample.db_nine
       ++ [ {| ar_session_id := "a-1"; ar_student_id := "s-010";
               ar_status := "PRESENT" |} ]
     ∧ length (attendance_records Sample.db_nine) = 9%nat
     ∧ title <$> result.2 = ["Attendance submitted!"])
  ∧ (let result := handleSubmit (Some Sample.teacher)
                     (Sample.env_delete_down "a-2") Sample.db1
                     Sample.page3 in
     result.1.1 = Sample.db1
     ∧ description <$> result.2
       = [Some (error_message
                  (unique_violation
                     "attendance_records_session_id_student_id_key"))]).
Proof. vm_compute. repeat split. Qed.

End submission_properties.

(** * The uniqueness constraints in every reachable state *)

Section invariants.
Import Pg MarkAttendance.

Lemma filter_Forall_not {A} (P : A → Prop) `{∀ x, Decision (P x)}
    (l : list A) :
  Forall (λ x, ¬ P x) l → filter P l = [].
Proof.
  induction 1 as [|x l Hx Hl IH]; [done|]. by rewrite filter_cons_False.
Qed.

Lemma NoDup_fmap_filter_key_length {A K} `{EqDecision K} (f : A → K) (k : K)
    (l : list A) :
  NoDup (f <$> l) → (length (filter (λ x, f x = k) l) ≤ 1)%nat.
Proof.
  induction l as [|x l IH]; [simpl; lia|].
  rewrite fmap_cons, NoDup_cons. intros [Hx Hl].
  rewrite filter_cons. case_decide as Hk; [|auto].
  rewrite filter_Forall_not; [simpl; lia|].
  apply Forall_forall. intros y Hy Hfy. apply Hx.
  rewrite Hk, <- Hfy. by apply list_elem_of_fmap_2.
Qed.

(** C5.  In every state reachable from the migrated database by submissions
    and queries, no two session rows share a (class, date) -- the rows of any
    one pair number at most one -- and a further action leaves the session
    table as it is (the session is reused, or nothing could be created), or
    is a submission that appends one row for its (class, today), a pair that
    had no session before. *)
Theorem one_session_per_class_and_date (db : database) :
  reachable db →
  NoDup (session_key <$> attendance_sessions db)
  ∧ (∀ c d, (length (filter (λ s, session_key s = (c, d))
                            (attendance_sessions db)) ≤ 1)%nat)
  ∧ (∀ a,
       attendance_sessions (run db a) = attendance_sessions db
       ∨ ∃ user env st row,
           a = submit user env st
           ∧ attendance_sessions (run db a) = attendance_sessions db ++ [row]
           ∧ session_key row = (selectedClass st, today env)
           ∧ (session_key row ∉ session_key <$> attendance_sessions db)).
Proof.
  intros (_ & Huq & _)%reachable_consistent.
  split; [done|]. split.
  - intros c d. by apply NoDup_fmap_filter_key_length.
  - intros [user env st|env st]; [|by left]. simpl.
    rewrite handleSubmit_database.
    destruct user as [u|]; [|by left]. case_decide; [by left|].
    destruct (submit_attempt_sessions u env db (setLoading true st))
      as [?|(row & ? & ? & ?)]; [by left|].
    right. by exists (Some u), env, st, row.
Qed.

(** The sample database after two submissions is reachable. *)
Lemma one_session_per_class_and_date_witness :
  reachable Sample.db2
  ∧ NoDup (session_key <$> attendance_sessions Sample.db2).
Proof.
  assert (reachable Sample.db2) as Hreach.
  { exists Sample.db0,
      [ submit (Some Sample.teacher) (Sample.env_ok "a-1") Sample.page2;
        submit (Some Sample.teacher) (Sample.env_ok "a-2") Sample.page3 ].
    split; [split; reflexivity|reflexivity]. }
  split; [exact Hreach|].
  exact (proj1 (one_session_per_class_and_date Sample.db2 Hreach)).
Defined.

(** C6.  The database rejects, storing nothing, any insert whose batch holds
    a record for a (session, student) that already has one, and any insert
    whose batch holds two records for one (session, student); and in every
    reachable state no two records share a (session, student). *)
Theorem one_record_per_session_and_student (db : database) :
  (∀ uid batch r,
     r ∈ batch →
     record_key r ∈ record_key <$> attendance_records db →
     ∃ e, insert_records uid batch db = (db, Failed e))
  ∧ (∀ uid batch,
       ¬ NoDup (record_key <$> batch) →
       ∃ e, insert_records uid batch db = (db, Failed e))
  ∧ (reachable db → NoDup (record_key <$> attendance_records db)).
Proof.
  split; [|split].
  - intros uid batch r Hr Hkey.
    destruct (insert_records_cases uid batch db)
      as [?|(_ & _ & _ & _ & _ & Hnd)]; [done|].
    rewrite fmap_app in Hnd. apply NoDup_app in Hnd as (_ & Hdisj & _).
    destruct (Hdisj _ Hkey). by apply list_elem_of_fmap_2.
  - intros uid batch Hdup.
    destruct (insert_records_cases uid batch db)
      as [?|(_ & _ & _ & _ & _ & Hnd)]; [done|].
    rewrite fmap_app in Hnd. by apply NoDup_app in Hnd as (_ & _ & ?).
  - by intros (_ & _ & _ & Hruq & _)%reachable_consistent.
Qed.

(** On the sample database, a second record for STU001 in the day's session
    is turned away. *)
Lemma one_record_per_session_and_student_witness :
  reachable Sample.db1
  ∧ NoDup (record_key <$> attendance_records Sample.db1)
  ∧ ∃ e, insert_records "t-1"
           [ {| ar_session_id := "a-1"; ar_student_id := "s-001";
                ar_status := "LATE" |} ] Sample.db1
         = (Sample.db1, Failed e).
Proof.
  assert (reachable Sample.db1) as Hreach.
  { exists Sample.db0,
      [ submit (Some Sample.teacher) (Sample.env_ok "a-1") Sample.page2 ].
    split; [split; reflexivity|reflexivity]. }
  split; [exact Hreach|].
  destruct (one_record_per_session_and_student Sample.db1)
    as (Hreject & _ & Hunique).
  split; [exact (Hunique Hreach)|].
  apply (Hreject "t-1" _ {| ar_session_id := "a-1"; ar_student_id := "s-001";
                            ar_status := "LATE" |}).
  - by_evaluation.
  - by_evaluation.
Defined.

End invariants.

(** * The query flow *)

Section query_properties.
Import Pg CheckAttendance.

(** A session without records is fetched as the empty list. *)
Lemma select_records_none order sid db :
  Forall (λ r, ar_session_id r ≠ sid) (attendance_records db) →
  (select_records_with_students order sid db).2 = Ok [].
Proof.
  intros Hnone. unfold select_records_with_students; simpl.
  by rewrite filter_Forall_not, arrange_nil.
Qed.

(** C3.  With a class selected and the lookup reaching the database, a query
    for a (class, date) that has no session ends with the empty record list
    on display, the loading flag cleared and no notification; and a query for
    a (class, date) whose session has no records, both of whose requests reach
    the database, ends in exactly the same page state with exactly the same
    (empty) notifications. *)
Theorem fetch_without_session_is_empty
    (env : fetch_env) (db : database) (st : state) :
  selectedClass st ≠ "" →
  fault_select_session env = None →
  ((selectedClass st, selectedDate st)
     ∉ session_key <$> attendance_sessions db) →
  fetchAttendance env db st
  = (setLoading false
       (setRecords [] (setHasSearched true (setLoading true st))), [])
  ∧ records (fetchAttendance env db st).1 = []
  ∧ (∀ db2 s,
       NoDup (session_key <$> attendance_sessions db2) →
       s ∈ attendance_sessions db2 →
       session_key s = (selectedClass st, selectedDate st) →
       Forall (λ r, ar_session_id r ≠ se_id s) (attendance_records db2) →
       fault_select_records env = None →
       fetchAttendance env db2 st = fetchAttendance env db st).
Proof.
  intros Hclass Hf1 Hnone.
  assert (fetchAttendance env db st
          = (setLoading false
               (setRecords [] (setHasSearched true (setLoading true st))), []))
    as Hempty.
  { unfold fetchAttendance. rewrite decide_False by done.
    rewrite Hf1, call_reaches.
    cbn [setHasSearched setLoading selectedClass selectedDate].
    by rewrite select_session_none. }
  split; [done|]. split; [by rewrite Hempty|].
  intros db2 s Huq Hin Hkey Hzero Hf2. rewrite Hempty.
  unfold fetchAttendance. rewrite decide_False by done.
  rewrite Hf1, Hf2, !call_reaches.
  cbn [setHasSearched setLoading selectedClass selectedDate].
  unfold select_session. cbn [snd].
  rewrite (filter_class_date_single _ _ _ s) by done.
  cbn [maybeSingle]. rewrite call_reaches.
  by rewrite select_records_none.
Qed.

(** On the sample data: no session yet, against a session submitted with an
    empty roster. *)
Lemma fetch_without_session_is_empty_witness :
  records (fetchAttendance Sample.fetch_ok Sample.db0 Sample.query0).1 = []
  ∧ attendance_sessions Sample.db_empty_session = [Sample.session1]
  ∧ fetchAttendance Sample.fetch_ok Sample.db_empty_session Sample.query0
    = fetchAttendance Sample.fetch_ok Sample.db0 Sample.query0.
Proof.
  destruct (fetch_without_session_is_empty
              Sample.fetch_ok Sample.db0 Sample.query0
              ltac:(by_evaluation) eq_refl ltac:(by_evaluation))
    as (_ & Hempty & Hsame).
  split; [exact Hempty|]. split; [reflexivity|].
  apply (Hsame Sample.db_empty_session Sample.session1);
    [by_evaluation|by_evaluation|reflexivity|by_evaluation|reflexivity].
Defined.

(** C9.  With a class selected, the lookup finding the session of the
    (class, date) and the fetch of its records failing, the handler leaves the
    record list as it was before the query: the page ends as it stood while
    the query was in flight, but for the loading flag, now cleared, and the
    failure is notified. *)
Theorem failed_records_fetch_keeps_records
    (env : fetch_env) (db : database) (st : state) (s : session_row)
    (f : fault) :
  selectedClass st ≠ "" →
  fault_select_session env = None →
  NoDup (session_key <$> attendance_sessions db) →
  s ∈ attendance_sessions db →
  session_key s = (selectedClass st, selectedDate st) →
  fault_select_records env = Some f →
  records (fetchAttendance env db st).1 = records st
  ∧ loading (fetchAttendance env db st).1 = false
  ∧ (fetchAttendance env db st).1
    = setLoading false (setHasSearched true (setLoading true st))
  ∧ (fetchAttendance env db st).2
    = [ {| title := "Error fetching records";
           description :=
             Some (error_message (transport (fault_message f)));
           variant := destructive |} ].
Proof.
  intros Hclass Hf1 Huq Hin Hkey Hf2.
  unfold fetchAttendance. rewrite decide_False by done.
  rewrite Hf1, Hf2, call_reaches.
  cbn [setHasSearched setLoading selectedClass selectedDate].
  unfold select_session. cbn [snd].
  rewrite (filter_class_date_single _ _ _ s) by done.
  cbn [maybeSingle]. by rewrite call_fault.
Qed.

(** On the sample data: the ten records of an earlier query stay on display
    when the records of the next one cannot be fetched. *)
Lemma failed_records_fetch_keeps_records_witness :
  length (records Sample.query1) = 10%nat
  ∧ records (fetchAttendance Sample.fetch_records_down Sample.db1
               Sample.query1).1
    = records Sample.query1.
Proof.
  split; [reflexivity|].
  exact (proj1 (failed_records_fetch_keeps_records
                  Sample.fetch_records_down Sample.db1 Sample.query1
                  Sample.session1 (request_lost "Failed to fetch")
                  ltac:(by_evaluation) eq_refl ltac:(by_evaluation)
                  ltac:(by_evaluation) eq_refl eq_refl)).
Defined.

End query_properties.

(** * The roster *)

Section roster_properties.
Import Pg MarkAttendance.

(** Every row [studentData] builds has its flag on, and carries the id of the
    embedded student. *)
Lemma studentData_present enrollments l :
  studentData enrollments = Some l →
  Forall (λ x, present x = true) l
  ∧ Forall2 (λ e x, ∃ s, e.2 = Some s ∧ id x = st_id s) enrollments l.
Proof.
  unfold studentData. rewrite mapM_Some. intros Hl.
  induction Hl as [|[e o] x enrollments l Hx Hl [IH1 IH2]]; [by split|].
  simpl in Hx. destruct o as [s|]; [|done]. simpl in Hx.
  injection Hx as <-. split; constructor; eauto.
Qed.

(** The embed of an enrollment whose student exists is that student. *)
Lemma embedded_student sid (l : list student_row) :
  sid ∈ st_id <$> l →
  ∃ s, head (filter (λ s, st_id s = sid) l) = Some s ∧ st_id s = sid.
Proof.
  intros [s [-> Hs]]%list_elem_of_fmap.
  assert (s ∈ filter (λ s', st_id s' = st_id s) l) as Hin
    by by apply list_elem_of_filter.
  destruct (filter _ l) as [|s' l'] eqn:E; [by inversion Hin|].
  exists s'. split; [done|].
  assert (s' ∈ filter (λ s', st_id s' = st_id s) l) as Hin'
    by (rewrite E; left).
  by apply list_elem_of_filter in Hin' as [? _].
Qed.

Lemma studentData_total (l : list enrollment_row) (sts : list student_row) :
  Forall (λ e, en_student_id e ∈ st_id <$> sts) l →
  ∃ k, studentData
         ((λ e, (e, head (filter (λ s, st_id s = en_student_id e) sts))) <$> l)
       = Some k
       ∧ id <$> k = en_student_id <$> l.
Proof.
  induction 1 as [|e l He Hl (k & Hk & Hids)]; [by exists []|].
  destruct (embedded_student _ _ He) as (s & Hs & Hid).
  exists ({| id := st_id s; roll_number := st_roll_number s;
             full_name := st_full_name s; present := true |} :: k).
  unfold studentData in *. rewrite fmap_cons. cbn [mapM].
  cbn [snd]. rewrite Hs. cbn. rewrite Hk. cbn.
  split; [done|]. by rewrite Hid, Hids.
Qed.

(** Toggling a flag changes no id. *)
Lemma toggleAttendance_ids sid st :
  id <$> students (toggleAttendance sid st) = id <$> students st.
Proof.
  unfold toggleAttendance. cbn [students setStudents].
  rewrite <- list_fmap_compose. apply list_fmap_ext.
  intros i x _. simpl. by case_decide.
Qed.

(** The roster an answered request loads: the students enrolled in the
    class, in the order the select returned them. *)
Lemma loadStudents_answered order db st :
  Forall (λ e, en_student_id e ∈ st_id <$> Pg.students db)
         (class_enrollments db) →
  selectedClass st ≠ "" →
  ∃ k, loadStudents order None db st
       = (setLoading false (setStudents k (setLoading true st)), [])
       ∧ id <$> k
         = en_student_id
             <$> arrange order
                   (filter (λ e, en_class_id e = selectedClass st)
                           (class_enrollments db))
       ∧ Forall (λ x, present x = true) k.
Proof.
  intros Hfk Hclass.
  unfold loadStudents. rewrite decide_False by done.
  rewrite call_reaches. unfold select_enrollments_with_students.
  cbn [snd setLoading selectedClass].
  destruct (studentData_total
              (arrange order
                 (filter (λ e, en_class_id e = selectedClass st)
                         (class_enrollments db))) (Pg.students db))
    as (k & Hk & Hids).
  { rewrite arrange_rows. by apply Forall_filter_keep. }
  rewrite Hk. exists k. split; [done|]. split; [done|].
  by apply studentData_present in Hk as [? _].
Qed.

(** Under UNIQUE(student_id, class_id) and the foreign key of the
    enrollments, a loaded roster names distinct, existing students: the
    rosters the submission theorems ask for. *)
Lemma loaded_roster_wellformed order db st :
  NoDup ((λ e, (en_student_id e, en_class_id e)) <$> class_enrollments db) →
  Forall (λ e, en_student_id e ∈ st_id <$> Pg.students db)
         (class_enrollments db) →
  selectedClass st ≠ "" →
  NoDup (id <$> students (loadStudents order None db st).1)
  ∧ Forall (λ x, id x ∈ st_id <$> Pg.students db)
           (students (loadStudents order None db st).1).
Proof.
  intros Huq Hfk Hclass.
  destruct (loadStudents_answered order db st Hfk Hclass)
    as (k & -> & Hids & _).
  cbn [fst students setStudents setLoading].
  assert (Forall (λ sid, sid ∈ st_id <$> Pg.students db) (id <$> k)) as Hex.
  { rewrite Hids, arrange_rows. apply Forall_fmap.
    by apply Forall_filter_keep. }
  split; [|by apply Forall_fmap in Hex].
  rewrite Hids, arrange_rows.
  apply (NoDup_fmap_1 (λ sid, (sid, selectedClass st))).
  rewrite <- list_fmap_compose.
  erewrite list_fmap_ext;
    [apply (NoDup_fmap_filter (λ e, (en_student_id e, en_class_id e))), Huq|].
  intros i e [<- _]%list_elem_of_lookup_2%list_elem_of_filter. done.
Qed.

(** C8.  Whatever happens to the request and in whatever order its rows come
    back, [loadStudents] either leaves the roster as it was or replaces it by
    one in which every flag is on.  And with a class selected, the request
    answered and every enrollment pointing to an existing student, the roster
    is replaced: it lists the students enrolled in the class, each enrollment
    once, in the order the select returned them, every one of them present,
    and the loading flag is cleared. *)
Theorem loaded_roster_is_all_present
    (order : row_order enrollment_row) (f : option fault) (db : database)
    (st : state) :
  (students (loadStudents order f db st).1 = students st
   ∨ Forall (λ x, present x = true) (students (loadStudents order f db st).1))
  ∧ (selectedClass st ≠ "" →
     f = None →
     Forall (λ e, en_student_id e ∈ st_id <$> Pg.students db)
            (class_enrollments db) →
     Forall (λ x, present x = true) (students (loadStudents order f db st).1)
     ∧ id <$> students (loadStudents order f db st).1
       = en_student_id
           <$> arrange order
                 (filter (λ e, en_class_id e = selectedClass st)
                         (class_enrollments db))
     ∧ id <$> students (loadStudents order f db st).1
       ≡ₚ en_student_id
            <$> filter (λ e, en_class_id e = selectedClass st)
                       (class_enrollments db)
     ∧ loading (loadStudents order f db st).1 = false
     ∧ (loadStudents order f db st).2 = []).
Proof.
  split.
  - unfold loadStudents. case_decide; [by left|].
    destruct (call f _ db).2 as [enrollments|e]; [|by left].
    destruct (studentData enrollments) as [l|] eqn:E; [|by left].
    right. simpl. by apply studentData_present in E as [? _].
  - intros Hclass -> Hfk.
    destruct (loadStudents_answered order db st Hfk Hclass)
      as (k & -> & Hids & Hpresent).
    cbn [fst snd students loading setStudents setLoading].
    split_and!; try done. by rewrite Hids, arrange_rows.
Qed.

(** On the sample data: the roster of CS101. *)
Lemma loaded_roster_is_all_present_witness :
  length (students Sample.page1) = 10%nat
  ∧ Forall (λ x, present x = true) (students Sample.page1).
Proof.
  split; [reflexivity|].
  exact (proj1 (proj2 (loaded_roster_is_all_present as_inserted None
                         Sample.db0 Sample.page0)
                  ltac:(by_evaluation) eq_refl ltac:(by_evaluation))).
Defined.

End roster_properties.

(** * The attendance percentage *)

Section percentage.
Import Pg.

Lemma remove_dups_NoDup {A} `{EqDecision A} (l : list A) :
  NoDup l → remove_dups l = l.
Proof.
  induction 1 as [|x l Hx Hl IH]; [done|].
  simpl. destruct (decide_rel elem_of x l) as [?|?]; [done|by rewrite IH].
Qed.

(** Under the primary key of the sessions, the join pairs a record with its
    one session: filtering joined rows by [P] is filtering records by "its
    session makes [P] hold". *)
Lemma join_filter (P : record_row * session_row → Prop)
    (Q : record_row → Prop) `{∀ x, Decision (P x)} `{∀ r, Decision (Q r)}
    (S : list session_row) (R : list record_row) :
  NoDup (se_id <$> S) →
  (∀ r, Q r ↔ ∃ s, s ∈ S ∧ se_id s = ar_session_id r ∧ P (r, s)) →
  fst <$> filter P (r ← R;
                    s ← filter (λ s, se_id s = ar_session_id r) S;
                    [(r, s)])
  = filter Q R.
Proof.
  intros Hpk HQ. induction R as [|r R IH]; [done|].
  rewrite bind_cons, filter_app, fmap_app, IH. clear IH.
  pose proof (NoDup_fmap_filter_key_length se_id (ar_session_id r) S Hpk)
    as Hlen.
  assert (∀ s, s ∈ filter (λ s, se_id s = ar_session_id r) S
               ↔ s ∈ S ∧ se_id s = ar_session_id r) as Hin.
  { intros s. rewrite list_elem_of_filter. tauto. }
  destruct (filter (λ s, se_id s = ar_session_id r) S) as [|s [|s' l]].
  - simpl. rewrite filter_cons_False; [done|].
    intros (s & Hs & Hid & _)%HQ.
    assert (s ∈ @nil session_row) as Hnil by (apply Hin; done).
    by inversion Hnil.
  - assert (s ∈ S ∧ se_id s = ar_session_id r) as [Hs Hid].
    { apply Hin. left. }
    cbn [mbind list_bind app]. rewrite filter_cons, filter_nil.
    destruct (decide (P (r, s))) as [HP|HP].
    + rewrite filter_cons_True; [done|]. apply HQ. eauto.
    + rewrite filter_cons_False; [done|].
      intros (s' & Hs' & Hid' & HP')%HQ. apply HP.
      assert (s' ∈ [s]) as ->%list_elem_of_singleton by (apply Hin; done).
      done.
  - simpl in Hlen. lia.
Qed.

(** The student's records in scope belong to pairwise different sessions. *)
Lemma matching_sessions_NoDup db student class_filter from_date to_date :
  NoDup (record_key <$> attendance_records db) →
  NoDup (ar_session_id
           <$> filter (Spec.matching db student class_filter from_date to_date)
                      (attendance_records db)).
Proof.
  intros Hruq.
  apply (NoDup_fmap_1 (λ sid, (sid, student))).
  rewrite <- list_fmap_compose.
  erewrite list_fmap_ext;
    [apply (NoDup_fmap_filter record_key), Hruq|].
  intros i r [[<- _] _]%list_elem_of_lookup_2%list_elem_of_filter. done.
Qed.

(** [round x 2] is [x] rounded to 2 decimal places. *)
Lemma round_2_places (x : Q) : Spec.rounded_to_2_places x (round x 2).
Proof.
  destruct x as [n d]. unfold Spec.rounded_to_2_places, round.
  cbn [Qnum Qden].
  change (10 ^ Z.of_nat 2)%Z with 100%Z. change (Z.to_pos 100) with 100%positive.
  split; [by eexists|].
  unfold Qle, Qabs, Qminus, Qplus, Qopp. cbn [Qnum Qden].
  rewrite Pos2Z.inj_mul.
  set (k0 := ((2 * (Z.abs n * 100) + Z.pos d) / (2 * Z.pos d))%Z).
  assert (2 * Z.pos d * k0 ≤ 2 * (Z.abs n * 100) + Z.pos d
          < 2 * Z.pos d * k0 + 2 * Z.pos d)%Z as Hdiv.
  { pose proof (Z.div_mod (2 * (Z.abs n * 100) + Z.pos d) (2 * Z.pos d)
                  ltac:(lia)) as Hdm.
    pose proof (Z.mod_pos_bound (2 * (Z.abs n * 100) + Z.pos d)
                  (2 * Z.pos d) ltac:(lia)) as Hmod.
    fold k0 in Hdm. lia. }
  clearbody k0.
  destruct n as [|n|n]; cbn [Z.sgn Z.abs] in *; lia.
Qed.

(** The two counts of the function are the two counts of the specification
    when session ids and (session, student) pairs are unique. *)
Lemma percentage_counts db student class_filter from_date to_date :
  NoDup (se_id <$> attendance_sessions db) →
  NoDup (record_key <$> attendance_records db) →
  let scope := in_scope student class_filter from_date to_date in
  length (remove_dups ((λ row, ar_session_id row.1)
                         <$> filter scope (records_join_sessions db)))
  = Spec.total_count db student class_filter from_date to_date
  ∧ length (filter (λ row, scope row ∧ ar_status row.1 = "PRESENT")
                   (records_join_sessions db))
    = Spec.present_count db student class_filter from_date to_date.
Proof.
  intros Hpk Hruq scope.
  unfold Spec.total_count, Spec.present_count, records_join_sessions.
  split.
  - change (λ row : record_row * session_row, ar_session_id row.1)
      with (ar_session_id ∘ @fst record_row session_row).
    rewrite (list_fmap_compose fst ar_session_id).
    rewrite (join_filter scope
               (Spec.matching db student class_filter from_date to_date)).
    + rewrite remove_dups_NoDup by by apply matching_sessions_NoDup.
      apply length_fmap.
    + done.
    + intros r. unfold Spec.matching, scope, in_scope.
      rewrite Exists_exists. simpl. split.
      * intros (? & s & ? & ? & ? & ? & ?). by exists s.
      * intros (s & ? & ? & ? & ? & ? & ?). split; [done|]. by exists s.
  - rewrite <- (length_fmap fst).
    rewrite (join_filter _
               (λ r, ar_status r = "PRESENT"
                     ∧ Spec.matching db student class_filter from_date
                                     to_date r)).
    + by rewrite list_filter_filter.
    + done.
    + intros r. unfold Spec.matching, scope, in_scope.
      rewrite Exists_exists. simpl. split.
      * intros (? & ? & s & ? & ? & ? & ? & ?). by exists s.
      * intros (s & ? & ? & (? & ? & ? & ?) & ?).
        do 2 (split; [done|]). by exists s.
Qed.

(** C7.  On a database whose session ids and whose (session, student) pairs
    are unique, [calculate_attendance_percentage] returns 0 when the student
    has no record matching the class and date-range filters, and otherwise
    the value of present-count / total-count * 100 rounded to 2 decimal
    places: a whole number of hundredths, at most half a hundredth away from
    it.  The counts are those of the matching records, and of the matching
    records with status PRESENT. *)
Theorem percentage_is_rounded_ratio
    (db : database) (student : uuid) (class_filter : option uuid)
    (from_date to_date : option date) :
  NoDup (se_id <$> attendance_sessions db) →
  NoDup (record_key <$> attendance_records db) →
  let total :=
    Spec.total_count db student class_filter from_date to_date in
  let present :=
    Spec.present_count db student class_filter from_date to_date in
  let result :=
    calculate_attendance_percentage db student class_filter from_date
                                    to_date in
  let ratio :=
    (inject_Z (Z.of_nat present) / inject_Z (Z.of_nat total) * 100)%Q in
  (total = 0%nat → result = 0%Q)
  ∧ (total ≠ 0%nat →
     result = round ratio 2 ∧ Spec.rounded_to_2_places ratio result).
Proof.
  intros Hpk Hruq total present result ratio.
  destruct (percentage_counts db student class_filter from_date to_date
              Hpk Hruq) as [Htotal Hpresent].
  fold total in Htotal. fold present in Hpresent.
  unfold result, calculate_attendance_percentage.
  rewrite Htotal, Hpresent. split.
  - intros ->. done.
  - intros Hne. rewrite decide_False by done.
    split; [done|]. apply round_2_places.
Qed.

(** On three days of the sample class, STU001 was present on two: 66.67. *)
Lemma percentage_is_rounded_ratio_witness :
  Spec.total_count Sample.db_three_days "s-001" (Some Sample.cs101) None None
  = 3%nat
  ∧ Spec.present_count Sample.db_three_days "s-001" (Some Sample.cs101)
      None None = 2%nat
  ∧ calculate_attendance_percentage Sample.db_three_days "s-001"
      (Some Sample.cs101) None None = Qmake 6667 100.
Proof.
  split; [vm_compute; reflexivity|]. split; [vm_compute; reflexivity|].
  destruct (percentage_is_rounded_ratio Sample.db_three_days "s-001"
              (Some Sample.cs101) None None
              ltac:(by_evaluation) ltac:(by_evaluation)) as [_ Hratio].
  destruct (Hratio ltac:(by_evaluation)) as [-> _].
  vm_compute. reflexivity.
Defined.

End percentage.

(** * More about the marking page *)

Section marking_page.
Import Pg MarkAttendance.

(** X1.  The switches of [toggleAttendance] are independent: switching one
    student twice restores the page exactly, and two switches give the same
    page in either order. *)
Theorem toggleAttendance_twice_and_order (s1 s2 : string) (st : state) :
  toggleAttendance s1 (toggleAttendance s1 st) = st
  ∧ toggleAttendance s1 (toggleAttendance s2 st)
    = toggleAttendance s2 (toggleAttendance s1 st).
Proof.
  destruct st as [roster cls sel ld]. unfold toggleAttendance, setStudents.
  cbn [students classes selectedClass loading]. split.
  - f_equal. rewrite <- list_fmap_compose.
    rewrite <- (list_fmap_id roster) at 2. apply list_fmap_ext.
    intros i [xid xroll xname xp] _. simpl.
    destruct (decide (xid = s1)); simpl; [|by rewrite decide_False].
    rewrite decide_True by done. by rewrite negb_involutive.
  - f_equal. rewrite <- !list_fmap_compose. apply list_fmap_ext.
    intros i [xid xroll xname xp] _. simpl.
    destruct (decide (xid = s1)), (decide (xid = s2)); simpl;
      repeat first [rewrite decide_True by done
                   |rewrite decide_False by done]; done.
Qed.

(** X2.  [toggleAttendance] changes nothing but flags: the roster keeps its
    length, and at every position the id, roll number and name stay while the
    flag is inverted exactly when the entry carries the given id; the selected
    class, class list and loading flag stay; and an id that is not on the
    roster leaves the page as it is. *)
Theorem toggleAttendance_only_flips_flags (sid : string) (st : state) :
  Forall2 (λ x y, id y = id x ∧ roll_number y = roll_number x
                  ∧ full_name y = full_name x
                  ∧ present y = if decide (id x = sid)
                                then negb (present x) else present x)
          (students st) (students (toggleAttendance sid st))
  ∧ selectedClass (toggleAttendance sid st) = selectedClass st
  ∧ classes (toggleAttendance sid st) = classes st
  ∧ loading (toggleAttendance sid st) = loading st
  ∧ ((sid ∉ id <$> students st) → toggleAttendance sid st = st).
Proof.
  destruct st as [roster cls sel ld]. unfold toggleAttendance, setStudents.
  cbn [students classes selectedClass loading]. repeat split.
  - apply Forall2_fmap_r, Forall_Forall2_diag, Forall_true.
    intros x. simpl. by destruct (decide (id x = sid)).
  - intros Hnot. f_equal. rewrite <- (list_fmap_id roster) at 2.
    apply list_fmap_ext. intros i x Hx. simpl.
    rewrite decide_False; [done|]. intros <-. apply Hnot.
    apply list_elem_of_fmap_2. by eapply list_elem_of_lookup_2.
Qed.

Lemma handleSubmit_outcome u env db st :
  selectedClass st ≠ "" →
  handleSubmit (Some u) env db st
  = ((submit_attempt u env db (setLoading true st)).1,
     setLoading false (setLoading true st),
     [submit_toast (submit_attempt u env db (setLoading true st)).2]).
Proof.
  intros Hclass. unfold handleSubmit. rewrite decide_False by done.
  by destruct (submit_attempt u env db (setLoading true st)) as [db' [[]|e]].
Qed.

(** The last request of a submission: nothing changes, or the batch, having
    passed the insert policy, is stored whole behind the records found --
    with the answer, or with the answer lost. *)
Lemma call_insert_records_cases fault uid batch db :
  (∃ e, call fault (insert_records uid batch) db = (db, Failed e))
  ∨ (Forall (marked_by_caller uid db) batch
     ∧ (call fault (insert_records uid batch) db
        = (with_records db (attendance_records db ++ batch), Ok tt)
        ∨ ∃ m, fault = Some (answer_lost m)
               ∧ call fault (insert_records uid batch) db
                 = (with_records db (attendance_records db ++ batch),
                    Failed (transport m)))).
Proof.
  destruct (insert_records_cases uid batch db) as [[e He]|(He & Hc & _)].
  - left. destruct fault as [[m|m]|]; simpl; rewrite ?He; by eexists.
  - destruct fault as [[m|m]|]; simpl; rewrite ?He.
    + left. by eexists.
    + right. split; [done|]. right. by exists m.
    + right. split; [done|]. by left.
Qed.

(** The ways through the [try] block: an existing session is reused (its
    records deleted as far as the request and the policy allow); no session
    is created and the block throws; or a session is created, and the block
    goes on to the insert of the records or, the answer lost, throws. *)
Lemma submit_attempt_cases u env db st :
  (∃ s, s ∈ attendance_sessions db
        ∧ session_key s = (selectedClass st, today env)
        ∧ submit_attempt u env db st
          = call (fault_insert_records env)
              (insert_records (user_id u)
                 (records_of (se_id s) (students st)))
              (call (fault_delete_records env)
                 (delete_records (user_id u) (se_id s)) db).1)
  ∨ (∃ e, submit_attempt u env db st = (db, Failed e))
  ∨ (∃ row,
       row = {| se_id := gen_random_uuid env;
                se_class_id := selectedClass st;
                se_session_date := today env;
                se_marked_by := Some (user_id u) |}
       ∧ (se_id row ∉ se_id <$> attendance_sessions db)
       ∧ se_class_id row ∈ cl_id <$> Pg.classes db
       ∧ (session_key row ∉ session_key <$> attendance_sessions db)
       ∧ user_id u ∈ pr_id <$> profiles db
       ∧ (submit_attempt u env db st
          = call (fault_insert_records env)
              (insert_records (user_id u)
                 (records_of (se_id row) (students st)))
              (with_sessions db (attendance_sessions db ++ [row]))
          ∨ ∃ e, submit_attempt u env db st
                 = (with_sessions db (attendance_sessions db ++ [row]),
                    Failed e))).
Proof.
  unfold submit_attempt.
  destruct (data_or_null _) as [s|] eqn:Hlookup.
  - left. exists s.
    assert (s ∈ filter (λ s, se_class_id s = selectedClass st
                             ∧ se_session_date s = today env)
                       (attendance_sessions db)) as Hin.
    { destruct (fault_select_session env) as [[m|m]|]; [done..|].
      rewrite call_reaches in Hlookup. unfold select_session in Hlookup.
      cbn [snd] in Hlookup.
      destruct (filter _ (attendance_sessions db)) as [|s' [|? ?]];
        try done.
      injection Hlookup as ->. left. }
    apply list_elem_of_filter in Hin as [[Hc Hd] Hin].
    split; [done|]. split; [|done]. unfold session_key. by rewrite Hc, Hd.
  - right.
    destruct (call_insert_session_cases (fault_insert_session env)
                (user_id u) (gen_random_uuid env) (selectedClass st)
                (today env) db)
      as [[e ->]|(Hid & Hc & Hkey & Hp & [-> | [e ->]])].
    + left. by eexists.
    + right. eexists. split; [reflexivity|]. split_and!; try done. by left.
    + right. eexists. split; [reflexivity|]. split_and!; try done.
      right. by eexists.
Qed.

Lemma call_delete_records_cases fault uid sid db :
  (call fault (delete_records uid sid) db).1 = db
  ∨ (call fault (delete_records uid sid) db).1
    = with_records db
        (filter (λ r, ¬ (ar_session_id r = sid ∧ marked_by_caller uid db r))
                (attendance_records db)).
Proof. destruct fault as [[m|m]|]; [by left|by right|by right]. Qed.

(** X3.  Whatever the inputs and whichever requests fail, [handleSubmit]
    leaves the students, classes and enrollments tables as they are, keeps
    every session row in place (the old session table is a prefix of the new
    one), keeps the page's roster, selected class and class list, and raises
    exactly one notification. *)
Theorem handleSubmit_frame
    (user : option User) (env : submit_env) (db : database) (st : state) :
  Pg.students (handleSubmit user env db st).1.1 = Pg.students db
  ∧ Pg.classes (handleSubmit user env db st).1.1 = Pg.classes db
  ∧ class_enrollments (handleSubmit user env db st).1.1
    = class_enrollments db
  ∧ attendance_sessions db
      `prefix_of` attendance_sessions (handleSubmit user env db st).1.1
  ∧ students (handleSubmit user env db st).1.2 = students st
  ∧ selectedClass (handleSubmit user env db st).1.2 = selectedClass st
  ∧ classes (handleSubmit user env db st).1.2 = classes st
  ∧ length (handleSubmit user env db st).2 = 1%nat.
Proof.
  destruct user as [u|]; [|by repeat split].
  destruct (decide (selectedClass st = "")) as [Hnone|Hclass].
  { unfold handleSubmit. rewrite decide_True by done. by repeat split. }
  rewrite handleSubmit_outcome by done. cbn [fst snd].
  assert (Pg.students (submit_attempt u env db (setLoading true st)).1
            = Pg.students db
          ∧ Pg.classes (submit_attempt u env db (setLoading true st)).1
            = Pg.classes db
          ∧ class_enrollments (submit_attempt u env db (setLoading true st)).1
            = class_enrollments db
          ∧ attendance_sessions db `prefix_of`
              attendance_sessions
                (submit_attempt u env db (setLoading true st)).1)
    as (? & ? & ? & ?); [|by repeat split].
  destruct (submit_attempt_cases u env db (setLoading true st))
    as [(s & _ & _ & ->)
       |[[e ->]|(row & _ & _ & _ & _ & _ & [-> | [e ->]])]].
  - destruct (call_insert_records_cases (fault_insert_records env) (user_id u)
                (records_of (se_id s) (students (setLoading true st)))
                (call (fault_delete_records env)
                   (delete_records (user_id u) (se_id s)) db).1)
      as [[e ->]|[_ [-> | (m & _ & ->)]]];
      destruct (call_delete_records_cases (fault_delete_records env)
                  (user_id u) (se_id s) db) as [->| ->]; by repeat split.
  - by repeat split.
  - destruct (call_insert_records_cases (fault_insert_records env) (user_id u)
                (records_of (se_id row) (students (setLoading true st)))
                (with_sessions db (attendance_sessions db ++ [row])))
      as [[e ->]|[_ [-> | (m & _ & ->)]]]; repeat split;
      by apply prefix_app_r.
  - repeat split; by apply prefix_app_r.
Qed.

(** X4.  A submission for (class, today) leaves the records of every other
    session as they were, whichever requests fail: for a session id that is
    neither the id of a stored session of that class and day nor the id drawn
    for a new one, the records stored under it are the same before and
    after. *)
Theorem handleSubmit_keeps_other_sessions
    (user : option User) (env : submit_env) (db : database) (st : state)
    (sid : uuid) :
  sid ≠ gen_random_uuid env →
  (∀ s, s ∈ attendance_sessions db →
        session_key s = (selectedClass st, today env) → se_id s ≠ sid) →
  filter (λ r, ar_session_id r = sid)
         (attendance_records (handleSubmit user env db st).1.1)
  = filter (λ r, ar_session_id r = sid) (attendance_records db).
Proof.
  intros Hgen Hother. rewrite handleSubmit_database.
  destruct user as [u|]; [|done]. case_decide; [done|].
  assert (∀ sid' roster, sid' ≠ sid →
            filter (λ r, ar_session_id r = sid) (records_of sid' roster) = [])
    as Hbatch.
  { intros sid' roster Hne. apply filter_Forall_not.
    eapply Forall_impl; [apply records_of_session|]. simpl. congruence. }
  destruct (submit_attempt_cases u env db (setLoading true st))
    as [(s & Hs & Hkey & ->)
       |[[e ->]|(row & -> & _ & _ & _ & _ & [-> | [e ->]])]].
  - specialize (Hother s Hs Hkey).
    assert (filter (λ r, ar_session_id r = sid)
              (attendance_records
                 (call (fault_delete_records env)
                    (delete_records (user_id u) (se_id s)) db).1)
            = filter (λ r, ar_session_id r = sid) (attendance_records db))
      as Hdel.
    { destruct (call_delete_records_cases (fault_delete_records env)
                  (user_id u) (se_id s) db) as [->| ->]; [done|].
      cbn [attendance_records with_records]. rewrite list_filter_filter.
      apply list_filter_iff. intros r. split; [tauto|].
      intros Hr. split; [done|]. intros [? _]. congruence. }
    destruct (call_insert_records_cases (fault_insert_records env) (user_id u)
                (records_of (se_id s) (students (setLoading true st)))
                (call (fault_delete_records env)
                   (delete_records (user_id u) (se_id s)) db).1)
      as [[e ->]|[_ [-> | (m & _ & ->)]]];
      cbn [fst attendance_records with_records]; [done|..];
      by rewrite filter_app, Hbatch, app_nil_r.
  - done.
  - destruct (call_insert_records_cases (fault_insert_records env) (user_id u)
                (records_of (gen_random_uuid env)
                   (students (setLoading true st)))
                (with_sessions db
                   (attendance_sessions db
                    ++ [ {| se_id := gen_random_uuid env;
                            se_class_id := selectedClass (setLoading true st);
                            se_session_date := today env;
                            se_marked_by := Some (user_id u) |} ])))
      as [[e He]|[_ [He | (m & _ & He)]]]; cbn [se_id] in *; rewrite He;
      cbn [fst attendance_records with_records with_sessions]; [done|..];
      by rewrite filter_app, Hbatch, app_nil_r.
  - done.
Qed.

Lemma submit_toast_success r :
  title (submit_toast r) = "Attendance submitted!" → ∃ v, r = Ok v.
Proof. destruct r; [eauto|done]. Qed.

Lemma submit_toast_error r :
  variant (submit_toast r) = destructive → ∃ e, r = Failed e.
Proof. destruct r; [done|eauto]. Qed.

(** The batch for a session, stored behind whatever the table holds, is the
    roster stored. *)
Lemma batch_stored db s records st :
  s ∈ attendance_sessions db →
  attendance_records db = records ++ records_of (se_id s) (students st) →
  roster_stored db (se_class_id s) (se_session_date s) (students st).
Proof.
  intros Hs Hrecords. exists s, (records_of (se_id s) (students st)).
  split_and!; [done|done| |apply records_of_Forall2].
  rewrite Hrecords. by eexists.
Qed.

(** What the [try] block leaves when its last request, the insert of the
    records, was carried out. *)
Lemma submit_attempt_stored u env db st r :
  submit_attempt u env db st = r →
  (∃ e, r.2 = Failed e
        ∧ attendance_records r.1 `sublist_of` attendance_records db)
  ∨ (roster_stored r.1 (selectedClass st) (today env) (students st)
     ∧ (r.2 = Ok tt
        ∨ ∃ message, fault_insert_records env = Some (answer_lost message))).
Proof.
  intros <-.
  destruct (submit_attempt_cases u env db st)
    as [(s & Hs & Hkey & ->)
       |[[e ->]|(row & Hrow & _ & _ & _ & _ & [-> | [e ->]])]].
  - assert (attendance_sessions
              (call (fault_delete_records env)
                 (delete_records (user_id u) (se_id s)) db).1
            = attendance_sessions db
            ∧ attendance_records
                (call (fault_delete_records env)
                   (delete_records (user_id u) (se_id s)) db).1
              `sublist_of` attendance_records db) as [Hsame Hsub].
    { destruct (call_delete_records_cases (fault_delete_records env)
                  (user_id u) (se_id s) db) as [->| ->]; [done|].
      split; [done|]. apply sublist_filter. }
    injection Hkey as Hc Hd.
    destruct (call_insert_records_cases (fault_insert_records env) (user_id u)
                (records_of (se_id s) (students st))
                (call (fault_delete_records env)
                   (delete_records (user_id u) (se_id s)) db).1)
      as [[e ->]|[_ [-> | (m & Hm & ->)]]].
    + left. by exists e.
    + right. split; [|by left]. rewrite <- Hc, <- Hd.
      eapply batch_stored; [by rewrite <- Hsame in Hs|done].
    + right. split; [|right; by exists m]. rewrite <- Hc, <- Hd.
      eapply batch_stored; [by rewrite <- Hsame in Hs|done].
  - left. by exists e.
  - assert (row ∈ attendance_sessions db ++ [row]) as Hin
      by (apply elem_of_app; right; left).
    assert (se_class_id row = selectedClass st
            ∧ se_session_date row = today env) as [Hc Hd] by by rewrite Hrow.
    destruct (call_insert_records_cases (fault_insert_records env) (user_id u)
                (records_of (se_id row) (students st))
                (with_sessions db (attendance_sessions db ++ [row])))
      as [[e ->]|[_ [-> | (m & Hm & ->)]]].
    + left. by exists e.
    + right. split; [|by left]. rewrite <- Hc, <- Hd.
      by eapply batch_stored.
    + right. split; [|right; by exists m]. rewrite <- Hc, <- Hd.
      by eapply batch_stored.
  - left. by exists e.
Qed.

(** X5.  When [handleSubmit] announces success, then -- whatever else
    happened on the way -- the roster is stored: the database holds a session
    for the selected class and today, and the records table ends with one
    record per roster entry, entry by entry, of that session, of the entry's
    student, PRESENT when the entry's flag is on and ABSENT when it is
    off. *)
Theorem handleSubmit_success_is_sound
    (user : option User) (env : submit_env) (db : database) (st : state) :
  title <$> (handleSubmit user env db st).2 = ["Attendance submitted!"] →
  roster_stored (handleSubmit user env db st).1.1
    (selectedClass st) (today env) (students st).
Proof.
  destruct user as [u|]; [|done].
  destruct (decide (selectedClass st = "")) as [Hnone|Hclass].
  { unfold handleSubmit. by rewrite decide_True by done. }
  rewrite handleSubmit_outcome by done. cbn [fst snd fmap list_fmap].
  intros [=Hok%submit_toast_success]. destruct Hok as [[] Hok].
  destruct (submit_attempt_stored u env db (setLoading true st) _ eq_refl)
    as [(e & He & _)|[Hstored _]]; [congruence|done].
Qed.

(** X6.  When [handleSubmit] reports an error, no record has been added --
    the records table afterwards is a sublist of the one before (records of
    the day's session may have been deleted on the way) -- with one
    exception: the insert of the records was carried out and its answer
    lost, and then the roster is stored as after a success. *)
Theorem handleSubmit_error_adds_no_record
    (user : option User) (env : submit_env) (db : database) (st : state) :
  variant <$> (handleSubmit user env db st).2 = [destructive] →
  attendance_records (handleSubmit user env db st).1.1
    `sublist_of` attendance_records db
  ∨ ((∃ message, fault_insert_records env = Some (answer_lost message))
     ∧ roster_stored (handleSubmit user env db st).1.1
         (selectedClass st) (today env) (students st)).
Proof.
  destruct user as [u|]; [|by left].
  destruct (decide (selectedClass st = "")) as [Hnone|Hclass].
  { unfold handleSubmit. rewrite decide_True by done. by left. }
  rewrite handleSubmit_outcome by done. cbn [fst snd fmap list_fmap].
  intros [=Herr%submit_toast_error]. destruct Herr as [e0 Herr].
  destruct (submit_attempt_stored u env db (setLoading true st) _ eq_refl)
    as [(e & _ & Hsub)|[Hstored [Hok|Hlost]]];
    [by left|congruence|by right].
Qed.

Lemma NoDup_fmap_same_key {A K} (f : A → K) (l : list A) x y :
  NoDup (f <$> l) → x ∈ l → y ∈ l → f x = f y → x = y.
Proof.
  induction l as [|z l IH]; [by inversion 2|].
  rewrite fmap_cons, NoDup_cons. intros [Hz Hl].
  intros [->|Hx]%elem_of_cons [->|Hy]%elem_of_cons Hf; [done| | |by apply IH].
  - destruct Hz. rewrite Hf. by apply list_elem_of_fmap_2.
  - destruct Hz. rewrite <- Hf. by apply list_elem_of_fmap_2.
Qed.

Lemma filter_Forall_all {A} (P : A → Prop) `{∀ x, Decision (P x)}
    (l : list A) :
  Forall P l → filter P l = l.
Proof.
  induction 1 as [|x l Hx Hl IH]; [done|]. by rewrite filter_cons_True, IH.
Qed.

Lemma with_records_same db : with_records db (attendance_records db) = db.
Proof. by destruct db. Qed.

(** Nobody but its marker is the caller of the policies for a session's
    records. *)
Lemma not_marked_by_caller uid db s r :
  NoDup (se_id <$> attendance_sessions db) →
  s ∈ attendance_sessions db →
  se_marked_by s ≠ Some uid →
  ar_session_id r = se_id s →
  ¬ marked_by_caller uid db r.
Proof.
  intros Hpk Hs Hby Hr (s' & Hs' & Hid & Hmark)%Exists_exists.
  assert (s' = s) as -> by (eapply (NoDup_fmap_same_key se_id); eauto;
                            congruence).
  done.
Qed.

(** X7.  The session of a class and day that somebody else marked (or whose
    marker is gone) is out of a teacher's reach: whatever roster the teacher
    submits for that class and day and whichever requests fail, the database
    is left exactly as it was, and with a roster that is not empty the
    submission reports an error. *)
Theorem handleSubmit_cannot_touch_foreign_session
    (u : User) (env : submit_env) (db : database) (st : state)
    (s : session_row) :
  NoDup (se_id <$> attendance_sessions db) →
  NoDup (session_key <$> attendance_sessions db) →
  s ∈ attendance_sessions db →
  session_key s = (selectedClass st, today env) →
  se_marked_by s ≠ Some (user_id u) →
  (handleSubmit (Some u) env db st).1.1 = db
  ∧ (students st ≠ [] →
     variant <$> (handleSubmit (Some u) env db st).2 = [destructive]).
Proof.
  intros Hpk Huq Hs Hkey Hby.
  destruct (decide (selectedClass st = "")) as [Hnone|Hclass].
  { unfold handleSubmit. by rewrite decide_True by done. }
  rewrite handleSubmit_outcome by done. cbn [fst snd fmap list_fmap].
  destruct (submit_attempt_cases u env db (setLoading true st))
    as [(s' & Hs' & Hkey' & ->)|[[e ->]|(row & -> & _ & _ & Hfree & _)]].
  - assert (s' = s) as ->.
    { eapply (NoDup_fmap_same_key session_key); eauto. by rewrite Hkey. }
    assert ((call (fault_delete_records env)
               (delete_records (user_id u) (se_id s)) db).1 = db) as ->.
    { destruct (call_delete_records_cases (fault_delete_records env)
                  (user_id u) (se_id s) db) as [->| ->]; [done|].
      rewrite filter_Forall_all; [apply with_records_same|].
      apply Forall_forall. intros r _ [Hr Hcaller].
      by eapply not_marked_by_caller. }
    destruct (call_insert_records_cases (fault_insert_records env) (user_id u)
                (records_of (se_id s) (students (setLoading true st))) db)
      as [[e ->]|[Hcaller Hstored]]; [done|].
    cbn [students setLoading] in *.
    destruct (students st) as [|x roster].
    + cbn [records_of fmap list_fmap] in *.
      rewrite app_nil_r, with_records_same in Hstored.
      by destruct Hstored as [-> | (m & _ & ->)].
    + apply Forall_cons in Hcaller as [Hx _].
      by eapply not_marked_by_caller in Hx.
  - done.
  - destruct Hfree.
    change (session_key _) with (selectedClass st, today env).
    rewrite <- Hkey. by apply list_elem_of_fmap_2.
Qed.

Lemma handleSubmit_page_made user env db st :
  page_made db → page_made (handleSubmit user env db st).1.1.
Proof.
  intros [Hstatus Hmarked]. split.
  - apply Forall_forall. intros r. rewrite handleSubmit_database.
    pose proof (proj1 (Forall_forall _ _) Hstatus r) as Hold.
    destruct user as [u|]; [|done]. case_decide; [done|].
    intros [Hr|[sid Hr]]%submit_attempt_records; [auto|].
    exact (proj1 (Forall_forall _ _) (records_of_status sid _) r Hr).
  - rewrite handleSubmit_database.
    destruct user as [u|]; [|done]. case_decide; [done|].
    destruct (submit_attempt_cases u env db (setLoading true st))
      as [(s & _ & _ & ->)
         |[[e ->]|(row & -> & _ & _ & _ & _ & [-> | [e ->]])]].
    + by rewrite call_insert_records_sessions, call_delete_records_sessions.
    + done.
    + rewrite call_insert_records_sessions. cbn [attendance_sessions
        with_sessions]. apply Forall_app. split; [done|].
      by apply Forall_singleton.
    + cbn [fst attendance_sessions with_sessions]. apply Forall_app.
      split; [done|]. by apply Forall_singleton.
Qed.

Lemma reachable_page_made db : reachable db → page_made db.
Proof.
  intros (db0 & actions & [Hs Hr] & ->).
  assert (page_made db0) as Hdb0.
  { unfold page_made. rewrite Hs, Hr. by split. }
  clear Hs Hr. revert db0 Hdb0.
  induction actions as [|a actions IH]; intros db0 Hdb0; simpl; [done|].
  apply IH. destruct a; simpl; [|done]. by apply handleSubmit_page_made.
Qed.

(** X8.  In every state reachable from the migrated database by submissions
    and queries: every record has status PRESENT or ABSENT (LATE and EXCUSED
    never appear), belongs to a stored session and to a stored student; every
    session belongs to a stored class and names the user who marked it; and
    no two sessions share an id. *)
Theorem reachable_integrity (db : database) :
  reachable db →
  Forall (λ r, (ar_status r = "PRESENT" ∨ ar_status r = "ABSENT")
               ∧ ar_session_id r ∈ se_id <$> attendance_sessions db
               ∧ ar_student_id r ∈ st_id <$> Pg.students db)
         (attendance_records db)
  ∧ Forall (λ s, se_class_id s ∈ cl_id <$> Pg.classes db
                 ∧ is_Some (se_marked_by s))
           (attendance_sessions db)
  ∧ NoDup (se_id <$> attendance_sessions db).
Proof.
  intros Hreach.
  destruct (reachable_consistent db Hreach)
    as (Hpk & _ & Hfk & _ & Hrs & Hrst & _).
  destruct (reachable_page_made db Hreach) as [Hstatus Hmarked].
  rewrite !Forall_forall in *. repeat split; auto.
Qed.

(** **** The theorems above on the sample data *)

Lemma toggleAttendance_only_flips_flags_witness :
  toggleAttendance "s-404" Sample.page1 = Sample.page1.
Proof.
  destruct (toggleAttendance_only_flips_flags "s-404" Sample.page1)
    as (_ & _ & _ & _ & Hsame).
  apply Hsame. by_evaluation.
Defined.

(** Resubmitting the second of three days leaves the first day's records. *)
Lemma handleSubmit_keeps_other_sessions_witness :
  filter (λ r, ar_session_id r = "a-1")
         (attendance_records
            (handleSubmit (Some Sample.teacher) (Sample.env_on 20383%Z "a-9")
               Sample.db_three_days Sample.page2).1.1)
  = filter (λ r, ar_session_id r = "a-1")
           (attendance_records Sample.db_three_days).
Proof.
  apply (handleSubmit_keeps_other_sessions (Some Sample.teacher)
           (Sample.env_on 20383%Z "a-9") Sample.db_three_days Sample.page2
           "a-1").
  - by_evaluation.
  - refine (proj1 (Forall_forall
                     (λ s, session_key s = (Sample.cs101, 20383%Z)
                           → se_id s ≠ "a-1") _) _).
    by_evaluation.
Defined.

(** The delete failing, success is announced all the same; the session is
    there and the table ends with the new roster's record. *)
Lemma handleSubmit_success_is_sound_witness :
  roster_stored
    (handleSubmit (Some Sample.teacher) (Sample.env_delete_down "a-2")
       Sample.db_nine Sample.page4).1.1
    Sample.cs101 20382%Z (students Sample.page4).
Proof.
  exact (handleSubmit_success_is_sound (Some Sample.teacher)
           (Sample.env_delete_down "a-2") Sample.db_nine Sample.page4
           eq_refl).
Defined.

(** The first submission of the sample day with the answer of the last
    request lost: an error is shown, and the roster is stored. *)
Lemma handleSubmit_error_adds_no_record_witness :
  variant
    <$> (handleSubmit (Some Sample.teacher) (Sample.env_answer_lost "a-1")
           Sample.db0 Sample.page2).2
  = [destructive]
  ∧ roster_stored
      (handleSubmit (Some Sample.teacher) (Sample.env_answer_lost "a-1")
         Sample.db0 Sample.page2).1.1
      Sample.cs101 20382%Z (students Sample.page2).
Proof.
  split; [reflexivity|].
  destruct (handleSubmit_error_adds_no_record (Some Sample.teacher)
              (Sample.env_answer_lost "a-1") Sample.db0 Sample.page2 eq_refl)
    as [Hsub|[_ Hstored]]; [|exact Hstored].
  apply sublist_length in Hsub. vm_compute in Hsub. lia.
Defined.

Lemma handleSubmit_cannot_touch_foreign_session_witness :
  (handleSubmit (Some Sample.other_teacher) (Sample.env_lookup_down "a-2")
     Sample.db1 Sample.page3).1.1 = Sample.db1.
Proof.
  exact (proj1 (handleSubmit_cannot_touch_foreign_session
                  Sample.other_teacher (Sample.env_lookup_down "a-2")
                  Sample.db1 Sample.page3 Sample.session1
                  ltac:(by_evaluation) ltac:(by_evaluation)
                  ltac:(by_evaluation) eq_refl ltac:(by_evaluation))).
Defined.

Lemma reachable_integrity_witness :
  reachable Sample.db_three_days
  ∧ NoDup (se_id <$> attendance_sessions Sample.db_three_days).
Proof.
  assert (reachable Sample.db_three_days) as Hreach.
  { eexists Sample.db0, _. split; [split; reflexivity|reflexivity]. }
  split; [exact Hreach|].
  exact (proj2 (proj2 (reachable_integrity Sample.db_three_days Hreach))).
Defined.

End marking_page.

(** * More about the query page *)

Section query_page.
Import Pg CheckAttendance.

(** The embed found for a record is a stored student with the record's id. *)
Lemma embedded_student_stored sid (l : list student_row) s :
  head (filter (λ s, st_id s = sid) l) = Some s → s ∈ l ∧ st_id s = sid.
Proof.
  intros [l' Hl']%head_Some.
  assert (s ∈ filter (λ s, st_id s = sid) l) as Hin by (rewrite Hl'; left).
  apply list_elem_of_filter in Hin. tauto.
Qed.

Lemma formattedRecords_joined db (recs : list record_row) :
  Forall (λ r, ar_student_id r ∈ st_id <$> Pg.students db) recs →
  ∃ l, formattedRecords
         ((λ r, (r, head (filter (λ s, st_id s = ar_student_id r)
                                 (Pg.students db)))) <$> recs) = Some l
       ∧ Forall2 (renders db) recs l.
Proof.
  induction 1 as [|r recs Hr Hrecs (l & Hl & Hrel)]; [by exists []|].
  destruct (embedded_student _ _ Hr) as (stu & Hstu & Hid).
  destruct (embedded_student_stored _ _ _ Hstu) as [Hin _].
  exists ({| student_id := ar_student_id r;
             roll_number := st_roll_number stu;
             full_name := st_full_name stu;
             status := ar_status r |} :: l).
  unfold formattedRecords in *. rewrite fmap_cons. cbn [mapM].
  cbn [snd fst]. rewrite Hstu. cbn. rewrite Hl. cbn.
  split; [done|]. constructor; [|done].
  unfold renders; simpl. repeat split. by exists stu.
Qed.

(** A query that finds the session and fetches its records. *)
Lemma fetchAttendance_found env db st s :
  selectedClass st ≠ "" →
  fault_select_session env = None →
  fault_select_records env = None →
  NoDup (session_key <$> attendance_sessions db) →
  s ∈ attendance_sessions db →
  session_key s = (selectedClass st, selectedDate st) →
  Forall (λ r, ar_student_id r ∈ st_id <$> Pg.students db)
         (filter (λ r, ar_session_id r = se_id s) (attendance_records db)) →
  ∃ l, fetchAttendance env db st
       = (setLoading false
            (setRecords l (setHasSearched true (setLoading true st))), [])
       ∧ Forall2 (renders db)
           (arrange (order_records env)
              (filter (λ r, ar_session_id r = se_id s)
                      (attendance_records db)))
           l.
Proof.
  intros Hclass Hf1 Hf2 Huq Hs Hkey Hfk.
  rewrite <- (arrange_rows (order_records env)) in Hfk.
  destruct (formattedRecords_joined db _ Hfk) as (l & Hl & Hrel).
  exists l. split; [|done].
  unfold fetchAttendance. rewrite decide_False by done.
  rewrite Hf1, Hf2, call_reaches.
  cbn [setHasSearched setLoading selectedClass selectedDate].
  unfold select_session. cbn [snd].
  rewrite (filter_class_date_single _ _ _ s) by done.
  cbn [maybeSingle]. rewrite call_reaches.
  unfold select_records_with_students. cbn [snd]. by rewrite Hl.
Qed.

(** X9.  With a class selected and both requests answered, a query for a
    (class, date) that has a session whose records belong to stored students
    displays exactly that session's records, in whatever order they come
    back: the displayed rows match, one to one, a rearrangement of the
    session's records, each row with the record's student id and status and
    the roll number and name of a stored student with that id; the loading
    flag is cleared, the page counts as searched, and nothing is notified. *)
Theorem fetchAttendance_displays_session_records
    (env : fetch_env) (db : database) (st : state) (s : session_row) :
  selectedClass st ≠ "" →
  fault_select_session env = None →
  fault_select_records env = None →
  NoDup (session_key <$> attendance_sessions db) →
  s ∈ attendance_sessions db →
  session_key s = (selectedClass st, selectedDate st) →
  Forall (λ r, ar_student_id r ∈ st_id <$> Pg.students db)
         (filter (λ r, ar_session_id r = se_id s) (attendance_records db)) →
  (∃ stored,
     stored ≡ₚ filter (λ r, ar_session_id r = se_id s)
                      (attendance_records db)
     ∧ Forall2 (renders db) stored (records (fetchAttendance env db st).1))
  ∧ loading (fetchAttendance env db st).1 = false
  ∧ hasSearched (fetchAttendance env db st).1 = true
  ∧ (fetchAttendance env db st).2 = [].
Proof.
  intros Hclass Hf1 Hf2 Huq Hs Hkey Hfk.
  destruct (fetchAttendance_found env db st s) as (l & -> & Hrel);
    try done.
  split; [|done]. eexists. split; [|exact Hrel]. apply arrange_rows.
Qed.

(** The first day of the sample, its records coming back newest first. *)
Lemma fetchAttendance_displays_session_records_witness :
  length (records (fetchAttendance Sample.fetch_newest_first Sample.db1
                     Sample.query0).1) = 10%nat.
Proof.
  destruct (fetchAttendance_displays_session_records
              Sample.fetch_newest_first
              Sample.db1 Sample.query0 Sample.session1
              ltac:(by_evaluation) eq_refl eq_refl ltac:(by_evaluation)
              ltac:(by_evaluation) eq_refl ltac:(by_evaluation))
    as ((stored & Hperm & Hrel) & _).
  rewrite <- (Forall2_length _ _ _ Hrel), Hperm. reflexivity.
Defined.

(** X10.  On a database that satisfies the schema's constraints, a query with
    a class selected always comes to an end, whichever requests fail: the
    loading flag is cleared, the page counts as searched, the selected class,
    date and class list are untouched, at most one notification is raised,
    and the displayed records are replaced only when nothing is notified. *)
Theorem fetchAttendance_always_settles
    (env : fetch_env) (db : database) (st : state) :
  consistent db →
  selectedClass st ≠ "" →
  loading (fetchAttendance env db st).1 = false
  ∧ hasSearched (fetchAttendance env db st).1 = true
  ∧ selectedClass (fetchAttendance env db st).1 = selectedClass st
  ∧ selectedDate (fetchAttendance env db st).1 = selectedDate st
  ∧ classes (fetchAttendance env db st).1 = classes st
  ∧ ((fetchAttendance env db st).2 = []
     ∨ (length (fetchAttendance env db st).2 = 1%nat
        ∧ records (fetchAttendance env db st).1 = records st)).
Proof.
  intros (_ & _ & _ & _ & _ & Hrst & _) Hclass.
  unfold fetchAttendance. rewrite decide_False by done.
  destruct (call (fault_select_session env) _ db).2 as [[s|]|e];
    [|by repeat split; auto..].
  destruct (fault_select_records env) as [f|].
  { rewrite call_fault. by repeat split; auto. }
  rewrite call_reaches. unfold select_records_with_students. cbn [snd].
  destruct (formattedRecords_joined db
              (arrange (order_records env)
                 (filter (λ r, ar_session_id r = se_id s)
                         (attendance_records db)))) as (l & -> & _).
  { rewrite arrange_rows. by apply Forall_filter_keep. }
  by repeat split; auto.
Qed.

Lemma fetchAttendance_always_settles_witness :
  loading (fetchAttendance Sample.fetch_records_down Sample.db1
             Sample.query0).1 = false.
Proof.
  exact (proj1 (fetchAttendance_always_settles Sample.fetch_records_down
                  Sample.db1 Sample.query0
                  ltac:(by_evaluation) ltac:(by_evaluation))).
Defined.

End query_page.

(** * Marking, then querying *)

Section first_submission.
Import Pg MarkAttendance.

(** The database a first submission of the day leaves, every request
    answered. *)
Lemma first_submit_database u env db st :
  user_id u ∈ pr_id <$> profiles db →
  selectedClass st ≠ "" →
  consistent db →
  selectedClass st ∈ cl_id <$> Pg.classes db →
  ((selectedClass st, today env) ∉ session_key <$> attendance_sessions db) →
  (gen_random_uuid env ∉ se_id <$> attendance_sessions db) →
  fault_select_session env = None →
  fault_insert_session env = None →
  fault_insert_records env = None →
  NoDup (id <$> students st) →
  Forall (λ x, id x ∈ st_id <$> Pg.students db) (students st) →
  (handleSubmit (Some u) env db st).1.1
  = with_records
      (with_sessions db
         (attendance_sessions db
          ++ [ {| se_id := gen_random_uuid env;
                  se_class_id := selectedClass st;
                  se_session_date := today env;
                  se_marked_by := Some (user_id u) |} ]))
      (attendance_records db
       ++ records_of (gen_random_uuid env) (students st))
  ∧ Forall (λ r, ar_session_id r ≠ gen_random_uuid env)
           (attendance_records db).
Proof.
  intros Hp Hclass Hdb Hc Hkey Hfresh Hf1 Hf2 Hf3 Hnd Hst.
  destruct Hdb as (Hpk & Huq & Hfk & Hruq & Hrs & Hrst & Hchk).
  assert (Forall (λ r, ar_session_id r ≠ gen_random_uuid env)
                 (attendance_records db)) as Hold.
  { eapply Forall_impl; [exact Hrs|]. simpl. intros r Hr ?. congruence. }
  split; [|done].
  rewrite handleSubmit_database, decide_False by done.
  unfold submit_attempt. rewrite Hf1, Hf2, Hf3, !call_reaches.
  unfold select_session. cbn [snd fst setLoading selectedClass students].
  rewrite filter_class_date_none by done.
  cbn [maybeSingle data_or_null].
  rewrite insert_session_ok by done. rewrite call_reaches.
  cbn [se_id]. rewrite insert_batch_ok; [done|..]; simpl; try done.
  apply Exists_app; right. by apply Exists_cons_hd.
Qed.

End first_submission.

Section round_trip.
Import Pg.

(** X11.  What is submitted is what a query shows.  On a consistent database,
    a signed-in user who has a profile submits a roster of distinct, stored
    students for an existing class whose session of the day, if there is
    one, the user marked; every request is answered.  A query for that class
    and day on the resulting database, both requests answered and the rows
    coming back in any order, then displays one row per roster entry -- the
    rows match a rearrangement of the roster one to one -- with the entry's
    student id and PRESENT or ABSENT by its flag, and notifies nothing. *)
Theorem submit_then_fetch_shows_roster
    (u : MarkAttendance.User) (env : MarkAttendance.submit_env)
    (db : database) (st : MarkAttendance.state)
    (fenv : CheckAttendance.fetch_env) (q : CheckAttendance.state) :
  MarkAttendance.user_id u ∈ pr_id <$> profiles db →
  MarkAttendance.selectedClass st ≠ "" →
  consistent db →
  MarkAttendance.selectedClass st ∈ cl_id <$> classes db →
  (∀ s, s ∈ attendance_sessions db →
        session_key s
        = (MarkAttendance.selectedClass st, MarkAttendance.today env) →
        se_marked_by s = Some (MarkAttendance.user_id u)) →
  (MarkAttendance.gen_random_uuid env ∉ se_id <$> attendance_sessions db) →
  MarkAttendance.fault_select_session env = None →
  MarkAttendance.fault_delete_records env = None →
  MarkAttendance.fault_insert_session env = None →
  MarkAttendance.fault_insert_records env = None →
  NoDup (MarkAttendance.id <$> MarkAttendance.students st) →
  Forall (λ x, MarkAttendance.id x ∈ st_id <$> students db)
         (MarkAttendance.students st) →
  CheckAttendance.selectedClass q = MarkAttendance.selectedClass st →
  CheckAttendance.selectedDate q = MarkAttendance.today env →
  CheckAttendance.fault_select_session fenv = None →
  CheckAttendance.fault_select_records fenv = None →
  let db' := (MarkAttendance.handleSubmit (Some u) env db st).1.1 in
  (∃ shown,
     shown ≡ₚ MarkAttendance.students st
     ∧ Forall2 (λ x row,
                  CheckAttendance.student_id row = MarkAttendance.id x
                  ∧ CheckAttendance.status row
                    = if MarkAttendance.present x
                      then "PRESENT" else "ABSENT")
               shown
               (CheckAttendance.records
                  (CheckAttendance.fetchAttendance fenv db' q).1))
  ∧ (CheckAttendance.fetchAttendance fenv db' q).2 = [].
Proof.
  intros Hp Hclass Hdb Hc Hown Hfresh Hf1 Hf2 Hf3 Hf4 Hnd Hst Hqc Hqd Hg1
    Hg2 db'.
  assert (consistent db') as Hdb'
    by by apply handleSubmit_consistent.
  assert (∃ s, s ∈ attendance_sessions db'
               ∧ session_key s
                 = (MarkAttendance.selectedClass st, MarkAttendance.today env)
               ∧ filter (λ r, ar_session_id r = se_id s)
                        (attendance_records db')
                 = MarkAttendance.records_of (se_id s)
                     (MarkAttendance.students st))
    as (s & Hs & Hkey & Hrecs).
  { destruct (decide ((MarkAttendance.selectedClass st,
                       MarkAttendance.today env)
                      ∈ session_key <$> attendance_sessions db))
      as [Hin|Hnot].
    - apply list_elem_of_fmap in Hin as (s & Hkey & Hs).
      exists s. unfold db'.
      rewrite (resubmit_database u env db st s); auto.
      cbn [attendance_sessions attendance_records with_records].
      split; [done|]. split; [done|].
      rewrite filter_app.
      rewrite (filter_session_all _ (MarkAttendance.records_of _ _))
        by apply records_of_session.
      rewrite filter_Forall_not; [done|].
      apply Forall_forall. intros r [? _]%list_elem_of_filter. tauto.
    - destruct (first_submit_database u env db st) as [Heq Hold]; auto.
      eexists. unfold db'. rewrite Heq.
      cbn [attendance_sessions attendance_records with_records
           with_sessions].
      split; [apply elem_of_app; right; left|]. split; [done|].
      cbn [se_id].
      by rewrite filter_app, filter_session_none, filter_session_all
        by (done || apply records_of_session). }
  destruct Hdb' as (_ & Huq & _ & _ & _ & Hrst & _).
  destruct (fetchAttendance_found fenv db' q s) as (l & -> & Hrel); auto.
  - rewrite Hqc. done.
  - by rewrite Hqc, Hqd.
  - by apply Forall_filter_keep.
  - split; [|done]. cbn. rewrite Hrecs in Hrel.
    destruct (Permutation_map_inv _ _
                (arrange_rows (CheckAttendance.order_records fenv)
                   (MarkAttendance.records_of (se_id s)
                      (MarkAttendance.students st))))
      as (shown & Hshown & Hperm).
    exists shown. split; [done|].
    change (map ?f shown) with (f <$> shown) in Hshown.
    rewrite Hshown, Forall2_fmap_l in Hrel.
    eapply Forall2_impl; [exact Hrel|].
    intros x row (? & ? & _). simpl in *. by split.
Qed.

(** The first submission of the sample day, queried, the rows coming back
    newest first. *)
Lemma submit_then_fetch_shows_roster_witness :
  ∃ shown,
    shown ≡ₚ MarkAttendance.students Sample.page2
    ∧ Forall2 (λ x row,
                 CheckAttendance.student_id row = MarkAttendance.id x
                 ∧ CheckAttendance.status row
                   = if MarkAttendance.present x then "PRESENT" else "ABSENT")
              shown
              (CheckAttendance.records
                 (CheckAttendance.fetchAttendance Sample.fetch_newest_first
                    Sample.db1 Sample.query0).1).
Proof.
  refine (proj1 (submit_then_fetch_shows_roster
                   Sample.teacher (Sample.env_ok "a-1") Sample.db0
                   Sample.page2 Sample.fetch_newest_first Sample.query0
                   ltac:(by_evaluation)
                   ltac:(by_evaluation) ltac:(by_evaluation)
                   ltac:(by_evaluation) _ ltac:(by_evaluation)
                   eq_refl eq_refl eq_refl eq_refl
                   ltac:(by_evaluation) ltac:(by_evaluation)
                   eq_refl eq_refl eq_refl eq_refl)).
  refine (proj1 (Forall_forall
                   (λ s, session_key s = (Sample.cs101, 20382%Z)
                         → se_marked_by s = Some "t-1") _) _).
  by_evaluation.
Defined.

End round_trip.

(** * More about rosters and percentages *)

Section roster_page.
Import Pg MarkAttendance.

(** X12.  Under UNIQUE(student_id, class_id) and the foreign key of the
    enrollments, the page reached by loading the roster of the selected class
    (its rows in any order) and flipping any sequence of switches keeps the
    class selected and shows a roster of distinct students, every one of them
    stored: the rosters the submission accepts. *)
Theorem loaded_and_toggled_roster_wellformed
    (order : row_order enrollment_row) (db : database) (st : state)
    (toggles : list string) :
  NoDup ((λ e, (en_student_id e, en_class_id e)) <$> class_enrollments db) →
  Forall (λ e, en_student_id e ∈ st_id <$> Pg.students db)
         (class_enrollments db) →
  selectedClass st ≠ "" →
  let page :=
    foldr toggleAttendance (loadStudents order None db st).1 toggles in
  NoDup (id <$> students page)
  ∧ Forall (λ x, id x ∈ st_id <$> Pg.students db) (students page)
  ∧ selectedClass page = selectedClass st.
Proof.
  intros Huq Hfk Hclass page.
  destruct (loaded_roster_wellformed order db st Huq Hfk Hclass)
    as [Hnd Hex].
  assert (id <$> students page
          = id <$> students (loadStudents order None db st).1
          ∧ selectedClass page
            = selectedClass (loadStudents order None db st).1)
    as [Hids Hsel].
  { unfold page. induction toggles as [|sid toggles [IH1 IH2]]; [done|].
    cbn [foldr]. rewrite toggleAttendance_ids. split; [done|exact IH2]. }
  rewrite Hids. split; [done|]. split.
  { apply Forall_forall. intros x Hx.
    apply (list_elem_of_fmap_2 id) in Hx. rewrite Hids in Hx.
    apply list_elem_of_fmap in Hx as (y & -> & Hy).
    by apply (proj1 (Forall_forall _ _) Hex). }
  rewrite Hsel. unfold loadStudents. rewrite decide_False by done.
  by destruct (call None _ db).2 as [enr|e]; [destruct (studentData enr)|].
Qed.

Lemma loaded_and_toggled_roster_wellformed_witness :
  NoDup (id <$> students
                  (toggleAttendance "s-003"
                     (toggleAttendance "s-001"
                        (loadStudents newest_first None Sample.db0
                           Sample.page0).1))).
Proof.
  exact (proj1 (loaded_and_toggled_roster_wellformed newest_first
                  Sample.db0 Sample.page0 ["s-003"; "s-001"]
                  ltac:(by_evaluation) ltac:(by_evaluation)
                  ltac:(by_evaluation))).
Defined.

End roster_page.

Section percentage_bounds.
Import Pg.

Lemma round_2_bounds (x : Q) :
  (0 <= x)%Q → (x <= 100)%Q → (0 <= round x 2)%Q ∧ (round x 2 <= 100)%Q.
Proof.
  intros Hlo Hhi.
  destruct (round_2_places x) as [[k Hk] Habs]. rewrite Hk in *.
  apply Qabs_Qle_condition in Habs as [Hlow Hhigh].
  destruct x as [n d].
  unfold Qle, Qminus, Qplus, Qopp in *. cbn [Qnum Qden] in *.
  rewrite ?Pos2Z.inj_mul in *. split; nia.
Qed.

Lemma ratio_bounds (present total : nat) :
  (present ≤ total)%nat → total ≠ 0%nat →
  (0 <= inject_Z (Z.of_nat present) / inject_Z (Z.of_nat total) * 100)%Q
  ∧ (inject_Z (Z.of_nat present) / inject_Z (Z.of_nat total) * 100 <= 100)%Q.
Proof.
  intros Hle Hne. destruct total as [|m]; [done|].
  change (Z.of_nat (S m)) with (Z.pos (Pos.of_succ_nat m)).
  unfold Qle, Qdiv, Qmult, Qinv, inject_Z. cbn [Qnum Qden].
  rewrite ?Pos2Z.inj_mul, ?Zpos_P_of_succ_nat. split; nia.
Qed.

(** X13.  On a database whose session ids and whose (session, student) pairs
    are unique, the percentage [calculate_attendance_percentage] returns lies
    between 0 and 100, for every student and every filter. *)
Theorem percentage_between_0_and_100
    (db : database) (student : uuid) (class_filter : option uuid)
    (from_date to_date : option date) :
  NoDup (se_id <$> attendance_sessions db) →
  NoDup (record_key <$> attendance_records db) →
  (0 <= calculate_attendance_percentage db student class_filter from_date
          to_date)%Q
  ∧ (calculate_attendance_percentage db student class_filter from_date
       to_date <= 100)%Q.
Proof.
  intros Hpk Hruq.
  destruct (percentage_counts db student class_filter from_date to_date
              Hpk Hruq) as [Htotal Hpresent].
  unfold calculate_attendance_percentage. rewrite Htotal, Hpresent.
  case_decide as Hzero; [done|].
  destruct (ratio_bounds
              (Spec.present_count db student class_filter from_date to_date)
              (Spec.total_count db student class_filter from_date to_date))
    as [Hlo Hhi]; [|done|by apply round_2_bounds].
  unfold Spec.present_count, Spec.total_count. apply length_filter.
Qed.

Lemma percentage_between_0_and_100_witness :
  (calculate_attendance_percentage Sample.db_three_days "s-001" None
     (Some 20383%Z) None <= 100)%Q.
Proof.
  exact (proj2 (percentage_between_0_and_100 Sample.db_three_days "s-001"
                  None (Some 20383%Z) None
                  ltac:(by_evaluation) ltac:(by_evaluation))).
Defined.

End percentage_bounds.

(** * The reporting function and the student view *)

Section reports.
Import Pg PgReports.

Lemma filter_ext_in {A} (P Q : A → Prop) `{∀ x, Decision (P x)}
    `{∀ x, Decision (Q x)} (l : list A) :
  (∀ x, x ∈ l → P x ↔ Q x) → filter P l = filter Q l.
Proof.
  induction l as [|x l IH]; [done|]. intros Hext.
  rewrite !filter_cons, IH by (intros; apply Hext; by right).
  destruct (decide (P x)) as [HP|HP], (decide (Q x)) as [HQ|HQ];
    try done; destruct (Hext x); try left; tauto.
Qed.

(** With every record pointing to a stored session, a student's records are
    the records that match the empty filter. *)
Lemma matching_no_filter db student :
  Forall (λ r, ar_session_id r ∈ se_id <$> attendance_sessions db)
         (attendance_records db) →
  filter (Spec.matching db student None None None) (attendance_records db)
  = filter (λ r, ar_student_id r = student) (attendance_records db).
Proof.
  intros Hfk. apply filter_ext_in. intros r Hr. unfold Spec.matching.
  split; [tauto|]. intros Hs. split; [done|].
  apply (proj1 (Forall_forall _ _) Hfk) in Hr.
  apply list_elem_of_fmap in Hr as (s & Hid & Hin).
  apply Exists_exists. exists s. by repeat split.
Qed.

(** X14.  On a database that satisfies the schema's constraints, the
    percentage in the row of [get_student_attendance_summary] is the value
    [calculate_attendance_percentage] returns for the student without
    filters, and its total is the number of the student's records. *)
Theorem summary_agrees_with_percentage (db : database) (student : uuid) :
  consistent db →
  attendance_percentage (get_student_attendance_summary db student)
  = calculate_attendance_percentage db student None None None
  ∧ total_sessions (get_student_attendance_summary db student)
    = Spec.total_count db student None None None
  ∧ present_count (get_student_attendance_summary db student)
    = Spec.present_count db student None None None.
Proof.
  intros (Hpk & _ & _ & Hruq & Hrs & _ & _).
  destruct (percentage_counts db student None None None Hpk Hruq)
    as [Htotal Hpresent].
  unfold calculate_attendance_percentage. rewrite Htotal, Hpresent.
  unfold Spec.total_count, Spec.present_count.
  rewrite matching_no_filter by done.
  by unfold get_student_attendance_summary.
Qed.

Lemma summary_agrees_with_percentage_witness :
  attendance_percentage
    (get_student_attendance_summary Sample.db_three_days "s-001")
  = Qmake 6667 100.
Proof.
  rewrite (proj1 (summary_agrees_with_percentage Sample.db_three_days
                    "s-001" ltac:(by_evaluation))).
  vm_compute. reflexivity.
Defined.

(** Records whose status is one of the four fall into four classes. *)
Lemma status_partition (rows : list record_row) :
  Forall (λ r, ar_status r ∈ status_values) rows →
  length rows
  = (length (filter (λ r, ar_status r = "PRESENT") rows)
     + length (filter (λ r, ar_status r = "ABSENT") rows)
     + length (filter (λ r, ar_status r = "LATE") rows)
     + length (filter (λ r, ar_status r = "EXCUSED") rows))%nat.
Proof.
  induction 1 as [|r rows Hr Hrows IH]; [done|].
  rewrite !filter_cons. cbn [length]. rewrite IH.
  unfold status_values in Hr.
  repeat (apply elem_of_cons in Hr as [->|Hr]); [..|by inversion Hr];
    repeat case_decide; try done; simpl; lia.
Qed.

(** X15.  In the row of [get_student_attendance_summary], the present, absent
    and late counts never exceed the total; when every stored status is one
    of the four the CHECK admits, the total is their sum plus the number of
    the student's EXCUSED records; and in every state reachable through the
    pages the late count is 0 and the total is present plus absent. *)
Theorem summary_counts (db : database) (student : uuid) :
  let summary := get_student_attendance_summary db student in
  (present_count summary + absent_count summary + late_count summary
   ≤ total_sessions summary)%nat
  ∧ (Forall (λ r, ar_status r ∈ status_values) (attendance_records db) →
     total_sessions summary
     = (present_count summary + absent_count summary + late_count summary
        + length (filter (λ r, ar_status r = "EXCUSED")
                    (filter (λ r, ar_student_id r = student)
                            (attendance_records db))))%nat)
  ∧ (reachable db →
     late_count summary = 0%nat
     ∧ total_sessions summary
       = (present_count summary + absent_count summary)%nat).
Proof.
  unfold get_student_attendance_summary.
  cbn [total_sessions present_count absent_count late_count].
  set (rows := filter (λ r, ar_student_id r = student)
                      (attendance_records db)).
  assert (length (filter (λ r, ar_status r = "PRESENT") rows)
          + length (filter (λ r, ar_status r = "ABSENT") rows)
          + length (filter (λ r, ar_status r = "LATE") rows)
          ≤ length rows)%nat as Hle.
  { clear. induction rows as [|r rows IH]; [done|].
    rewrite !filter_cons. repeat case_decide; simpl; try lia; congruence. }
  split; [done|]. split.
  - intros Hchk. apply status_partition. by apply Forall_filter_keep.
  - intros [Hstatus _]%reachable_page_made.
    assert (Forall (λ r, ar_status r = "PRESENT" ∨ ar_status r = "ABSENT")
                   rows) as Hrows by by apply Forall_filter_keep.
    clear -Hrows. induction Hrows as [|r rows Hr Hrows [IH1 IH2]]; [done|].
    rewrite !filter_cons. cbn [length].
    destruct Hr as [-> | ->]; repeat case_decide; try done; simpl;
      split; lia.
Qed.

Lemma summary_counts_witness :
  late_count (get_student_attendance_summary Sample.db_three_days "s-001")
  = 0%nat.
Proof.
  refine (proj1 (proj2 (proj2 (summary_counts Sample.db_three_days "s-001"))
                   _)).
  eexists Sample.db0, _. split; [split; reflexivity|reflexivity].
Defined.

(** **** Grouping the rows of a left join by the left row *)

Lemma left_rows_fst {A B} (a : A) (matches : list B) :
  Forall (λ row, row.1 = a) (left_rows a matches).
Proof.
  destruct matches as [|b matches]; [by repeat constructor|].
  unfold left_rows. apply Forall_fmap. by apply Forall_true.
Qed.

Lemma left_rows_not_nil {A B} (a : A) (matches : list B) :
  left_rows a matches ≠ [].
Proof. by destruct matches. Qed.

Lemma left_rows_omap {A B C} (a : A) (matches : list B) (g : B → C) :
  omap (λ row : A * option B, g <$> row.2) (left_rows a matches)
  = g <$> matches.
Proof.
  destruct matches as [|b matches]; [done|]. unfold left_rows.
  generalize (b :: matches). intros l. induction l as [|x l IH]; [done|].
  simpl. f_equal. apply IH.
Qed.

Lemma left_rows_count {A B C} `{EqDecision C} (a : A) (matches : list B)
    (g : B → C) (v : C) :
  length (filter (λ row : A * option B, g <$> row.2 = Some v)
                 (left_rows a matches))
  = length (filter (λ b, g b = v) matches).
Proof.
  destruct matches as [|b matches]; [done|]. unfold left_rows.
  generalize (b :: matches). intros l. induction l as [|x l IH]; [done|].
  rewrite fmap_cons, !filter_cons. simpl.
  destruct (decide (g x = v)) as [->|Hne].
  - rewrite decide_True by done. simpl. by rewrite IH.
  - rewrite decide_False by congruence. done.
Qed.

Lemma remove_dups_repeated {A} `{EqDecision A} (a : A) (xs ys : list A) :
  xs ≠ [] → Forall (λ x, x = a) xs → a ∉ ys →
  remove_dups (xs ++ ys) = a :: remove_dups ys.
Proof.
  intros Hne Hall Hnot. induction Hall as [|x xs -> Hxs IH]; [done|].
  simpl. destruct xs as [|x' xs].
  - simpl. destruct (decide_rel elem_of a ys); done.
  - destruct (decide_rel elem_of a ((x' :: xs) ++ ys)) as [_|Hout].
    + by apply IH.
    + destruct Hout. apply Forall_cons in Hxs as [-> _]. left.
Qed.

Lemma bind_fst_elem_of {A B} (l : list A) (f : A → list (A * B)) a :
  (∀ a', Forall (λ row, row.1 = a') (f a')) →
  a ∈ fst <$> (l ≫= f) → a ∈ l.
Proof.
  intros Hf ([a' b] & -> & (a'' & Hrow & Hin)%list_elem_of_bind)%list_elem_of_fmap.
  apply (proj1 (Forall_forall _ _) (Hf a'')) in Hrow. simpl in *.
  by subst.
Qed.

Lemma remove_dups_fst_bind {A B} `{EqDecision A} (l : list A)
    (f : A → list (A * B)) :
  NoDup l →
  (∀ a, f a ≠ []) →
  (∀ a, Forall (λ row, row.1 = a) (f a)) →
  remove_dups (fst <$> (l ≫= f)) = l.
Proof.
  intros Hnd Hne Hf. induction Hnd as [|a l Ha Hl IH]; [done|].
  rewrite bind_cons, fmap_app.
  rewrite (remove_dups_repeated a); [by rewrite IH| | |].
  - specialize (Hne a). by destruct (f a).
  - apply Forall_fmap. eapply Forall_impl; [apply Hf|]. done.
  - intros Hin. apply Ha. by eapply bind_fst_elem_of.
Qed.

Lemma filter_fst_bind {A B} `{EqDecision A} (l : list A)
    (f : A → list (A * B)) a :
  NoDup l → a ∈ l →
  (∀ a', Forall (λ row, row.1 = a') (f a')) →
  filter (λ row, row.1 = a) (l ≫= f) = f a.
Proof.
  intros Hnd Hin Hf. induction Hnd as [|a' l Ha' Hl IH]; [by inversion Hin|].
  rewrite bind_cons, filter_app.
  apply elem_of_cons in Hin as [->|Hin].
  - rewrite filter_Forall_all by apply Hf.
    rewrite filter_Forall_not; [by rewrite app_nil_r|].
    apply Forall_forall. intros [a b] (a'' & Hrow & Hin)%list_elem_of_bind.
    apply (proj1 (Forall_forall _ _) (Hf a'')) in Hrow. simpl in *.
    intros Heq. by subst.
  - rewrite IH by done. rewrite filter_Forall_not; [done|].
    eapply Forall_impl; [apply Hf|]. simpl. intros row -> ->. done.
Qed.

(** A student's records lie in pairwise different sessions. *)
Lemma student_sessions_NoDup db (st : student_row) :
  NoDup (record_key <$> attendance_records db) →
  NoDup (ar_session_id
           <$> filter (λ ar, st_id st = ar_student_id ar)
                      (attendance_records db)).
Proof.
  intros Hruq.
  apply (NoDup_fmap_1 (λ sid, (sid, st_id st))).
  rewrite <- list_fmap_compose.
  erewrite list_fmap_ext;
    [apply (NoDup_fmap_filter record_key), Hruq|].
  intros i r [Heq _]%list_elem_of_lookup_2%list_elem_of_filter.
  unfold record_key. simpl. by rewrite Heq.
Qed.

(** X16.  With student ids and (session, student) pairs unique, the view
    [student_attendance_stats] has exactly one row per stored student, and
    the row's total, present, absent and late counts and its percentage are
    those [get_student_attendance_summary] returns for that student. *)
Theorem student_attendance_stats_rows (db : database) :
  NoDup (st_id <$> Pg.students db) →
  NoDup (record_key <$> attendance_records db) →
  student_attendance_stats db
  ≡ₚ (λ st,
        let summary := get_student_attendance_summary db (st_id st) in
        {| sas_student := st;
           sas_total_sessions := total_sessions summary;
           sas_present_count := present_count summary;
           sas_absent_count := absent_count summary;
           sas_late_count := late_count summary;
           sas_attendance_percentage := attendance_percentage summary |})
     <$> Pg.students db.
Proof.
  intros Hpk Hruq. apply NoDup_fmap_1 in Hpk.
  unfold student_attendance_stats, left_join.
  rewrite remove_dups_fst_bind;
    [|done|intros; apply left_rows_not_nil|intros; apply left_rows_fst].
  match goal with |- ?a ≡ₚ ?b => enough (a = b) as -> by done end.
  apply list_fmap_ext.
  intros i st Hst%list_elem_of_lookup_2.
  rewrite filter_fst_bind; [|done|done|intros; apply left_rows_fst].
  rewrite left_rows_omap, !left_rows_count.
  rewrite remove_dups_NoDup by by apply student_sessions_NoDup.
  rewrite length_fmap.
  unfold get_student_attendance_summary.
  cbn [total_sessions present_count absent_count late_count
       attendance_percentage].
  assert (filter (λ r, ar_student_id r = st_id st) (attendance_records db)
          = filter (λ ar, st_id st = ar_student_id ar)
                   (attendance_records db)) as ->.
  { apply list_filter_iff. intros r. split; congruence. }
  done.
Qed.

Lemma student_attendance_stats_rows_witness :
  length (student_attendance_stats Sample.db_three_days) = 10%nat.
Proof.
  rewrite (student_attendance_stats_rows Sample.db_three_days
             ltac:(by_evaluation) ltac:(by_evaluation)).
  reflexivity.
Defined.

End reports.

(** * The class selector *)

Section class_selector.
Import Pg ClassSelector.
Context (name_le : relation string) `{!RelDecision name_le}.

Lemma sorted_classes_head first rest order db :
  merge_sort (by_class_name name_le) (arrange order (classes db))
  = first :: rest →
  cl_id first ∈ cl_id <$> classes db.
Proof.
  intros Hsorted. apply list_elem_of_fmap_2.
  rewrite <- (arrange_rows order),
    <- (merge_sort_Permutation (by_class_name name_le)), Hsorted.
  left.
Qed.

Lemma sorted_classes_nil order db :
  merge_sort (by_class_name name_le) (arrange order (classes db)) = []
  ↔ classes db = [].
Proof.
  split; [|intros ->; by rewrite arrange_nil].
  intros Hsorted. symmetry. apply Permutation_nil_l.
  by rewrite <- Hsorted, merge_sort_Permutation, arrange_rows.
Qed.

(** Sorted by name, the classes can be listed in one way only when the
    collation is a partial order and no two of them share a name. *)
Lemma sorted_classes_unique `{!Total name_le} order1 order2 db :
  same_list_of_classes name_le order1 order2 db →
  merge_sort (by_class_name name_le) (arrange order1 (classes db))
  = merge_sort (by_class_name name_le) (arrange order2 (classes db)).
Proof.
  intros [-> | (Htrans & Hanti & Hnames)]; [done|].
  assert (Total (by_class_name name_le)) as Htotal.
  { intros c1 c2. apply (total name_le). }
  assert (Transitive (by_class_name name_le)) as Htrans'.
  { intros c1 c2 c3. unfold by_class_name. apply Htrans. }
  apply (Sorted_unique_strong (by_class_name name_le));
    [|apply Sorted_merge_sort, _..|].
  - intros c1 c2 Hc1 Hc2 H12 H21.
    rewrite merge_sort_Permutation, arrange_rows in Hc1, Hc2.
    eapply (NoDup_fmap_same_key cl_class_name); [done..|].
    by apply (anti_symm name_le).
  - by rewrite !merge_sort_Permutation, !arrange_rows.
Qed.

(** X17.  With the request answered, [loadClasses] lists every class of the
    table once, in the order of their names, raises no notification and
    leaves the roster alone; it selects the first class of that list, a class
    of the table, and leaves the selection as it was when the table is empty.
    The query page's [loadClasses] lists and selects the same, when its
    request reads the rows in the same order or no two classes share a
    name. *)
Theorem loadClasses_lists_and_selects `{!Total name_le}
    (order order_q : row_order class_row)
    (db : database) (st : MarkAttendance.state) (q : CheckAttendance.state) :
  let page :=
    (MarkAttendanceClasses.loadClasses name_le order None db st).1 in
  let query :=
    (CheckAttendanceClasses.loadClasses name_le order_q None db q).1 in
  MarkAttendance.class_id <$> MarkAttendance.classes page
    ≡ₚ cl_id <$> classes db
  ∧ Sorted (λ a b, name_le (MarkAttendance.class_name a)
                           (MarkAttendance.class_name b))
           (MarkAttendance.classes page)
  ∧ (classes db = [] →
     MarkAttendance.selectedClass page = MarkAttendance.selectedClass st)
  ∧ (classes db ≠ [] →
     MarkAttendance.selectedClass page ∈ cl_id <$> classes db
     ∧ head (MarkAttendance.class_id <$> MarkAttendance.classes page)
       = Some (MarkAttendance.selectedClass page)
     ∧ (same_list_of_classes name_le order order_q db →
        CheckAttendance.selectedClass query
        = MarkAttendance.selectedClass page))
  ∧ MarkAttendance.students page = MarkAttendance.students st
  ∧ (MarkAttendanceClasses.loadClasses name_le order None db st).2 = []
  ∧ (same_list_of_classes name_le order order_q db →
     CheckAttendance.class_id <$> CheckAttendance.classes query
     = MarkAttendance.class_id <$> MarkAttendance.classes page).
Proof.
  intros page query. unfold page, query.
  unfold MarkAttendanceClasses.loadClasses, CheckAttendanceClasses.loadClasses.
  rewrite !call_reaches. unfold select_classes_ordered. cbn [snd].
  set (listed := merge_sort (by_class_name name_le)
                   (arrange order (classes db))).
  set (listed_q := merge_sort (by_class_name name_le)
                     (arrange order_q (classes db))).
  assert (same_list_of_classes name_le order order_q db → listed_q = listed)
    as Hunique by (intros Hsame; symmetry; by apply sorted_classes_unique).
  assert (listed ≡ₚ classes db) as Hperm.
  { unfold listed. by rewrite merge_sort_Permutation, arrange_rows. }
  assert (Total (by_class_name name_le)) as Htotal.
  { intros c1 c2. apply (total name_le). }
  assert (Sorted (λ a b, name_le (MarkAttendance.class_name a)
                                 (MarkAttendance.class_name b))
            (MarkAttendanceClasses.Class_of <$> listed)) as Hsorted.
  { eapply (Sorted_fmap MarkAttendanceClasses.Class_of);
      [|apply Sorted_merge_sort, _]. by intros c1 c2. }
  assert (MarkAttendance.class_id
            <$> (MarkAttendanceClasses.Class_of <$> listed)
          ≡ₚ cl_id <$> classes db) as Hids.
  { rewrite <- list_fmap_compose. by rewrite Hperm. }
  assert (listed = [] ↔ classes db = []) as Hnil
    by apply sorted_classes_nil.
  assert (∀ first rest, listed = first :: rest →
                        cl_id first ∈ cl_id <$> classes db) as Hhead.
  { intros first rest. apply sorted_classes_head. }
  clearbody listed listed_q.
  destruct listed as [|first rest]; cbn [fst snd] in *.
  - split_and!; try done.
    + intros Hne. destruct Hne. by apply Hnil.
    + by intros ->%Hunique.
  - split_and!; try done.
    + intros Hempty. by apply Hnil in Hempty.
    + intros _. split_and!; [by eapply Hhead|done|].
      by intros ->%Hunique.
    + intros ->%Hunique. cbn. by rewrite <- !list_fmap_compose.
Qed.

End class_selector.

(** The one class of the sample, chosen on both pages. *)
Lemma loadClasses_lists_and_selects_witness :
  MarkAttendance.selectedClass
    (MarkAttendanceClasses.loadClasses by_code Pg.newest_first None
       Sample.db0 Sample.page0).1
  ∈ Pg.cl_id <$> Pg.classes Sample.db0.
Proof.
  destruct (loadClasses_lists_and_selects by_code Pg.newest_first
              Pg.as_inserted Sample.db0 Sample.page0 Sample.query0)
    as (_ & _ & _ & Hsel & _).
  exact (proj1 (Hsel ltac:(by_evaluation))).
Defined.

(** * From an empty page to the stored attendance *)

Section whole_flow.
Import Pg MarkAttendance.

(** The full outcome of a first submission of the day, every request
    answered. *)
Lemma first_submit_attempt u env db st :
  user_id u ∈ pr_id <$> profiles db →
  consistent db →
  selectedClass st ∈ cl_id <$> Pg.classes db →
  ((selectedClass st, today env) ∉ session_key <$> attendance_sessions db) →
  (gen_random_uuid env ∉ se_id <$> attendance_sessions db) →
  fault_select_session env = None →
  fault_insert_session env = None →
  fault_insert_records env = None →
  NoDup (id <$> students st) →
  Forall (λ x, id x ∈ st_id <$> Pg.students db) (students st) →
  submit_attempt u env db st
  = (with_records
       (with_sessions db
          (attendance_sessions db
           ++ [ {| se_id := gen_random_uuid env;
                   se_class_id := selectedClass st;
                   se_session_date := today env;
                   se_marked_by := Some (user_id u) |} ]))
       (attendance_records db
        ++ records_of (gen_random_uuid env) (students st)),
     Ok tt).
Proof.
  intros Hp Hdb Hc Hkey Hfresh Hf1 Hf2 Hf3 Hnd Hst.
  destruct Hdb as (Hpk & Huq & Hfk & Hruq & Hrs & Hrst & Hchk).
  assert (Forall (λ r, ar_session_id r ≠ gen_random_uuid env)
                 (attendance_records db)) as Hold.
  { eapply Forall_impl; [exact Hrs|]. simpl. intros r Hr ?. congruence. }
  unfold submit_attempt. rewrite Hf1, Hf2, Hf3, !call_reaches.
  unfold select_session. cbn [snd fst].
  rewrite filter_class_date_none by done.
  cbn [maybeSingle data_or_null].
  rewrite insert_session_ok by done. rewrite call_reaches.
  cbn [se_id]. rewrite insert_batch_ok; [done|..]; simpl; try done.
  apply Exists_app; right. by apply Exists_cons_hd.
Qed.

Lemma toggles_keep_ids (toggles : list string) st :
  id <$> students (foldr toggleAttendance st toggles) = id <$> students st
  ∧ selectedClass (foldr toggleAttendance st toggles) = selectedClass st.
Proof.
  induction toggles as [|sid toggles [IH1 IH2]]; [done|].
  cbn [foldr]. rewrite toggleAttendance_ids. split; [done|exact IH2].
Qed.

(** After a sequence of switches, an entry's flag is the one it had when it
    was switched an even number of times, and the opposite otherwise. *)
Lemma toggles_flags (toggles : list string) st :
  Forall2 (λ x y,
             id y = id x
             ∧ present y
               = if Nat.even (length (filter (λ sid, sid = id x) toggles))
                 then present x else negb (present x))
          (students st) (students (foldr toggleAttendance st toggles)).
Proof.
  induction toggles as [|sid toggles IH].
  { apply Forall_Forall2_diag, Forall_true. done. }
  cbn [foldr]. unfold toggleAttendance at 1. cbn [students setStudents].
  apply Forall2_fmap_r. eapply Forall2_impl; [exact IH|].
  intros x y [Hid Hflag]. unfold compose. rewrite filter_cons.
  destruct (decide (id y = sid)) as [Hy|Hy]; cbn [id present].
  - rewrite decide_True by congruence. split; [done|].
    cbn [length]. rewrite Nat.even_succ, <- Nat.negb_even, Hflag.
    by destruct (Nat.even _), (present x).
  - rewrite decide_False by congruence. done.
Qed.

Lemma loadClasses_page (name_le : relation string) `{!RelDecision name_le}
    order db st :
  Pg.classes db ≠ [] →
  selectedClass (MarkAttendanceClasses.loadClasses name_le order None db st).1
    ∈ cl_id <$> Pg.classes db.
Proof.
  intros Hne. unfold MarkAttendanceClasses.loadClasses.
  rewrite call_reaches. unfold ClassSelector.select_classes_ordered.
  cbn [snd].
  destruct (merge_sort (ClassSelector.by_class_name name_le)
              (arrange order (Pg.classes db)))
    as [|first rest] eqn:E.
  - destruct Hne. by apply (sorted_classes_nil name_le order).
  - cbn. by eapply sorted_classes_head.
Qed.

(** X18.  The first use of the day, from an empty page.  On a consistent
    database with at least one class, no class id empty, unique enrollments
    that point to stored students and no session dated today, let the page
    load the classes, load the roster of the class this selects (the rows of
    both in any order), have any sequence of switches flipped and be
    submitted by a
    signed-in user who has a profile, every request answered.  Then success
    is announced; one session is appended, for the selected class -- a class
    of the table -- and today, marked by the user; and the records appended
    are one per student enrolled in that class, each of the new session, and
    PRESENT exactly when the student's switch was flipped an even number of
    times (never, in particular), ABSENT otherwise. *)
Theorem first_use_of_the_day
    (name_le : relation string) `{!RelDecision name_le}
    (order_classes : row_order class_row) (order : row_order enrollment_row)
    (u : User) (env : submit_env) (db : database) (st : state)
    (toggles : list string) :
  user_id u ∈ pr_id <$> profiles db →
  consistent db →
  NoDup ((λ e, (en_student_id e, en_class_id e)) <$> class_enrollments db) →
  Forall (λ e, en_student_id e ∈ st_id <$> Pg.students db)
         (class_enrollments db) →
  Pg.classes db ≠ [] →
  ("" ∉ cl_id <$> Pg.classes db) →
  Forall (λ s, se_session_date s ≠ today env) (attendance_sessions db) →
  (gen_random_uuid env ∉ se_id <$> attendance_sessions db) →
  fault_select_session env = None →
  fault_insert_session env = None →
  fault_insert_records env = None →
  let chosen :=
    (MarkAttendanceClasses.loadClasses name_le order_classes None db st).1 in
  let loaded := (loadStudents order None db chosen).1 in
  let page := foldr toggleAttendance loaded toggles in
  let result := handleSubmit (Some u) env db page in
  title <$> result.2 = ["Attendance submitted!"]
  ∧ selectedClass chosen ∈ cl_id <$> Pg.classes db
  ∧ attendance_sessions result.1.1
    = attendance_sessions db
      ++ [ {| se_id := gen_random_uuid env;
              se_class_id := selectedClass chosen;
              se_session_date := today env;
              se_marked_by := Some (user_id u) |} ]
  ∧ ∃ rows,
      attendance_records result.1.1 = attendance_records db ++ rows
      ∧ ar_student_id <$> rows
        ≡ₚ en_student_id
             <$> filter (λ e, en_class_id e = selectedClass chosen)
                        (class_enrollments db)
      ∧ Forall (λ r,
                  ar_session_id r = gen_random_uuid env
                  ∧ ar_status r
                    = if Nat.even
                           (length (filter (λ sid, sid = ar_student_id r)
                                           toggles))
                      then "PRESENT" else "ABSENT")
               rows.
Proof.
  intros Hp Hdb Huq Hfk Hne Hids Htoday Hfresh Hf1 Hf2 Hf3
    chosen loaded page result.
  assert (selectedClass chosen ∈ cl_id <$> Pg.classes db) as Hchosen
    by by apply loadClasses_page.
  assert (selectedClass chosen ≠ "") as Hclass.
  { intros Heq. apply Hids. by rewrite <- Heq. }
  destruct (loaded_roster_wellformed order db chosen Huq Hfk Hclass)
    as [Hnd Hex].
  destruct (loadStudents_answered order db chosen Hfk Hclass)
    as (k & Hload & Hloaded & Hpresent).
  assert (students loaded = k ∧ selectedClass loaded = selectedClass chosen)
    as [Hk Hsel] by (unfold loaded; by rewrite Hload).
  destruct (toggles_keep_ids toggles loaded) as [Hpage_ids Hpage_sel].
  pose proof (toggles_flags toggles loaded) as Hflags.
  fold page in Hpage_ids, Hpage_sel, Hflags. fold loaded in Hnd, Hex.
  assert (selectedClass page = selectedClass chosen) as Hpage_class
    by congruence.
  assert (submit_attempt u env db (setLoading true page)
          = (with_records
               (with_sessions db
                  (attendance_sessions db
                   ++ [ {| se_id := gen_random_uuid env;
                           se_class_id := selectedClass page;
                           se_session_date := today env;
                           se_marked_by := Some (user_id u) |} ]))
               (attendance_records db
                ++ records_of (gen_random_uuid env) (students page)),
             Ok tt)) as Hattempt.
  { apply (first_submit_attempt u env db (setLoading true page));
      cbn [selectedClass students setLoading]; try done.
    - by rewrite Hpage_class.
    - intros (s & Hkey & Hs)%list_elem_of_fmap.
      apply (proj1 (Forall_forall _ _) Htoday) in Hs.
      injection Hkey as _ Hdate. congruence.
    - by rewrite Hpage_ids.
    - apply Forall_forall. intros x Hx.
      apply (list_elem_of_fmap_2 id) in Hx. rewrite Hpage_ids in Hx.
      apply list_elem_of_fmap in Hx as (y & -> & Hy).
      by apply (proj1 (Forall_forall _ _) Hex). }
  unfold result. rewrite handleSubmit_outcome by congruence.
  rewrite Hattempt. cbn [fst snd submit_toast fmap list_fmap title
    attendance_sessions attendance_records with_records with_sessions].
  rewrite Hpage_class. split_and!; try done.
  exists (records_of (gen_random_uuid env) (students page)).
  split; [done|]. split.
  - by rewrite records_of_students, Hpage_ids, Hk, Hloaded, arrange_rows.
  - unfold records_of. apply Forall_fmap.
    eapply Forall2_Forall_r; [exact Hflags|]. rewrite Hk.
    eapply Forall_impl; [exact Hpresent|].
    intros x Hx y [Hy Hflag]. cbn. split; [done|].
    rewrite Hy, Hflag, Hx. by destruct (Nat.even _).
Qed.

End whole_flow.

(** The sample day from scratch, the roster coming back newest first and
    STU001 marked absent: ten records. *)
Lemma first_use_of_the_day_witness :
  length
    (Pg.attendance_records
       (MarkAttendance.handleSubmit (Some Sample.teacher)
          (Sample.env_ok "a-1") Sample.db0
          (foldr MarkAttendance.toggleAttendance
             (MarkAttendance.loadStudents Pg.newest_first None Sample.db0
                (MarkAttendanceClasses.loadClasses by_code Pg.as_inserted
                   None Sample.db0 Sample.page0).1).1
             ["s-001"])).1.1)
  = 10%nat.
Proof.
  destruct (first_use_of_the_day by_code Pg.as_inserted Pg.newest_first
              Sample.teacher
              (Sample.env_ok "a-1") Sample.db0 Sample.page0 ["s-001"]
              ltac:(by_evaluation)
              ltac:(by_evaluation) ltac:(by_evaluation)
              ltac:(by_evaluation) ltac:(by_evaluation)
              ltac:(by_evaluation) ltac:(by_evaluation)
              ltac:(by_evaluation) eq_refl eq_refl eq_refl)
    as (_ & _ & _ & rows & Hrecords & Hstudents & _).
  rewrite Hrecords, length_app, <- (length_fmap Pg.ar_student_id rows),
    Hstudents.
  reflexivity.
Defined.

(** * The class report *)

Section class_report.
Import Pg PgReports.

Lemma filter_bind_key {A B K} `{EqDecision K} (key_a : A → K) (key_b : B → K)
    (f : A → list B) (k : K) (l : list A) :
  (∀ a, Forall (λ b, key_b b = key_a a) (f a)) →
  filter (λ b, key_b b = k) (l ≫= f) = filter (λ a, key_a a = k) l ≫= f.
Proof.
  intros Hf. induction l as [|a l IH]; [done|].
  rewrite bind_cons, filter_app, filter_cons, IH.
  destruct (decide (key_a a = k)) as [Hk|Hk].
  - rewrite bind_cons. f_equal. apply filter_Forall_all.
    eapply Forall_impl; [apply Hf|]. simpl. congruence.
  - rewrite filter_Forall_not; [done|].
    eapply Forall_impl; [apply Hf|]. simpl. congruence.
Qed.

Lemma filter_eq_singleton {A} `{EqDecision A} (l : list A) a :
  NoDup l → a ∈ l → filter (λ x, x = a) l = [a].
Proof.
  intros Hnd Hin. induction Hnd as [|x l Hx Hl IH]; [by inversion Hin|].
  rewrite filter_cons. apply elem_of_cons in Hin as [->|Hin].
  - rewrite decide_True by done. f_equal. apply filter_Forall_not.
    apply Forall_forall. intros y Hy ->. done.
  - rewrite decide_False; [by apply IH|]. intros ->. done.
Qed.









(** The rows of the view's join that belong to one class. *)
Lemma report_group db c :
  NoDup (classes db) → c ∈ classes db →
  filter (λ row, row.1.1.1 = c) (report_join db)
  = (left_rows c (filter (λ asess, cl_id c = se_class_id asess)
                         (attendance_sessions db))
     ≫= λ x, left_rows x (filter (λ ce, cl_id x.1 = en_class_id ce)
                                 (class_enrollments db)))
    ≫= λ y, left_rows y (filter (λ ar, se_id <$> y.1.2
                                       = Some (ar_session_id ar))
                                (attendance_records db)).
Proof.
  intros Hnd Hc. unfold report_join, left_join.
  rewrite (filter_bind_key (λ y, y.1.1) (λ row, row.1.1.1)).
  2:{ intros y. eapply Forall_impl; [apply left_rows_fst|].
      by intros row ->. }
  rewrite (filter_bind_key (λ x, x.1) (λ y, y.1.1)).
  2:{ intros x. eapply Forall_impl; [apply left_rows_fst|].
      by intros y ->. }
  rewrite (filter_bind_key (λ c', c') (λ x, x.1)).
  2:{ intros c'. apply left_rows_fst. }
  rewrite filter_eq_singleton by done.
  rewrite bind_cons. simpl. by rewrite app_nil_r.
Qed.



Lemma left_rows_inhabited {A B} (a : A) (matches : list B) :
  ∃ o, (a, o) ∈ left_rows a matches.
Proof.
  destruct matches as [|b matches]; [exists None; left|].
  exists (Some b). left.
Qed.




Lemma left_rows_some {A B} (a : A) (matches : list B) x b :
  (x, Some b) ∈ left_rows a matches → x = a ∧ b ∈ matches.
Proof.
  destruct matches as [|b' matches].
  { intros [=]%list_elem_of_singleton. }
  unfold left_rows. intros (b'' & [= -> ->] & Hin)%list_elem_of_fmap. done.
Qed.

Lemma left_rows_of_match {A B} (a : A) (matches : list B) b :
  b ∈ matches → (a, Some b) ∈ left_rows a matches.
Proof.
  destruct matches as [|b' matches]; [by inversion 1|].
  intros Hin. unfold left_rows. by apply (list_elem_of_fmap_2 (λ b, (a, Some b))).
Qed.

Lemma length_remove_dups_same {A} `{EqDecision A} (l k : list A) :
  NoDup k → (∀ x, x ∈ l ↔ x ∈ k) → length (remove_dups l) = length k.
Proof.
  intros Hk Hsame. apply Permutation_length, NoDup_Permutation;
    [apply NoDup_remove_dups|done|].
  intros x. by rewrite elem_of_remove_dups.
Qed.

(** X20.  With class ids, session ids and enrollments unique, the row of a
    class in [class_attendance_report] gives as total_sessions the number of
    the class's sessions and as enrolled_students the number of its
    enrollments: these two columns are not affected by the joins. *)
Theorem class_report_sessions_and_enrollments
    (db : database) (c : class_row) (row : class_attendance_report_row) :
  NoDup (cl_id <$> classes db) →
  NoDup (se_id <$> attendance_sessions db) →
  NoDup ((λ e, (en_student_id e, en_class_id e)) <$> class_enrollments db) →
  c ∈ classes db →
  row ∈ class_attendance_report db →
  car_class row = c →
  car_total_sessions row
  = length (filter (λ asess, cl_id c = se_class_id asess)
                   (attendance_sessions db))
  ∧ car_enrolled_students row
    = length (filter (λ ce, cl_id c = en_class_id ce)
                     (class_enrollments db)).
Proof.
  intros Hpk Hspk Huq Hc (k & -> & _)%list_elem_of_fmap Hk.
  simpl in Hk. subst k. apply NoDup_fmap_1 in Hpk.
  cbn [car_total_sessions car_enrolled_students].
  rewrite report_group by done.
  set (S := filter (λ asess, cl_id c = se_class_id asess)
                   (attendance_sessions db)).
  set (E := filter (λ ce, cl_id c = en_class_id ce) (class_enrollments db)).
  assert (∀ x, x ∈ left_rows c S →
               filter (λ ce, cl_id x.1 = en_class_id ce) (class_enrollments db)
               = E) as HE.
  { intros x Hx.
    by rewrite (proj1 (Forall_forall _ _) (left_rows_fst c S) x Hx). }
  split.
  - rewrite <- (length_fmap se_id S).
    apply length_remove_dups_same; [by apply NoDup_fmap_filter|].
    intros sid. rewrite list_elem_of_omap, list_elem_of_fmap. split.
    + intros ([[[c' os] oe] oar] & Hrow & Hsid). simpl in Hsid.
      apply list_elem_of_bind in Hrow as ([x oe'] & Hrow & Hy).
      apply list_elem_of_bind in Hy as (x' & Hy & Hx).
      apply (proj1 (Forall_forall _ _) (left_rows_fst _ _)) in Hrow.
      apply (proj1 (Forall_forall _ _) (left_rows_fst _ _)) in Hy.
      simpl in *. subst x'. injection Hrow as <- <-.
      destruct os as [s|]; [|done]. injection Hsid as <-.
      apply left_rows_some in Hx as [_ Hs]. by exists s.
    + intros (s & -> & Hs).
      pose proof (left_rows_of_match c S s Hs) as Hx.
      destruct (left_rows_inhabited (c, Some s)
                  (filter (λ ce, cl_id (c, Some s).1 = en_class_id ce)
                          (class_enrollments db))) as [oe Hoe].
      destruct (left_rows_inhabited (c, Some s, oe)
                  (filter (λ ar, se_id <$> (c, Some s, oe).1.2
                                 = Some (ar_session_id ar))
                          (attendance_records db))) as [oar Har].
      exists (c, Some s, oe, oar). split; [|done].
      apply list_elem_of_bind. exists (c, Some s, oe). split; [done|].
      apply list_elem_of_bind. exists (c, Some s). by split.
  - rewrite <- (length_fmap en_student_id E).
    apply length_remove_dups_same.
    { apply (NoDup_fmap_1 (λ sid, (sid, cl_id c))).
      rewrite <- list_fmap_compose.
      erewrite list_fmap_ext;
        [apply (NoDup_fmap_filter (λ e, (en_student_id e, en_class_id e))),
           Huq|].
      intros i e [Heq _]%list_elem_of_lookup_2%list_elem_of_filter.
      simpl. by rewrite Heq. }
    intros sid. rewrite list_elem_of_omap, list_elem_of_fmap. split.
    + intros ([[[c' os] oe] oar] & Hrow & Hsid). simpl in Hsid.
      apply list_elem_of_bind in Hrow as ([x oe'] & Hrow & Hy).
      apply list_elem_of_bind in Hy as (x' & Hy & Hx).
      apply (proj1 (Forall_forall _ _) (left_rows_fst _ _)) in Hrow.
      pose proof (proj1 (Forall_forall _ _) (left_rows_fst _ _) _ Hy) as Hfst.
      simpl in *. subst x'. injection Hrow as <- <-.
      destruct oe as [e|]; [|done]. injection Hsid as <-.
      apply left_rows_some in Hy as [_ He].
      rewrite (HE _ Hx) in He. by exists e.
    + intros (e & -> & He).
      destruct (left_rows_inhabited c S) as [os Hos].
      assert ((c, os, Some e)
              ∈ left_rows (c, os)
                  (filter (λ ce, cl_id (c, os).1 = en_class_id ce)
                          (class_enrollments db))) as Hy.
      { apply left_rows_of_match. by rewrite (HE _ Hos). }
      destruct (left_rows_inhabited (c, os, Some e)
                  (filter (λ ar, se_id <$> (c, os, Some e).1.2
                                 = Some (ar_session_id ar))
                          (attendance_records db))) as [oar Har].
      exists (c, os, Some e, oar). split; [|done].
      apply list_elem_of_bind. exists (c, os, Some e). split; [done|].
      apply list_elem_of_bind. exists (c, os). by split.
Qed.

End class_report.

Lemma class_report_sessions_and_enrollments_witness :
  Forall (λ row, PgReports.car_total_sessions row = 3%nat
                 ∧ PgReports.car_enrolled_students row = 10%nat)
         (PgReports.class_attendance_report Sample.db_three_days).
Proof.
  apply Forall_forall. intros row Hrow.
  assert (PgReports.car_class row
          = {| Pg.cl_id := Sample.cs101; Pg.cl_class_code := "CS101";
               Pg.cl_class_name := "Introduction to Computer Science" |})
    as Hclass.
  { revert row Hrow. apply Forall_forall. by_evaluation. }
  destruct (class_report_sessions_and_enrollments Sample.db_three_days
              {| Pg.cl_id := Sample.cs101; Pg.cl_class_code := "CS101";
                 Pg.cl_class_name := "Introduction to Computer Science" |}
              row ltac:(by_evaluation) ltac:(by_evaluation)
              ltac:(by_evaluation) ltac:(by_evaluation) Hrow Hclass)
    as [-> ->].
  split; vm_compute; reflexivity.
Defined.

